(** * QuizWiz: a shallow embedding of [script.js]

    The script keeps three module-level variables ([currentQuestionIndex],
    [score], [questions]) and drives three DOM elements.  The embedding
    below follows the file top to bottom: the two utilities [decodeHTML]
    and [shuffleArray], the question bank client [fetchQuestions], and the
    event handlers of the quiz.  Platform services the script calls (the
    HTML parser behind [textarea.innerHTML], [Math.random], [fetch], click
    dispatch) are modelled in modules of their own and kept apart from the
    translated functions. *)

From Stdlib Require Import String Ascii DecimalString.
From Stdlib Require Import List ZArith NArith QArith Qround Bool.
From Stdlib Require Import Lia Permutation.
From Stdlib Require HexadecimalString DecimalPos HexadecimalPos.
Import ListNotations.

Set Implicit Arguments.

(** ** JavaScript values used by the script *)

(** A JavaScript string is a sequence of UTF-16 code units. *)
Definition jsstring := list N.

(** ASCII literals of the script as JavaScript strings. *)
Definition lit (s : string) : jsstring :=
  map N_of_ascii (list_ascii_of_string s).

(** [String(n)] for an integral Number. *)
Definition number_to_string (z : Z) : jsstring :=
  lit (NilZero.string_of_int (Z.to_int z)).

(** The errors the script can meet.  [Error] carries the message given to
    its constructor; the engine's own messages are not modelled. *)
Inductive JsError :=
| Error (message : string)
| TypeError
| SyntaxError.

(** Indexing an array with a Number: [undefined] ([None]) out of range. *)
Definition array_get {T} (array : list T) (i : Z) : option T :=
  if (i <? 0)%Z then None else nth_error array (Z.to_nat i).

(** ** Platform model: the HTML parser behind [textarea.innerHTML]

    [decodeHTML] assigns its argument to the [innerHTML] of a fresh
    [textarea] and reads [value] back.  The HTML Standard parses such a
    fragment with the tokenizer in the RCDATA state; in the fragment case
    no end tag is appropriate, so every character is text except [&]
    (a character reference) and U+0000.  The input stream has its newlines
    normalised first, and so has the value the getter returns. *)
Module HTML.

Local Open Scope N_scope.

Definition NUL : N := 0.
Definition LF : N := 10.
Definition CR : N := 13.
Definition NUMBER_SIGN : N := 35.
Definition AMPERSAND : N := 38.
Definition SEMICOLON : N := 59.
Definition REPLACEMENT : N := 65533.

Definition ascii_digit (c : N) : bool := (48 <=? c) && (c <=? 57).
Definition ascii_upper (c : N) : bool := (65 <=? c) && (c <=? 90).
Definition ascii_lower (c : N) : bool := (97 <=? c) && (c <=? 122).
Definition ascii_alphanumeric (c : N) : bool :=
  ascii_digit c || ascii_upper c || ascii_lower c.
Definition ascii_hex_digit (c : N) : bool :=
  ascii_digit c || ((65 <=? c) && (c <=? 70)) || ((97 <=? c) && (c <=? 102)).

(** Every CR LF pair and every lone CR becomes one LF. *)
Fixpoint normalize_newlines (s : jsstring) : jsstring :=
  match s with
  | [] => []
  | c :: rest =>
      if c =? CR then
        match rest with
        | c' :: rest' =>
            if c' =? LF then LF :: normalize_newlines rest'
            else LF :: normalize_newlines rest
        | [] => [LF]
        end
      else c :: normalize_newlines rest
  end.

(** *** Numeric character references *)

Fixpoint take_while (p : N -> bool) (s : jsstring) : jsstring :=
  match s with
  | c :: rest => if p c then c :: take_while p rest else []
  | [] => []
  end.

Definition digit_value (c : N) : N :=
  if ascii_digit c then c - 48
  else if ascii_upper c then c - 55
  else c - 87.

Definition reference_code (base : N) (digits : jsstring) : N :=
  fold_left (fun code d => code * base + digit_value d) digits 0.

(** The replacements of the numeric character reference end state for
    the codes 0x80 to 0x9F. *)
Definition c1_replacement (code : N) : option N :=
  match code with
  | 128 => Some 8364 | 130 => Some 8218 | 131 => Some 402
  | 132 => Some 8222 | 133 => Some 8230 | 134 => Some 8224
  | 135 => Some 8225 | 136 => Some 710 | 137 => Some 8240
  | 138 => Some 352 | 139 => Some 8249 | 140 => Some 338
  | 142 => Some 381 | 145 => Some 8216 | 146 => Some 8217
  | 147 => Some 8220 | 148 => Some 8221 | 149 => Some 8226
  | 150 => Some 8211 | 151 => Some 8212 | 152 => Some 732
  | 153 => Some 8482 | 154 => Some 353 | 155 => Some 8250
  | 156 => Some 339 | 158 => Some 382 | 159 => Some 376
  | _ => None
  end.

Definition surrogate (code : N) : bool := (55296 <=? code) && (code <=? 57343).

Definition numeric_reference_end (code : N) : N :=
  if code =? 0 then REPLACEMENT
  else if 1114111 <? code then REPLACEMENT
  else if surrogate code then REPLACEMENT
  else match c1_replacement code with
       | Some c => c
       | None => code
       end.

(** A code point as UTF-16 code units. *)
Definition utf16 (cp : N) : jsstring :=
  if cp <? 65536 then [cp]
  else [55296 + (cp - 65536) / 1024; 56320 + (cp - 65536) mod 1024].

(** The text after [&#]: an optional [x] or [X], digits, an optional
    [;].  The result is the text produced and the number of code units
    consumed after the ampersand; without a digit nothing is a
    reference. *)
Definition numeric_reference (s : jsstring) : option (jsstring * nat) :=
  let '(hex, body) :=
    match s with
    | c :: rest => if (c =? 120) || (c =? 88) then (true, rest) else (false, s)
    | [] => (false, s)
    end in
  let digits := take_while (if hex then ascii_hex_digit else ascii_digit) body in
  match digits with
  | [] => None
  | _ :: _ =>
      let semicolon :=
        match skipn (length digits) body with
        | c :: _ => if c =? SEMICOLON then 1%nat else 0%nat
        | [] => 0%nat
        end in
      Some (utf16 (numeric_reference_end
                     (reference_code (if hex then 16 else 10) digits)),
            (1 + (if hex then 1 else 0) + length digits + semicolon)%nat)
  end.

(** *** Named character references *)

Fixpoint starts_with (name s : jsstring) : bool :=
  match name, s with
  | [], _ => true
  | n :: name', c :: s' => (n =? c) && starts_with name' s'
  | _ :: _, [] => false
  end.

Section Tokenizer.

(** The table of named character references: identifier (with its
    semicolon when it has one) and replacement text. *)
Variable table : list (string * jsstring).

(** The longest identifier of the table the input starts with. *)
Definition longest_match (s : jsstring) : option (jsstring * jsstring) :=
  fold_left
    (fun best entry =>
       let name := lit (fst entry) in
       if starts_with name s then
         match best with
         | Some (name', _) =>
             if (length name' <? length name)%nat
             then Some (name, snd entry) else best
         | None => Some (name, snd entry)
         end
       else best)
    table None.

(** What follows an ampersand: [Some (text, n)] when the next [n]
    code units form a character reference that stands for [text],
    [None] when the ampersand is literal text. *)
Definition character_reference (s : jsstring) : option (jsstring * nat) :=
  match s with
  | c :: rest =>
      if c =? NUMBER_SIGN then numeric_reference rest
      else if ascii_alphanumeric c then
        match longest_match s with
        | Some (name, replacement) => Some (replacement, length name)
        | None => None
        end
      else None
  | [] => None
  end.

(** The RCDATA state.  [skip] counts the code units still to pass
    over because a character reference consumed them. *)
Fixpoint rcdata (skip : nat) (s : jsstring) : jsstring :=
  match s with
  | [] => []
  | c :: rest =>
      match skip with
      | S k => rcdata k rest
      | O =>
          if c =? AMPERSAND then
            match character_reference rest with
            | Some (text, n) => text ++ rcdata n rest
            | None => AMPERSAND :: rcdata 0 rest
            end
          else if c =? NUL then REPLACEMENT :: rcdata 0 rest
          else c :: rcdata 0 rest
      end
  end.

End Tokenizer.

(** The table of named character references of the HTML Standard, all
    2231 of them: the identifier after the ampersand, with its semicolon
    when it has one (106 identifiers are also listed without), and the
    replacement text in UTF-16 code units. *)
Definition named_character_references : list (string * jsstring) :=
[
  ("AElig", [198]);
  ("AElig;", [198]);
  ("AMP", [38]);
  ("AMP;", [38]);
  ("Aacute", [193]);
  ("Aacute;", [193]);
  ("Abreve;", [258]);
  ("Acirc", [194]);
  ("Acirc;", [194]);
  ("Acy;", [1040]);
  ("Afr;", [55349; 56580]);
  ("Agrave", [192]);
  ("Agrave;", [192]);
  ("Alpha;", [913]);
  ("Amacr;", [256]);
  ("And;", [10835]);
  ("Aogon;", [260]);
  ("Aopf;", [55349; 56632]);
  ("ApplyFunction;", [8289]);
  ("Aring", [197]);
  ("Aring;", [197]);
  ("Ascr;", [55349; 56476]);
  ("Assign;", [8788]);
  ("Atilde", [195]);
  ("Atilde;", [195]);
  ("Auml", [196]);
  ("Auml;", [196]);
  ("Backslash;", [8726]);
  ("Barv;", [10983]);
  ("Barwed;", [8966]);
  ("Bcy;", [1041]);
  ("Because;", [8757]);
  ("Bernoullis;", [8492]);
  ("Beta;", [914]);
  ("Bfr;", [55349; 56581]);
  ("Bopf;", [55349; 56633]);
  ("Breve;", [728]);
  ("Bscr;", [8492]);
  ("Bumpeq;", [8782]);
  ("CHcy;", [1063]);
  ("COPY", [169]);
  ("COPY;", [169]);
  ("Cacute;", [262]);
  ("Cap;", [8914]);
  ("CapitalDifferentialD;", [8517]);
  ("Cayleys;", [8493]);
  ("Ccaron;", [268]);
  ("Ccedil", [199]);
  ("Ccedil;", [199]);
  ("Ccirc;", [264]);
  ("Cconint;", [8752]);
  ("Cdot;", [266]);
  ("Cedilla;", [184]);
  ("CenterDot;", [183]);
  ("Cfr;", [8493]);
  ("Chi;", [935]);
  ("CircleDot;", [8857]);
  ("CircleMinus;", [8854]);
  ("CirclePlus;", [8853]);
  ("CircleTimes;", [8855]);
  ("ClockwiseContourIntegral;", [8754]);
  ("CloseCurlyDoubleQuote;", [8221]);
  ("CloseCurlyQuote;", [8217]);
  ("Colon;", [8759]);
  ("Colone;", [10868]);
  ("Congruent;", [8801]);
  ("Conint;", [8751]);
  ("ContourIntegral;", [8750]);
  ("Copf;", [8450]);
  ("Coproduct;", [8720]);
  ("CounterClockwiseContourIntegral;", [8755]);
  ("Cross;", [10799]);
  ("Cscr;", [55349; 56478]);
  ("Cup;", [8915]);
  ("CupCap;", [8781]);
  ("DD;", [8517]);
  ("DDotrahd;", [10513]);
  ("DJcy;", [1026]);
  ("DScy;", [1029]);
  ("DZcy;", [1039]);
  ("Dagger;", [8225]);
  ("Darr;", [8609]);
  ("Dashv;", [10980]);
  ("Dcaron;", [270]);
  ("Dcy;", [1044]);
  ("Del;", [8711]);
  ("Delta;", [916]);
  ("Dfr;", [55349; 56583]);
  ("DiacriticalAcute;", [180]);
  ("DiacriticalDot;", [729]);
  ("DiacriticalDoubleAcute;", [733]);
  ("DiacriticalGrave;", [96]);
  ("DiacriticalTilde;", [732]);
  ("Diamond;", [8900]);
  ("DifferentialD;", [8518]);
  ("Dopf;", [55349; 56635]);
  ("Dot;", [168]);
  ("DotDot;", [8412]);
  ("DotEqual;", [8784]);
  ("DoubleContourIntegral;", [8751]);
  ("DoubleDot;", [168]);
  ("DoubleDownArrow;", [8659]);
  ("DoubleLeftArrow;", [8656]);
  ("DoubleLeftRightArrow;", [8660]);
  ("DoubleLeftTee;", [10980]);
  ("DoubleLongLeftArrow;", [10232]);
  ("DoubleLongLeftRightArrow;", [10234]);
  ("DoubleLongRightArrow;", [10233]);
  ("DoubleRightArrow;", [8658]);
  ("DoubleRightTee;", [8872]);
  ("DoubleUpArrow;", [8657]);
  ("DoubleUpDownArrow;", [8661]);
  ("DoubleVerticalBar;", [8741]);
  ("DownArrow;", [8595]);
  ("DownArrowBar;", [10515]);
  ("DownArrowUpArrow;", [8693]);
  ("DownBreve;", [785]);
  ("DownLeftRightVector;", [10576]);
  ("DownLeftTeeVector;", [10590]);
  ("DownLeftVector;", [8637]);
  ("DownLeftVectorBar;", [10582]);
  ("DownRightTeeVector;", [10591]);
  ("DownRightVector;", [8641]);
  ("DownRightVectorBar;", [10583]);
  ("DownTee;", [8868]);
  ("DownTeeArrow;", [8615]);
  ("Downarrow;", [8659]);
  ("Dscr;", [55349; 56479]);
  ("Dstrok;", [272]);
  ("ENG;", [330]);
  ("ETH", [208]);
  ("ETH;", [208]);
  ("Eacute", [201]);
  ("Eacute;", [201]);
  ("Ecaron;", [282]);
  ("Ecirc", [202]);
  ("Ecirc;", [202]);
  ("Ecy;", [1069]);
  ("Edot;", [278]);
  ("Efr;", [55349; 56584]);
  ("Egrave", [200]);
  ("Egrave;", [200]);
  ("Element;", [8712]);
  ("Emacr;", [274]);
  ("EmptySmallSquare;", [9723]);
  ("EmptyVerySmallSquare;", [9643]);
  ("Eogon;", [280]);
  ("Eopf;", [55349; 56636]);
  ("Epsilon;", [917]);
  ("Equal;", [10869]);
  ("EqualTilde;", [8770]);
  ("Equilibrium;", [8652]);
  ("Escr;", [8496]);
  ("Esim;", [10867]);
  ("Eta;", [919]);
  ("Euml", [203]);
  ("Euml;", [203]);
  ("Exists;", [8707]);
  ("ExponentialE;", [8519]);
  ("Fcy;", [1060]);
  ("Ffr;", [55349; 56585]);
  ("FilledSmallSquare;", [9724]);
  ("FilledVerySmallSquare;", [9642]);
  ("Fopf;", [55349; 56637]);
  ("ForAll;", [8704]);
  ("Fouriertrf;", [8497]);
  ("Fscr;", [8497]);
  ("GJcy;", [1027]);
  ("GT", [62]);
  ("GT;", [62]);
  ("Gamma;", [915]);
  ("Gammad;", [988]);
  ("Gbreve;", [286]);
  ("Gcedil;", [290]);
  ("Gcirc;", [284]);
  ("Gcy;", [1043]);
  ("Gdot;", [288]);
  ("Gfr;", [55349; 56586]);
  ("Gg;", [8921]);
  ("Gopf;", [55349; 56638]);
  ("GreaterEqual;", [8805]);
  ("GreaterEqualLess;", [8923]);
  ("GreaterFullEqual;", [8807]);
  ("GreaterGreater;", [10914]);
  ("GreaterLess;", [8823]);
  ("GreaterSlantEqual;", [10878]);
  ("GreaterTilde;", [8819]);
  ("Gscr;", [55349; 56482]);
  ("Gt;", [8811]);
  ("HARDcy;", [1066]);
  ("Hacek;", [711]);
  ("Hat;", [94]);
  ("Hcirc;", [292]);
  ("Hfr;", [8460]);
  ("HilbertSpace;", [8459]);
  ("Hopf;", [8461]);
  ("HorizontalLine;", [9472]);
  ("Hscr;", [8459]);
  ("Hstrok;", [294]);
  ("HumpDownHump;", [8782]);
  ("HumpEqual;", [8783]);
  ("IEcy;", [1045]);
  ("IJlig;", [306]);
  ("IOcy;", [1025]);
  ("Iacute", [205]);
  ("Iacute;", [205]);
  ("Icirc", [206]);
  ("Icirc;", [206]);
  ("Icy;", [1048]);
  ("Idot;", [304]);
  ("Ifr;", [8465]);
  ("Igrave", [204]);
  ("Igrave;", [204]);
  ("Im;", [8465]);
  ("Imacr;", [298]);
  ("ImaginaryI;", [8520]);
  ("Implies;", [8658]);
  ("Int;", [8748]);
  ("Integral;", [8747]);
  ("Intersection;", [8898]);
  ("InvisibleComma;", [8291]);
  ("InvisibleTimes;", [8290]);
  ("Iogon;", [302]);
  ("Iopf;", [55349; 56640]);
  ("Iota;", [921]);
  ("Iscr;", [8464]);
  ("Itilde;", [296]);
  ("Iukcy;", [1030]);
  ("Iuml", [207]);
  ("Iuml;", [207]);
  ("Jcirc;", [308]);
  ("Jcy;", [1049]);
  ("Jfr;", [55349; 56589]);
  ("Jopf;", [55349; 56641]);
  ("Jscr;", [55349; 56485]);
  ("Jsercy;", [1032]);
  ("Jukcy;", [1028]);
  ("KHcy;", [1061]);
  ("KJcy;", [1036]);
  ("Kappa;", [922]);
  ("Kcedil;", [310]);
  ("Kcy;", [1050]);
  ("Kfr;", [55349; 56590]);
  ("Kopf;", [55349; 56642]);
  ("Kscr;", [55349; 56486]);
  ("LJcy;", [1033]);
  ("LT", [60]);
  ("LT;", [60]);
  ("Lacute;", [313]);
  ("Lambda;", [923]);
  ("Lang;", [10218]);
  ("Laplacetrf;", [8466]);
  ("Larr;", [8606]);
  ("Lcaron;", [317]);
  ("Lcedil;", [315]);
  ("Lcy;", [1051]);
  ("LeftAngleBracket;", [10216]);
  ("LeftArrow;", [8592]);
  ("LeftArrowBar;", [8676]);
  ("LeftArrowRightArrow;", [8646]);
  ("LeftCeiling;", [8968]);
  ("LeftDoubleBracket;", [10214]);
  ("LeftDownTeeVector;", [10593]);
  ("LeftDownVector;", [8643]);
  ("LeftDownVectorBar;", [10585]);
  ("LeftFloor;", [8970]);
  ("LeftRightArrow;", [8596]);
  ("LeftRightVector;", [10574]);
  ("LeftTee;", [8867]);
  ("LeftTeeArrow;", [8612]);
  ("LeftTeeVector;", [10586]);
  ("LeftTriangle;", [8882]);
  ("LeftTriangleBar;", [10703]);
  ("LeftTriangleEqual;", [8884]);
  ("LeftUpDownVector;", [10577]);
  ("LeftUpTeeVector;", [10592]);
  ("LeftUpVector;", [8639]);
  ("LeftUpVectorBar;", [10584]);
  ("LeftVector;", [8636]);
  ("LeftVectorBar;", [10578]);
  ("Leftarrow;", [8656]);
  ("Leftrightarrow;", [8660]);
  ("LessEqualGreater;", [8922]);
  ("LessFullEqual;", [8806]);
  ("LessGreater;", [8822]);
  ("LessLess;", [10913]);
  ("LessSlantEqual;", [10877]);
  ("LessTilde;", [8818]);
  ("Lfr;", [55349; 56591]);
  ("Ll;", [8920]);
  ("Lleftarrow;", [8666]);
  ("Lmidot;", [319]);
  ("LongLeftArrow;", [10229]);
  ("LongLeftRightArrow;", [10231]);
  ("LongRightArrow;", [10230]);
  ("Longleftarrow;", [10232]);
  ("Longleftrightarrow;", [10234]);
  ("Longrightarrow;", [10233]);
  ("Lopf;", [55349; 56643]);
  ("LowerLeftArrow;", [8601]);
  ("LowerRightArrow;", [8600]);
  ("Lscr;", [8466]);
  ("Lsh;", [8624]);
  ("Lstrok;", [321]);
  ("Lt;", [8810]);
  ("Map;", [10501]);
  ("Mcy;", [1052]);
  ("MediumSpace;", [8287]);
  ("Mellintrf;", [8499]);
  ("Mfr;", [55349; 56592]);
  ("MinusPlus;", [8723]);
  ("Mopf;", [55349; 56644]);
  ("Mscr;", [8499]);
  ("Mu;", [924]);
  ("NJcy;", [1034]);
  ("Nacute;", [323]);
  ("Ncaron;", [327]);
  ("Ncedil;", [325]);
  ("Ncy;", [1053]);
  ("NegativeMediumSpace;", [8203]);
  ("NegativeThickSpace;", [8203]);
  ("NegativeThinSpace;", [8203]);
  ("NegativeVeryThinSpace;", [8203]);
  ("NestedGreaterGreater;", [8811]);
  ("NestedLessLess;", [8810]);
  ("NewLine;", [10]);
  ("Nfr;", [55349; 56593]);
  ("NoBreak;", [8288]);
  ("NonBreakingSpace;", [160]);
  ("Nopf;", [8469]);
  ("Not;", [10988]);
  ("NotCongruent;", [8802]);
  ("NotCupCap;", [8813]);
  ("NotDoubleVerticalBar;", [8742]);
  ("NotElement;", [8713]);
  ("NotEqual;", [8800]);
  ("NotEqualTilde;", [8770; 824]);
  ("NotExists;", [8708]);
  ("NotGreater;", [8815]);
  ("NotGreaterEqual;", [8817]);
  ("NotGreaterFullEqual;", [8807; 824]);
  ("NotGreaterGreater;", [8811; 824]);
  ("NotGreaterLess;", [8825]);
  ("NotGreaterSlantEqual;", [10878; 824]);
  ("NotGreaterTilde;", [8821]);
  ("NotHumpDownHump;", [8782; 824]);
  ("NotHumpEqual;", [8783; 824]);
  ("NotLeftTriangle;", [8938]);
  ("NotLeftTriangleBar;", [10703; 824]);
  ("NotLeftTriangleEqual;", [8940]);
  ("NotLess;", [8814]);
  ("NotLessEqual;", [8816]);
  ("NotLessGreater;", [8824]);
  ("NotLessLess;", [8810; 824]);
  ("NotLessSlantEqual;", [10877; 824]);
  ("NotLessTilde;", [8820]);
  ("NotNestedGreaterGreater;", [10914; 824]);
  ("NotNestedLessLess;", [10913; 824]);
  ("NotPrecedes;", [8832]);
  ("NotPrecedesEqual;", [10927; 824]);
  ("NotPrecedesSlantEqual;", [8928]);
  ("NotReverseElement;", [8716]);
  ("NotRightTriangle;", [8939]);
  ("NotRightTriangleBar;", [10704; 824]);
  ("NotRightTriangleEqual;", [8941]);
  ("NotSquareSubset;", [8847; 824]);
  ("NotSquareSubsetEqual;", [8930]);
  ("NotSquareSuperset;", [8848; 824]);
  ("NotSquareSupersetEqual;", [8931]);
  ("NotSubset;", [8834; 8402]);
  ("NotSubsetEqual;", [8840]);
  ("NotSucceeds;", [8833]);
  ("NotSucceedsEqual;", [10928; 824]);
  ("NotSucceedsSlantEqual;", [8929]);
  ("NotSucceedsTilde;", [8831; 824]);
  ("NotSuperset;", [8835; 8402]);
  ("NotSupersetEqual;", [8841]);
  ("NotTilde;", [8769]);
  ("NotTildeEqual;", [8772]);
  ("NotTildeFullEqual;", [8775]);
  ("NotTildeTilde;", [8777]);
  ("NotVerticalBar;", [8740]);
  ("Nscr;", [55349; 56489]);
  ("Ntilde", [209]);
  ("Ntilde;", [209]);
  ("Nu;", [925]);
  ("OElig;", [338]);
  ("Oacute", [211]);
  ("Oacute;", [211]);
  ("Ocirc", [212]);
  ("Ocirc;", [212]);
  ("Ocy;", [1054]);
  ("Odblac;", [336]);
  ("Ofr;", [55349; 56594]);
  ("Ograve", [210]);
  ("Ograve;", [210]);
  ("Omacr;", [332]);
  ("Omega;", [937]);
  ("Omicron;", [927]);
  ("Oopf;", [55349; 56646]);
  ("OpenCurlyDoubleQuote;", [8220]);
  ("OpenCurlyQuote;", [8216]);
  ("Or;", [10836]);
  ("Oscr;", [55349; 56490]);
  ("Oslash", [216]);
  ("Oslash;", [216]);
  ("Otilde", [213]);
  ("Otilde;", [213]);
  ("Otimes;", [10807]);
  ("Ouml", [214]);
  ("Ouml;", [214]);
  ("OverBar;", [8254]);
  ("OverBrace;", [9182]);
  ("OverBracket;", [9140]);
  ("OverParenthesis;", [9180]);
  ("PartialD;", [8706]);
  ("Pcy;", [1055]);
  ("Pfr;", [55349; 56595]);
  ("Phi;", [934]);
  ("Pi;", [928]);
  ("PlusMinus;", [177]);
  ("Poincareplane;", [8460]);
  ("Popf;", [8473]);
  ("Pr;", [10939]);
  ("Precedes;", [8826]);
  ("PrecedesEqual;", [10927]);
  ("PrecedesSlantEqual;", [8828]);
  ("PrecedesTilde;", [8830]);
  ("Prime;", [8243]);
  ("Product;", [8719]);
  ("Proportion;", [8759]);
  ("Proportional;", [8733]);
  ("Pscr;", [55349; 56491]);
  ("Psi;", [936]);
  ("QUOT", [34]);
  ("QUOT;", [34]);
  ("Qfr;", [55349; 56596]);
  ("Qopf;", [8474]);
  ("Qscr;", [55349; 56492]);
  ("RBarr;", [10512]);
  ("REG", [174]);
  ("REG;", [174]);
  ("Racute;", [340]);
  ("Rang;", [10219]);
  ("Rarr;", [8608]);
  ("Rarrtl;", [10518]);
  ("Rcaron;", [344]);
  ("Rcedil;", [342]);
  ("Rcy;", [1056]);
  ("Re;", [8476]);
  ("ReverseElement;", [8715]);
  ("ReverseEquilibrium;", [8651]);
  ("ReverseUpEquilibrium;", [10607]);
  ("Rfr;", [8476]);
  ("Rho;", [929]);
  ("RightAngleBracket;", [10217]);
  ("RightArrow;", [8594]);
  ("RightArrowBar;", [8677]);
  ("RightArrowLeftArrow;", [8644]);
  ("RightCeiling;", [8969]);
  ("RightDoubleBracket;", [10215]);
  ("RightDownTeeVector;", [10589]);
  ("RightDownVector;", [8642]);
  ("RightDownVectorBar;", [10581]);
  ("RightFloor;", [8971]);
  ("RightTee;", [8866]);
  ("RightTeeArrow;", [8614]);
  ("RightTeeVector;", [10587]);
  ("RightTriangle;", [8883]);
  ("RightTriangleBar;", [10704]);
  ("RightTriangleEqual;", [8885]);
  ("RightUpDownVector;", [10575]);
  ("RightUpTeeVector;", [10588]);
  ("RightUpVector;", [8638]);
  ("RightUpVectorBar;", [10580]);
  ("RightVector;", [8640]);
  ("RightVectorBar;", [10579]);
  ("Rightarrow;", [8658]);
  ("Ropf;", [8477]);
  ("RoundImplies;", [10608]);
  ("Rrightarrow;", [8667]);
  ("Rscr;", [8475]);
  ("Rsh;", [8625]);
  ("RuleDelayed;", [10740]);
  ("SHCHcy;", [1065]);
  ("SHcy;", [1064]);
  ("SOFTcy;", [1068]);
  ("Sacute;", [346]);
  ("Sc;", [10940]);
  ("Scaron;", [352]);
  ("Scedil;", [350]);
  ("Scirc;", [348]);
  ("Scy;", [1057]);
  ("Sfr;", [55349; 56598]);
  ("ShortDownArrow;", [8595]);
  ("ShortLeftArrow;", [8592]);
  ("ShortRightArrow;", [8594]);
  ("ShortUpArrow;", [8593]);
  ("Sigma;", [931]);
  ("SmallCircle;", [8728]);
  ("Sopf;", [55349; 56650]);
  ("Sqrt;", [8730]);
  ("Square;", [9633]);
  ("SquareIntersection;", [8851]);
  ("SquareSubset;", [8847]);
  ("SquareSubsetEqual;", [8849]);
  ("SquareSuperset;", [8848]);
  ("SquareSupersetEqual;", [8850]);
  ("SquareUnion;", [8852]);
  ("Sscr;", [55349; 56494]);
  ("Star;", [8902]);
  ("Sub;", [8912]);
  ("Subset;", [8912]);
  ("SubsetEqual;", [8838]);
  ("Succeeds;", [8827]);
  ("SucceedsEqual;", [10928]);
  ("SucceedsSlantEqual;", [8829]);
  ("SucceedsTilde;", [8831]);
  ("SuchThat;", [8715]);
  ("Sum;", [8721]);
  ("Sup;", [8913]);
  ("Superset;", [8835]);
  ("SupersetEqual;", [8839]);
  ("Supset;", [8913]);
  ("THORN", [222]);
  ("THORN;", [222]);
  ("TRADE;", [8482]);
  ("TSHcy;", [1035]);
  ("TScy;", [1062]);
  ("Tab;", [9]);
  ("Tau;", [932]);
  ("Tcaron;", [356]);
  ("Tcedil;", [354]);
  ("Tcy;", [1058]);
  ("Tfr;", [55349; 56599]);
  ("Therefore;", [8756]);
  ("Theta;", [920]);
  ("ThickSpace;", [8287; 8202]);
  ("ThinSpace;", [8201]);
  ("Tilde;", [8764]);
  ("TildeEqual;", [8771]);
  ("TildeFullEqual;", [8773]);
  ("TildeTilde;", [8776]);
  ("Topf;", [55349; 56651]);
  ("TripleDot;", [8411]);
  ("Tscr;", [55349; 56495]);
  ("Tstrok;", [358]);
  ("Uacute", [218]);
  ("Uacute;", [218]);
  ("Uarr;", [8607]);
  ("Uarrocir;", [10569]);
  ("Ubrcy;", [1038]);
  ("Ubreve;", [364]);
  ("Ucirc", [219]);
  ("Ucirc;", [219]);
  ("Ucy;", [1059]);
  ("Udblac;", [368]);
  ("Ufr;", [55349; 56600]);
  ("Ugrave", [217]);
  ("Ugrave;", [217]);
  ("Umacr;", [362]);
  ("UnderBar;", [95]);
  ("UnderBrace;", [9183]);
  ("UnderBracket;", [9141]);
  ("UnderParenthesis;", [9181]);
  ("Union;", [8899]);
  ("UnionPlus;", [8846]);
  ("Uogon;", [370]);
  ("Uopf;", [55349; 56652]);
  ("UpArrow;", [8593]);
  ("UpArrowBar;", [10514]);
  ("UpArrowDownArrow;", [8645]);
  ("UpDownArrow;", [8597]);
  ("UpEquilibrium;", [10606]);
  ("UpTee;", [8869]);
  ("UpTeeArrow;", [8613]);
  ("Uparrow;", [8657]);
  ("Updownarrow;", [8661]);
  ("UpperLeftArrow;", [8598]);
  ("UpperRightArrow;", [8599]);
  ("Upsi;", [978]);
  ("Upsilon;", [933]);
  ("Uring;", [366]);
  ("Uscr;", [55349; 56496]);
  ("Utilde;", [360]);
  ("Uuml", [220]);
  ("Uuml;", [220]);
  ("VDash;", [8875]);
  ("Vbar;", [10987]);
  ("Vcy;", [1042]);
  ("Vdash;", [8873]);
  ("Vdashl;", [10982]);
  ("Vee;", [8897]);
  ("Verbar;", [8214]);
  ("Vert;", [8214]);
  ("VerticalBar;", [8739]);
  ("VerticalLine;", [124]);
  ("VerticalSeparator;", [10072]);
  ("VerticalTilde;", [8768]);
  ("VeryThinSpace;", [8202]);
  ("Vfr;", [55349; 56601]);
  ("Vopf;", [55349; 56653]);
  ("Vscr;", [55349; 56497]);
  ("Vvdash;", [8874]);
  ("Wcirc;", [372]);
  ("Wedge;", [8896]);
  ("Wfr;", [55349; 56602]);
  ("Wopf;", [55349; 56654]);
  ("Wscr;", [55349; 56498]);
  ("Xfr;", [55349; 56603]);
  ("Xi;", [926]);
  ("Xopf;", [55349; 56655]);
  ("Xscr;", [55349; 56499]);
  ("YAcy;", [1071]);
  ("YIcy;", [1031]);
  ("YUcy;", [1070]);
  ("Yacute", [221]);
  ("Yacute;", [221]);
  ("Ycirc;", [374]);
  ("Ycy;", [1067]);
  ("Yfr;", [55349; 56604]);
  ("Yopf;", [55349; 56656]);
  ("Yscr;", [55349; 56500]);
  ("Yuml;", [376]);
  ("ZHcy;", [1046]);
  ("Zacute;", [377]);
  ("Zcaron;", [381]);
  ("Zcy;", [1047]);
  ("Zdot;", [379]);
  ("ZeroWidthSpace;", [8203]);
  ("Zeta;", [918]);
  ("Zfr;", [8488]);
  ("Zopf;", [8484]);
  ("Zscr;", [55349; 56501]);
  ("aacute", [225]);
  ("aacute;", [225]);
  ("abreve;", [259]);
  ("ac;", [8766]);
  ("acE;", [8766; 819]);
  ("acd;", [8767]);
  ("acirc", [226]);
  ("acirc;", [226]);
  ("acute", [180]);
  ("acute;", [180]);
  ("acy;", [1072]);
  ("aelig", [230]);
  ("aelig;", [230]);
  ("af;", [8289]);
  ("afr;", [55349; 56606]);
  ("agrave", [224]);
  ("agrave;", [224]);
  ("alefsym;", [8501]);
  ("aleph;", [8501]);
  ("alpha;", [945]);
  ("amacr;", [257]);
  ("amalg;", [10815]);
  ("amp", [38]);
  ("amp;", [38]);
  ("and;", [8743]);
  ("andand;", [10837]);
  ("andd;", [10844]);
  ("andslope;", [10840]);
  ("andv;", [10842]);
  ("ang;", [8736]);
  ("ange;", [10660]);
  ("angle;", [8736]);
  ("angmsd;", [8737]);
  ("angmsdaa;", [10664]);
  ("angmsdab;", [10665]);
  ("angmsdac;", [10666]);
  ("angmsdad;", [10667]);
  ("angmsdae;", [10668]);
  ("angmsdaf;", [10669]);
  ("angmsdag;", [10670]);
  ("angmsdah;", [10671]);
  ("angrt;", [8735]);
  ("angrtvb;", [8894]);
  ("angrtvbd;", [10653]);
  ("angsph;", [8738]);
  ("angst;", [197]);
  ("angzarr;", [9084]);
  ("aogon;", [261]);
  ("aopf;", [55349; 56658]);
  ("ap;", [8776]);
  ("apE;", [10864]);
  ("apacir;", [10863]);
  ("ape;", [8778]);
  ("apid;", [8779]);
  ("apos;", [39]);
  ("approx;", [8776]);
  ("approxeq;", [8778]);
  ("aring", [229]);
  ("aring;", [229]);
  ("ascr;", [55349; 56502]);
  ("ast;", [42]);
  ("asymp;", [8776]);
  ("asympeq;", [8781]);
  ("atilde", [227]);
  ("atilde;", [227]);
  ("auml", [228]);
  ("auml;", [228]);
  ("awconint;", [8755]);
  ("awint;", [10769]);
  ("bNot;", [10989]);
  ("backcong;", [8780]);
  ("backepsilon;", [1014]);
  ("backprime;", [8245]);
  ("backsim;", [8765]);
  ("backsimeq;", [8909]);
  ("barvee;", [8893]);
  ("barwed;", [8965]);
  ("barwedge;", [8965]);
  ("bbrk;", [9141]);
  ("bbrktbrk;", [9142]);
  ("bcong;", [8780]);
  ("bcy;", [1073]);
  ("bdquo;", [8222]);
  ("becaus;", [8757]);
  ("because;", [8757]);
  ("bemptyv;", [10672]);
  ("bepsi;", [1014]);
  ("bernou;", [8492]);
  ("beta;", [946]);
  ("beth;", [8502]);
  ("between;", [8812]);
  ("bfr;", [55349; 56607]);
  ("bigcap;", [8898]);
  ("bigcirc;", [9711]);
  ("bigcup;", [8899]);
  ("bigodot;", [10752]);
  ("bigoplus;", [10753]);
  ("bigotimes;", [10754]);
  ("bigsqcup;", [10758]);
  ("bigstar;", [9733]);
  ("bigtriangledown;", [9661]);
  ("bigtriangleup;", [9651]);
  ("biguplus;", [10756]);
  ("bigvee;", [8897]);
  ("bigwedge;", [8896]);
  ("bkarow;", [10509]);
  ("blacklozenge;", [10731]);
  ("blacksquare;", [9642]);
  ("blacktriangle;", [9652]);
  ("blacktriangledown;", [9662]);
  ("blacktriangleleft;", [9666]);
  ("blacktriangleright;", [9656]);
  ("blank;", [9251]);
  ("blk12;", [9618]);
  ("blk14;", [9617]);
  ("blk34;", [9619]);
  ("block;", [9608]);
  ("bne;", [61; 8421]);
  ("bnequiv;", [8801; 8421]);
  ("bnot;", [8976]);
  ("bopf;", [55349; 56659]);
  ("bot;", [8869]);
  ("bottom;", [8869]);
  ("bowtie;", [8904]);
  ("boxDL;", [9559]);
  ("boxDR;", [9556]);
  ("boxDl;", [9558]);
  ("boxDr;", [9555]);
  ("boxH;", [9552]);
  ("boxHD;", [9574]);
  ("boxHU;", [9577]);
  ("boxHd;", [9572]);
  ("boxHu;", [9575]);
  ("boxUL;", [9565]);
  ("boxUR;", [9562]);
  ("boxUl;", [9564]);
  ("boxUr;", [9561]);
  ("boxV;", [9553]);
  ("boxVH;", [9580]);
  ("boxVL;", [9571]);
  ("boxVR;", [9568]);
  ("boxVh;", [9579]);
  ("boxVl;", [9570]);
  ("boxVr;", [9567]);
  ("boxbox;", [10697]);
  ("boxdL;", [9557]);
  ("boxdR;", [9554]);
  ("boxdl;", [9488]);
  ("boxdr;", [9484]);
  ("boxh;", [9472]);
  ("boxhD;", [9573]);
  ("boxhU;", [9576]);
  ("boxhd;", [9516]);
  ("boxhu;", [9524]);
  ("boxminus;", [8863]);
  ("boxplus;", [8862]);
  ("boxtimes;", [8864]);
  ("boxuL;", [9563]);
  ("boxuR;", [9560]);
  ("boxul;", [9496]);
  ("boxur;", [9492]);
  ("boxv;", [9474]);
  ("boxvH;", [9578]);
  ("boxvL;", [9569]);
  ("boxvR;", [9566]);
  ("boxvh;", [9532]);
  ("boxvl;", [9508]);
  ("boxvr;", [9500]);
  ("bprime;", [8245]);
  ("breve;", [728]);
  ("brvbar", [166]);
  ("brvbar;", [166]);
  ("bscr;", [55349; 56503]);
  ("bsemi;", [8271]);
  ("bsim;", [8765]);
  ("bsime;", [8909]);
  ("bsol;", [92]);
  ("bsolb;", [10693]);
  ("bsolhsub;", [10184]);
  ("bull;", [8226]);
  ("bullet;", [8226]);
  ("bump;", [8782]);
  ("bumpE;", [10926]);
  ("bumpe;", [8783]);
  ("bumpeq;", [8783]);
  ("cacute;", [263]);
  ("cap;", [8745]);
  ("capand;", [10820]);
  ("capbrcup;", [10825]);
  ("capcap;", [10827]);
  ("capcup;", [10823]);
  ("capdot;", [10816]);
  ("caps;", [8745; 65024]);
  ("caret;", [8257]);
  ("caron;", [711]);
  ("ccaps;", [10829]);
  ("ccaron;", [269]);
  ("ccedil", [231]);
  ("ccedil;", [231]);
  ("ccirc;", [265]);
  ("ccups;", [10828]);
  ("ccupssm;", [10832]);
  ("cdot;", [267]);
  ("cedil", [184]);
  ("cedil;", [184]);
  ("cemptyv;", [10674]);
  ("cent", [162]);
  ("cent;", [162]);
  ("centerdot;", [183]);
  ("cfr;", [55349; 56608]);
  ("chcy;", [1095]);
  ("check;", [10003]);
  ("checkmark;", [10003]);
  ("chi;", [967]);
  ("cir;", [9675]);
  ("cirE;", [10691]);
  ("circ;", [710]);
  ("circeq;", [8791]);
  ("circlearrowleft;", [8634]);
  ("circlearrowright;", [8635]);
  ("circledR;", [174]);
  ("circledS;", [9416]);
  ("circledast;", [8859]);
  ("circledcirc;", [8858]);
  ("circleddash;", [8861]);
  ("cire;", [8791]);
  ("cirfnint;", [10768]);
  ("cirmid;", [10991]);
  ("cirscir;", [10690]);
  ("clubs;", [9827]);
  ("clubsuit;", [9827]);
  ("colon;", [58]);
  ("colone;", [8788]);
  ("coloneq;", [8788]);
  ("comma;", [44]);
  ("commat;", [64]);
  ("comp;", [8705]);
  ("compfn;", [8728]);
  ("complement;", [8705]);
  ("complexes;", [8450]);
  ("cong;", [8773]);
  ("congdot;", [10861]);
  ("conint;", [8750]);
  ("copf;", [55349; 56660]);
  ("coprod;", [8720]);
  ("copy", [169]);
  ("copy;", [169]);
  ("copysr;", [8471]);
  ("crarr;", [8629]);
  ("cross;", [10007]);
  ("cscr;", [55349; 56504]);
  ("csub;", [10959]);
  ("csube;", [10961]);
  ("csup;", [10960]);
  ("csupe;", [10962]);
  ("ctdot;", [8943]);
  ("cudarrl;", [10552]);
  ("cudarrr;", [10549]);
  ("cuepr;", [8926]);
  ("cuesc;", [8927]);
  ("cularr;", [8630]);
  ("cularrp;", [10557]);
  ("cup;", [8746]);
  ("cupbrcap;", [10824]);
  ("cupcap;", [10822]);
  ("cupcup;", [10826]);
  ("cupdot;", [8845]);
  ("cupor;", [10821]);
  ("cups;", [8746; 65024]);
  ("curarr;", [8631]);
  ("curarrm;", [10556]);
  ("curlyeqprec;", [8926]);
  ("curlyeqsucc;", [8927]);
  ("curlyvee;", [8910]);
  ("curlywedge;", [8911]);
  ("curren", [164]);
  ("curren;", [164]);
  ("curvearrowleft;", [8630]);
  ("curvearrowright;", [8631]);
  ("cuvee;", [8910]);
  ("cuwed;", [8911]);
  ("cwconint;", [8754]);
  ("cwint;", [8753]);
  ("cylcty;", [9005]);
  ("dArr;", [8659]);
  ("dHar;", [10597]);
  ("dagger;", [8224]);
  ("daleth;", [8504]);
  ("darr;", [8595]);
  ("dash;", [8208]);
  ("dashv;", [8867]);
  ("dbkarow;", [10511]);
  ("dblac;", [733]);
  ("dcaron;", [271]);
  ("dcy;", [1076]);
  ("dd;", [8518]);
  ("ddagger;", [8225]);
  ("ddarr;", [8650]);
  ("ddotseq;", [10871]);
  ("deg", [176]);
  ("deg;", [176]);
  ("delta;", [948]);
  ("demptyv;", [10673]);
  ("dfisht;", [10623]);
  ("dfr;", [55349; 56609]);
  ("dharl;", [8643]);
  ("dharr;", [8642]);
  ("diam;", [8900]);
  ("diamond;", [8900]);
  ("diamondsuit;", [9830]);
  ("diams;", [9830]);
  ("die;", [168]);
  ("digamma;", [989]);
  ("disin;", [8946]);
  ("div;", [247]);
  ("divide", [247]);
  ("divide;", [247]);
  ("divideontimes;", [8903]);
  ("divonx;", [8903]);
  ("djcy;", [1106]);
  ("dlcorn;", [8990]);
  ("dlcrop;", [8973]);
  ("dollar;", [36]);
  ("dopf;", [55349; 56661]);
  ("dot;", [729]);
  ("doteq;", [8784]);
  ("doteqdot;", [8785]);
  ("dotminus;", [8760]);
  ("dotplus;", [8724]);
  ("dotsquare;", [8865]);
  ("doublebarwedge;", [8966]);
  ("downarrow;", [8595]);
  ("downdownarrows;", [8650]);
  ("downharpoonleft;", [8643]);
  ("downharpoonright;", [8642]);
  ("drbkarow;", [10512]);
  ("drcorn;", [8991]);
  ("drcrop;", [8972]);
  ("dscr;", [55349; 56505]);
  ("dscy;", [1109]);
  ("dsol;", [10742]);
  ("dstrok;", [273]);
  ("dtdot;", [8945]);
  ("dtri;", [9663]);
  ("dtrif;", [9662]);
  ("duarr;", [8693]);
  ("duhar;", [10607]);
  ("dwangle;", [10662]);
  ("dzcy;", [1119]);
  ("dzigrarr;", [10239]);
  ("eDDot;", [10871]);
  ("eDot;", [8785]);
  ("eacute", [233]);
  ("eacute;", [233]);
  ("easter;", [10862]);
  ("ecaron;", [283]);
  ("ecir;", [8790]);
  ("ecirc", [234]);
  ("ecirc;", [234]);
  ("ecolon;", [8789]);
  ("ecy;", [1101]);
  ("edot;", [279]);
  ("ee;", [8519]);
  ("efDot;", [8786]);
  ("efr;", [55349; 56610]);
  ("eg;", [10906]);
  ("egrave", [232]);
  ("egrave;", [232]);
  ("egs;", [10902]);
  ("egsdot;", [10904]);
  ("el;", [10905]);
  ("elinters;", [9191]);
  ("ell;", [8467]);
  ("els;", [10901]);
  ("elsdot;", [10903]);
  ("emacr;", [275]);
  ("empty;", [8709]);
  ("emptyset;", [8709]);
  ("emptyv;", [8709]);
  ("emsp13;", [8196]);
  ("emsp14;", [8197]);
  ("emsp;", [8195]);
  ("eng;", [331]);
  ("ensp;", [8194]);
  ("eogon;", [281]);
  ("eopf;", [55349; 56662]);
  ("epar;", [8917]);
  ("eparsl;", [10723]);
  ("eplus;", [10865]);
  ("epsi;", [949]);
  ("epsilon;", [949]);
  ("epsiv;", [1013]);
  ("eqcirc;", [8790]);
  ("eqcolon;", [8789]);
  ("eqsim;", [8770]);
  ("eqslantgtr;", [10902]);
  ("eqslantless;", [10901]);
  ("equals;", [61]);
  ("equest;", [8799]);
  ("equiv;", [8801]);
  ("equivDD;", [10872]);
  ("eqvparsl;", [10725]);
  ("erDot;", [8787]);
  ("erarr;", [10609]);
  ("escr;", [8495]);
  ("esdot;", [8784]);
  ("esim;", [8770]);
  ("eta;", [951]);
  ("eth", [240]);
  ("eth;", [240]);
  ("euml", [235]);
  ("euml;", [235]);
  ("euro;", [8364]);
  ("excl;", [33]);
  ("exist;", [8707]);
  ("expectation;", [8496]);
  ("exponentiale;", [8519]);
  ("fallingdotseq;", [8786]);
  ("fcy;", [1092]);
  ("female;", [9792]);
  ("ffilig;", [64259]);
  ("fflig;", [64256]);
  ("ffllig;", [64260]);
  ("ffr;", [55349; 56611]);
  ("filig;", [64257]);
  ("fjlig;", [102; 106]);
  ("flat;", [9837]);
  ("fllig;", [64258]);
  ("fltns;", [9649]);
  ("fnof;", [402]);
  ("fopf;", [55349; 56663]);
  ("forall;", [8704]);
  ("fork;", [8916]);
  ("forkv;", [10969]);
  ("fpartint;", [10765]);
  ("frac12", [189]);
  ("frac12;", [189]);
  ("frac13;", [8531]);
  ("frac14", [188]);
  ("frac14;", [188]);
  ("frac15;", [8533]);
  ("frac16;", [8537]);
  ("frac18;", [8539]);
  ("frac23;", [8532]);
  ("frac25;", [8534]);
  ("frac34", [190]);
  ("frac34;", [190]);
  ("frac35;", [8535]);
  ("frac38;", [8540]);
  ("frac45;", [8536]);
  ("frac56;", [8538]);
  ("frac58;", [8541]);
  ("frac78;", [8542]);
  ("frasl;", [8260]);
  ("frown;", [8994]);
  ("fscr;", [55349; 56507]);
  ("gE;", [8807]);
  ("gEl;", [10892]);
  ("gacute;", [501]);
  ("gamma;", [947]);
  ("gammad;", [989]);
  ("gap;", [10886]);
  ("gbreve;", [287]);
  ("gcirc;", [285]);
  ("gcy;", [1075]);
  ("gdot;", [289]);
  ("ge;", [8805]);
  ("gel;", [8923]);
  ("geq;", [8805]);
  ("geqq;", [8807]);
  ("geqslant;", [10878]);
  ("ges;", [10878]);
  ("gescc;", [10921]);
  ("gesdot;", [10880]);
  ("gesdoto;", [10882]);
  ("gesdotol;", [10884]);
  ("gesl;", [8923; 65024]);
  ("gesles;", [10900]);
  ("gfr;", [55349; 56612]);
  ("gg;", [8811]);
  ("ggg;", [8921]);
  ("gimel;", [8503]);
  ("gjcy;", [1107]);
  ("gl;", [8823]);
  ("glE;", [10898]);
  ("gla;", [10917]);
  ("glj;", [10916]);
  ("gnE;", [8809]);
  ("gnap;", [10890]);
  ("gnapprox;", [10890]);
  ("gne;", [10888]);
  ("gneq;", [10888]);
  ("gneqq;", [8809]);
  ("gnsim;", [8935]);
  ("gopf;", [55349; 56664]);
  ("grave;", [96]);
  ("gscr;", [8458]);
  ("gsim;", [8819]);
  ("gsime;", [10894]);
  ("gsiml;", [10896]);
  ("gt", [62]);
  ("gt;", [62]);
  ("gtcc;", [10919]);
  ("gtcir;", [10874]);
  ("gtdot;", [8919]);
  ("gtlPar;", [10645]);
  ("gtquest;", [10876]);
  ("gtrapprox;", [10886]);
  ("gtrarr;", [10616]);
  ("gtrdot;", [8919]);
  ("gtreqless;", [8923]);
  ("gtreqqless;", [10892]);
  ("gtrless;", [8823]);
  ("gtrsim;", [8819]);
  ("gvertneqq;", [8809; 65024]);
  ("gvnE;", [8809; 65024]);
  ("hArr;", [8660]);
  ("hairsp;", [8202]);
  ("half;", [189]);
  ("hamilt;", [8459]);
  ("hardcy;", [1098]);
  ("harr;", [8596]);
  ("harrcir;", [10568]);
  ("harrw;", [8621]);
  ("hbar;", [8463]);
  ("hcirc;", [293]);
  ("hearts;", [9829]);
  ("heartsuit;", [9829]);
  ("hellip;", [8230]);
  ("hercon;", [8889]);
  ("hfr;", [55349; 56613]);
  ("hksearow;", [10533]);
  ("hkswarow;", [10534]);
  ("hoarr;", [8703]);
  ("homtht;", [8763]);
  ("hookleftarrow;", [8617]);
  ("hookrightarrow;", [8618]);
  ("hopf;", [55349; 56665]);
  ("horbar;", [8213]);
  ("hscr;", [55349; 56509]);
  ("hslash;", [8463]);
  ("hstrok;", [295]);
  ("hybull;", [8259]);
  ("hyphen;", [8208]);
  ("iacute", [237]);
  ("iacute;", [237]);
  ("ic;", [8291]);
  ("icirc", [238]);
  ("icirc;", [238]);
  ("icy;", [1080]);
  ("iecy;", [1077]);
  ("iexcl", [161]);
  ("iexcl;", [161]);
  ("iff;", [8660]);
  ("ifr;", [55349; 56614]);
  ("igrave", [236]);
  ("igrave;", [236]);
  ("ii;", [8520]);
  ("iiiint;", [10764]);
  ("iiint;", [8749]);
  ("iinfin;", [10716]);
  ("iiota;", [8489]);
  ("ijlig;", [307]);
  ("imacr;", [299]);
  ("image;", [8465]);
  ("imagline;", [8464]);
  ("imagpart;", [8465]);
  ("imath;", [305]);
  ("imof;", [8887]);
  ("imped;", [437]);
  ("in;", [8712]);
  ("incare;", [8453]);
  ("infin;", [8734]);
  ("infintie;", [10717]);
  ("inodot;", [305]);
  ("int;", [8747]);
  ("intcal;", [8890]);
  ("integers;", [8484]);
  ("intercal;", [8890]);
  ("intlarhk;", [10775]);
  ("intprod;", [10812]);
  ("iocy;", [1105]);
  ("iogon;", [303]);
  ("iopf;", [55349; 56666]);
  ("iota;", [953]);
  ("iprod;", [10812]);
  ("iquest", [191]);
  ("iquest;", [191]);
  ("iscr;", [55349; 56510]);
  ("isin;", [8712]);
  ("isinE;", [8953]);
  ("isindot;", [8949]);
  ("isins;", [8948]);
  ("isinsv;", [8947]);
  ("isinv;", [8712]);
  ("it;", [8290]);
  ("itilde;", [297]);
  ("iukcy;", [1110]);
  ("iuml", [239]);
  ("iuml;", [239]);
  ("jcirc;", [309]);
  ("jcy;", [1081]);
  ("jfr;", [55349; 56615]);
  ("jmath;", [567]);
  ("jopf;", [55349; 56667]);
  ("jscr;", [55349; 56511]);
  ("jsercy;", [1112]);
  ("jukcy;", [1108]);
  ("kappa;", [954]);
  ("kappav;", [1008]);
  ("kcedil;", [311]);
  ("kcy;", [1082]);
  ("kfr;", [55349; 56616]);
  ("kgreen;", [312]);
  ("khcy;", [1093]);
  ("kjcy;", [1116]);
  ("kopf;", [55349; 56668]);
  ("kscr;", [55349; 56512]);
  ("lAarr;", [8666]);
  ("lArr;", [8656]);
  ("lAtail;", [10523]);
  ("lBarr;", [10510]);
  ("lE;", [8806]);
  ("lEg;", [10891]);
  ("lHar;", [10594]);
  ("lacute;", [314]);
  ("laemptyv;", [10676]);
  ("lagran;", [8466]);
  ("lambda;", [955]);
  ("lang;", [10216]);
  ("langd;", [10641]);
  ("langle;", [10216]);
  ("lap;", [10885]);
  ("laquo", [171]);
  ("laquo;", [171]);
  ("larr;", [8592]);
  ("larrb;", [8676]);
  ("larrbfs;", [10527]);
  ("larrfs;", [10525]);
  ("larrhk;", [8617]);
  ("larrlp;", [8619]);
  ("larrpl;", [10553]);
  ("larrsim;", [10611]);
  ("larrtl;", [8610]);
  ("lat;", [10923]);
  ("latail;", [10521]);
  ("late;", [10925]);
  ("lates;", [10925; 65024]);
  ("lbarr;", [10508]);
  ("lbbrk;", [10098]);
  ("lbrace;", [123]);
  ("lbrack;", [91]);
  ("lbrke;", [10635]);
  ("lbrksld;", [10639]);
  ("lbrkslu;", [10637]);
  ("lcaron;", [318]);
  ("lcedil;", [316]);
  ("lceil;", [8968]);
  ("lcub;", [123]);
  ("lcy;", [1083]);
  ("ldca;", [10550]);
  ("ldquo;", [8220]);
  ("ldquor;", [8222]);
  ("ldrdhar;", [10599]);
  ("ldrushar;", [10571]);
  ("ldsh;", [8626]);
  ("le;", [8804]);
  ("leftarrow;", [8592]);
  ("leftarrowtail;", [8610]);
  ("leftharpoondown;", [8637]);
  ("leftharpoonup;", [8636]);
  ("leftleftarrows;", [8647]);
  ("leftrightarrow;", [8596]);
  ("leftrightarrows;", [8646]);
  ("leftrightharpoons;", [8651]);
  ("leftrightsquigarrow;", [8621]);
  ("leftthreetimes;", [8907]);
  ("leg;", [8922]);
  ("leq;", [8804]);
  ("leqq;", [8806]);
  ("leqslant;", [10877]);
  ("les;", [10877]);
  ("lescc;", [10920]);
  ("lesdot;", [10879]);
  ("lesdoto;", [10881]);
  ("lesdotor;", [10883]);
  ("lesg;", [8922; 65024]);
  ("lesges;", [10899]);
  ("lessapprox;", [10885]);
  ("lessdot;", [8918]);
  ("lesseqgtr;", [8922]);
  ("lesseqqgtr;", [10891]);
  ("lessgtr;", [8822]);
  ("lesssim;", [8818]);
  ("lfisht;", [10620]);
  ("lfloor;", [8970]);
  ("lfr;", [55349; 56617]);
  ("lg;", [8822]);
  ("lgE;", [10897]);
  ("lhard;", [8637]);
  ("lharu;", [8636]);
  ("lharul;", [10602]);
  ("lhblk;", [9604]);
  ("ljcy;", [1113]);
  ("ll;", [8810]);
  ("llarr;", [8647]);
  ("llcorner;", [8990]);
  ("llhard;", [10603]);
  ("lltri;", [9722]);
  ("lmidot;", [320]);
  ("lmoust;", [9136]);
  ("lmoustache;", [9136]);
  ("lnE;", [8808]);
  ("lnap;", [10889]);
  ("lnapprox;", [10889]);
  ("lne;", [10887]);
  ("lneq;", [10887]);
  ("lneqq;", [8808]);
  ("lnsim;", [8934]);
  ("loang;", [10220]);
  ("loarr;", [8701]);
  ("lobrk;", [10214]);
  ("longleftarrow;", [10229]);
  ("longleftrightarrow;", [10231]);
  ("longmapsto;", [10236]);
  ("longrightarrow;", [10230]);
  ("looparrowleft;", [8619]);
  ("looparrowright;", [8620]);
  ("lopar;", [10629]);
  ("lopf;", [55349; 56669]);
  ("loplus;", [10797]);
  ("lotimes;", [10804]);
  ("lowast;", [8727]);
  ("lowbar;", [95]);
  ("loz;", [9674]);
  ("lozenge;", [9674]);
  ("lozf;", [10731]);
  ("lpar;", [40]);
  ("lparlt;", [10643]);
  ("lrarr;", [8646]);
  ("lrcorner;", [8991]);
  ("lrhar;", [8651]);
  ("lrhard;", [10605]);
  ("lrm;", [8206]);
  ("lrtri;", [8895]);
  ("lsaquo;", [8249]);
  ("lscr;", [55349; 56513]);
  ("lsh;", [8624]);
  ("lsim;", [8818]);
  ("lsime;", [10893]);
  ("lsimg;", [10895]);
  ("lsqb;", [91]);
  ("lsquo;", [8216]);
  ("lsquor;", [8218]);
  ("lstrok;", [322]);
  ("lt", [60]);
  ("lt;", [60]);
  ("ltcc;", [10918]);
  ("ltcir;", [10873]);
  ("ltdot;", [8918]);
  ("lthree;", [8907]);
  ("ltimes;", [8905]);
  ("ltlarr;", [10614]);
  ("ltquest;", [10875]);
  ("ltrPar;", [10646]);
  ("ltri;", [9667]);
  ("ltrie;", [8884]);
  ("ltrif;", [9666]);
  ("lurdshar;", [10570]);
  ("luruhar;", [10598]);
  ("lvertneqq;", [8808; 65024]);
  ("lvnE;", [8808; 65024]);
  ("mDDot;", [8762]);
  ("macr", [175]);
  ("macr;", [175]);
  ("male;", [9794]);
  ("malt;", [10016]);
  ("maltese;", [10016]);
  ("map;", [8614]);
  ("mapsto;", [8614]);
  ("mapstodown;", [8615]);
  ("mapstoleft;", [8612]);
  ("mapstoup;", [8613]);
  ("marker;", [9646]);
  ("mcomma;", [10793]);
  ("mcy;", [1084]);
  ("mdash;", [8212]);
  ("measuredangle;", [8737]);
  ("mfr;", [55349; 56618]);
  ("mho;", [8487]);
  ("micro", [181]);
  ("micro;", [181]);
  ("mid;", [8739]);
  ("midast;", [42]);
  ("midcir;", [10992]);
  ("middot", [183]);
  ("middot;", [183]);
  ("minus;", [8722]);
  ("minusb;", [8863]);
  ("minusd;", [8760]);
  ("minusdu;", [10794]);
  ("mlcp;", [10971]);
  ("mldr;", [8230]);
  ("mnplus;", [8723]);
  ("models;", [8871]);
  ("mopf;", [55349; 56670]);
  ("mp;", [8723]);
  ("mscr;", [55349; 56514]);
  ("mstpos;", [8766]);
  ("mu;", [956]);
  ("multimap;", [8888]);
  ("mumap;", [8888]);
  ("nGg;", [8921; 824]);
  ("nGt;", [8811; 8402]);
  ("nGtv;", [8811; 824]);
  ("nLeftarrow;", [8653]);
  ("nLeftrightarrow;", [8654]);
  ("nLl;", [8920; 824]);
  ("nLt;", [8810; 8402]);
  ("nLtv;", [8810; 824]);
  ("nRightarrow;", [8655]);
  ("nVDash;", [8879]);
  ("nVdash;", [8878]);
  ("nabla;", [8711]);
  ("nacute;", [324]);
  ("nang;", [8736; 8402]);
  ("nap;", [8777]);
  ("napE;", [10864; 824]);
  ("napid;", [8779; 824]);
  ("napos;", [329]);
  ("napprox;", [8777]);
  ("natur;", [9838]);
  ("natural;", [9838]);
  ("naturals;", [8469]);
  ("nbsp", [160]);
  ("nbsp;", [160]);
  ("nbump;", [8782; 824]);
  ("nbumpe;", [8783; 824]);
  ("ncap;", [10819]);
  ("ncaron;", [328]);
  ("ncedil;", [326]);
  ("ncong;", [8775]);
  ("ncongdot;", [10861; 824]);
  ("ncup;", [10818]);
  ("ncy;", [1085]);
  ("ndash;", [8211]);
  ("ne;", [8800]);
  ("neArr;", [8663]);
  ("nearhk;", [10532]);
  ("nearr;", [8599]);
  ("nearrow;", [8599]);
  ("nedot;", [8784; 824]);
  ("nequiv;", [8802]);
  ("nesear;", [10536]);
  ("nesim;", [8770; 824]);
  ("nexist;", [8708]);
  ("nexists;", [8708]);
  ("nfr;", [55349; 56619]);
  ("ngE;", [8807; 824]);
  ("nge;", [8817]);
  ("ngeq;", [8817]);
  ("ngeqq;", [8807; 824]);
  ("ngeqslant;", [10878; 824]);
  ("nges;", [10878; 824]);
  ("ngsim;", [8821]);
  ("ngt;", [8815]);
  ("ngtr;", [8815]);
  ("nhArr;", [8654]);
  ("nharr;", [8622]);
  ("nhpar;", [10994]);
  ("ni;", [8715]);
  ("nis;", [8956]);
  ("nisd;", [8954]);
  ("niv;", [8715]);
  ("njcy;", [1114]);
  ("nlArr;", [8653]);
  ("nlE;", [8806; 824]);
  ("nlarr;", [8602]);
  ("nldr;", [8229]);
  ("nle;", [8816]);
  ("nleftarrow;", [8602]);
  ("nleftrightarrow;", [8622]);
  ("nleq;", [8816]);
  ("nleqq;", [8806; 824]);
  ("nleqslant;", [10877; 824]);
  ("nles;", [10877; 824]);
  ("nless;", [8814]);
  ("nlsim;", [8820]);
  ("nlt;", [8814]);
  ("nltri;", [8938]);
  ("nltrie;", [8940]);
  ("nmid;", [8740]);
  ("nopf;", [55349; 56671]);
  ("not", [172]);
  ("not;", [172]);
  ("notin;", [8713]);
  ("notinE;", [8953; 824]);
  ("notindot;", [8949; 824]);
  ("notinva;", [8713]);
  ("notinvb;", [8951]);
  ("notinvc;", [8950]);
  ("notni;", [8716]);
  ("notniva;", [8716]);
  ("notnivb;", [8958]);
  ("notnivc;", [8957]);
  ("npar;", [8742]);
  ("nparallel;", [8742]);
  ("nparsl;", [11005; 8421]);
  ("npart;", [8706; 824]);
  ("npolint;", [10772]);
  ("npr;", [8832]);
  ("nprcue;", [8928]);
  ("npre;", [10927; 824]);
  ("nprec;", [8832]);
  ("npreceq;", [10927; 824]);
  ("nrArr;", [8655]);
  ("nrarr;", [8603]);
  ("nrarrc;", [10547; 824]);
  ("nrarrw;", [8605; 824]);
  ("nrightarrow;", [8603]);
  ("nrtri;", [8939]);
  ("nrtrie;", [8941]);
  ("nsc;", [8833]);
  ("nsccue;", [8929]);
  ("nsce;", [10928; 824]);
  ("nscr;", [55349; 56515]);
  ("nshortmid;", [8740]);
  ("nshortparallel;", [8742]);
  ("nsim;", [8769]);
  ("nsime;", [8772]);
  ("nsimeq;", [8772]);
  ("nsmid;", [8740]);
  ("nspar;", [8742]);
  ("nsqsube;", [8930]);
  ("nsqsupe;", [8931]);
  ("nsub;", [8836]);
  ("nsubE;", [10949; 824]);
  ("nsube;", [8840]);
  ("nsubset;", [8834; 8402]);
  ("nsubseteq;", [8840]);
  ("nsubseteqq;", [10949; 824]);
  ("nsucc;", [8833]);
  ("nsucceq;", [10928; 824]);
  ("nsup;", [8837]);
  ("nsupE;", [10950; 824]);
  ("nsupe;", [8841]);
  ("nsupset;", [8835; 8402]);
  ("nsupseteq;", [8841]);
  ("nsupseteqq;", [10950; 824]);
  ("ntgl;", [8825]);
  ("ntilde", [241]);
  ("ntilde;", [241]);
  ("ntlg;", [8824]);
  ("ntriangleleft;", [8938]);
  ("ntrianglelefteq;", [8940]);
  ("ntriangleright;", [8939]);
  ("ntrianglerighteq;", [8941]);
  ("nu;", [957]);
  ("num;", [35]);
  ("numero;", [8470]);
  ("numsp;", [8199]);
  ("nvDash;", [8877]);
  ("nvHarr;", [10500]);
  ("nvap;", [8781; 8402]);
  ("nvdash;", [8876]);
  ("nvge;", [8805; 8402]);
  ("nvgt;", [62; 8402]);
  ("nvinfin;", [10718]);
  ("nvlArr;", [10498]);
  ("nvle;", [8804; 8402]);
  ("nvlt;", [60; 8402]);
  ("nvltrie;", [8884; 8402]);
  ("nvrArr;", [10499]);
  ("nvrtrie;", [8885; 8402]);
  ("nvsim;", [8764; 8402]);
  ("nwArr;", [8662]);
  ("nwarhk;", [10531]);
  ("nwarr;", [8598]);
  ("nwarrow;", [8598]);
  ("nwnear;", [10535]);
  ("oS;", [9416]);
  ("oacute", [243]);
  ("oacute;", [243]);
  ("oast;", [8859]);
  ("ocir;", [8858]);
  ("ocirc", [244]);
  ("ocirc;", [244]);
  ("ocy;", [1086]);
  ("odash;", [8861]);
  ("odblac;", [337]);
  ("odiv;", [10808]);
  ("odot;", [8857]);
  ("odsold;", [10684]);
  ("oelig;", [339]);
  ("ofcir;", [10687]);
  ("ofr;", [55349; 56620]);
  ("ogon;", [731]);
  ("ograve", [242]);
  ("ograve;", [242]);
  ("ogt;", [10689]);
  ("ohbar;", [10677]);
  ("ohm;", [937]);
  ("oint;", [8750]);
  ("olarr;", [8634]);
  ("olcir;", [10686]);
  ("olcross;", [10683]);
  ("oline;", [8254]);
  ("olt;", [10688]);
  ("omacr;", [333]);
  ("omega;", [969]);
  ("omicron;", [959]);
  ("omid;", [10678]);
  ("ominus;", [8854]);
  ("oopf;", [55349; 56672]);
  ("opar;", [10679]);
  ("operp;", [10681]);
  ("oplus;", [8853]);
  ("or;", [8744]);
  ("orarr;", [8635]);
  ("ord;", [10845]);
  ("order;", [8500]);
  ("orderof;", [8500]);
  ("ordf", [170]);
  ("ordf;", [170]);
  ("ordm", [186]);
  ("ordm;", [186]);
  ("origof;", [8886]);
  ("oror;", [10838]);
  ("orslope;", [10839]);
  ("orv;", [10843]);
  ("oscr;", [8500]);
  ("oslash", [248]);
  ("oslash;", [248]);
  ("osol;", [8856]);
  ("otilde", [245]);
  ("otilde;", [245]);
  ("otimes;", [8855]);
  ("otimesas;", [10806]);
  ("ouml", [246]);
  ("ouml;", [246]);
  ("ovbar;", [9021]);
  ("par;", [8741]);
  ("para", [182]);
  ("para;", [182]);
  ("parallel;", [8741]);
  ("parsim;", [10995]);
  ("parsl;", [11005]);
  ("part;", [8706]);
  ("pcy;", [1087]);
  ("percnt;", [37]);
  ("period;", [46]);
  ("permil;", [8240]);
  ("perp;", [8869]);
  ("pertenk;", [8241]);
  ("pfr;", [55349; 56621]);
  ("phi;", [966]);
  ("phiv;", [981]);
  ("phmmat;", [8499]);
  ("phone;", [9742]);
  ("pi;", [960]);
  ("pitchfork;", [8916]);
  ("piv;", [982]);
  ("planck;", [8463]);
  ("planckh;", [8462]);
  ("plankv;", [8463]);
  ("plus;", [43]);
  ("plusacir;", [10787]);
  ("plusb;", [8862]);
  ("pluscir;", [10786]);
  ("plusdo;", [8724]);
  ("plusdu;", [10789]);
  ("pluse;", [10866]);
  ("plusmn", [177]);
  ("plusmn;", [177]);
  ("plussim;", [10790]);
  ("plustwo;", [10791]);
  ("pm;", [177]);
  ("pointint;", [10773]);
  ("popf;", [55349; 56673]);
  ("pound", [163]);
  ("pound;", [163]);
  ("pr;", [8826]);
  ("prE;", [10931]);
  ("prap;", [10935]);
  ("prcue;", [8828]);
  ("pre;", [10927]);
  ("prec;", [8826]);
  ("precapprox;", [10935]);
  ("preccurlyeq;", [8828]);
  ("preceq;", [10927]);
  ("precnapprox;", [10937]);
  ("precneqq;", [10933]);
  ("precnsim;", [8936]);
  ("precsim;", [8830]);
  ("prime;", [8242]);
  ("primes;", [8473]);
  ("prnE;", [10933]);
  ("prnap;", [10937]);
  ("prnsim;", [8936]);
  ("prod;", [8719]);
  ("profalar;", [9006]);
  ("profline;", [8978]);
  ("profsurf;", [8979]);
  ("prop;", [8733]);
  ("propto;", [8733]);
  ("prsim;", [8830]);
  ("prurel;", [8880]);
  ("pscr;", [55349; 56517]);
  ("psi;", [968]);
  ("puncsp;", [8200]);
  ("qfr;", [55349; 56622]);
  ("qint;", [10764]);
  ("qopf;", [55349; 56674]);
  ("qprime;", [8279]);
  ("qscr;", [55349; 56518]);
  ("quaternions;", [8461]);
  ("quatint;", [10774]);
  ("quest;", [63]);
  ("questeq;", [8799]);
  ("quot", [34]);
  ("quot;", [34]);
  ("rAarr;", [8667]);
  ("rArr;", [8658]);
  ("rAtail;", [10524]);
  ("rBarr;", [10511]);
  ("rHar;", [10596]);
  ("race;", [8765; 817]);
  ("racute;", [341]);
  ("radic;", [8730]);
  ("raemptyv;", [10675]);
  ("rang;", [10217]);
  ("rangd;", [10642]);
  ("range;", [10661]);
  ("rangle;", [10217]);
  ("raquo", [187]);
  ("raquo;", [187]);
  ("rarr;", [8594]);
  ("rarrap;", [10613]);
  ("rarrb;", [8677]);
  ("rarrbfs;", [10528]);
  ("rarrc;", [10547]);
  ("rarrfs;", [10526]);
  ("rarrhk;", [8618]);
  ("rarrlp;", [8620]);
  ("rarrpl;", [10565]);
  ("rarrsim;", [10612]);
  ("rarrtl;", [8611]);
  ("rarrw;", [8605]);
  ("ratail;", [10522]);
  ("ratio;", [8758]);
  ("rationals;", [8474]);
  ("rbarr;", [10509]);
  ("rbbrk;", [10099]);
  ("rbrace;", [125]);
  ("rbrack;", [93]);
  ("rbrke;", [10636]);
  ("rbrksld;", [10638]);
  ("rbrkslu;", [10640]);
  ("rcaron;", [345]);
  ("rcedil;", [343]);
  ("rceil;", [8969]);
  ("rcub;", [125]);
  ("rcy;", [1088]);
  ("rdca;", [10551]);
  ("rdldhar;", [10601]);
  ("rdquo;", [8221]);
  ("rdquor;", [8221]);
  ("rdsh;", [8627]);
  ("real;", [8476]);
  ("realine;", [8475]);
  ("realpart;", [8476]);
  ("reals;", [8477]);
  ("rect;", [9645]);
  ("reg", [174]);
  ("reg;", [174]);
  ("rfisht;", [10621]);
  ("rfloor;", [8971]);
  ("rfr;", [55349; 56623]);
  ("rhard;", [8641]);
  ("rharu;", [8640]);
  ("rharul;", [10604]);
  ("rho;", [961]);
  ("rhov;", [1009]);
  ("rightarrow;", [8594]);
  ("rightarrowtail;", [8611]);
  ("rightharpoondown;", [8641]);
  ("rightharpoonup;", [8640]);
  ("rightleftarrows;", [8644]);
  ("rightleftharpoons;", [8652]);
  ("rightrightarrows;", [8649]);
  ("rightsquigarrow;", [8605]);
  ("rightthreetimes;", [8908]);
  ("ring;", [730]);
  ("risingdotseq;", [8787]);
  ("rlarr;", [8644]);
  ("rlhar;", [8652]);
  ("rlm;", [8207]);
  ("rmoust;", [9137]);
  ("rmoustache;", [9137]);
  ("rnmid;", [10990]);
  ("roang;", [10221]);
  ("roarr;", [8702]);
  ("robrk;", [10215]);
  ("ropar;", [10630]);
  ("ropf;", [55349; 56675]);
  ("roplus;", [10798]);
  ("rotimes;", [10805]);
  ("rpar;", [41]);
  ("rpargt;", [10644]);
  ("rppolint;", [10770]);
  ("rrarr;", [8649]);
  ("rsaquo;", [8250]);
  ("rscr;", [55349; 56519]);
  ("rsh;", [8625]);
  ("rsqb;", [93]);
  ("rsquo;", [8217]);
  ("rsquor;", [8217]);
  ("rthree;", [8908]);
  ("rtimes;", [8906]);
  ("rtri;", [9657]);
  ("rtrie;", [8885]);
  ("rtrif;", [9656]);
  ("rtriltri;", [10702]);
  ("ruluhar;", [10600]);
  ("rx;", [8478]);
  ("sacute;", [347]);
  ("sbquo;", [8218]);
  ("sc;", [8827]);
  ("scE;", [10932]);
  ("scap;", [10936]);
  ("scaron;", [353]);
  ("sccue;", [8829]);
  ("sce;", [10928]);
  ("scedil;", [351]);
  ("scirc;", [349]);
  ("scnE;", [10934]);
  ("scnap;", [10938]);
  ("scnsim;", [8937]);
  ("scpolint;", [10771]);
  ("scsim;", [8831]);
  ("scy;", [1089]);
  ("sdot;", [8901]);
  ("sdotb;", [8865]);
  ("sdote;", [10854]);
  ("seArr;", [8664]);
  ("searhk;", [10533]);
  ("searr;", [8600]);
  ("searrow;", [8600]);
  ("sect", [167]);
  ("sect;", [167]);
  ("semi;", [59]);
  ("seswar;", [10537]);
  ("setminus;", [8726]);
  ("setmn;", [8726]);
  ("sext;", [10038]);
  ("sfr;", [55349; 56624]);
  ("sfrown;", [8994]);
  ("sharp;", [9839]);
  ("shchcy;", [1097]);
  ("shcy;", [1096]);
  ("shortmid;", [8739]);
  ("shortparallel;", [8741]);
  ("shy", [173]);
  ("shy;", [173]);
  ("sigma;", [963]);
  ("sigmaf;", [962]);
  ("sigmav;", [962]);
  ("sim;", [8764]);
  ("simdot;", [10858]);
  ("sime;", [8771]);
  ("simeq;", [8771]);
  ("simg;", [10910]);
  ("simgE;", [10912]);
  ("siml;", [10909]);
  ("simlE;", [10911]);
  ("simne;", [8774]);
  ("simplus;", [10788]);
  ("simrarr;", [10610]);
  ("slarr;", [8592]);
  ("smallsetminus;", [8726]);
  ("smashp;", [10803]);
  ("smeparsl;", [10724]);
  ("smid;", [8739]);
  ("smile;", [8995]);
  ("smt;", [10922]);
  ("smte;", [10924]);
  ("smtes;", [10924; 65024]);
  ("softcy;", [1100]);
  ("sol;", [47]);
  ("solb;", [10692]);
  ("solbar;", [9023]);
  ("sopf;", [55349; 56676]);
  ("spades;", [9824]);
  ("spadesuit;", [9824]);
  ("spar;", [8741]);
  ("sqcap;", [8851]);
  ("sqcaps;", [8851; 65024]);
  ("sqcup;", [8852]);
  ("sqcups;", [8852; 65024]);
  ("sqsub;", [8847]);
  ("sqsube;", [8849]);
  ("sqsubset;", [8847]);
  ("sqsubseteq;", [8849]);
  ("sqsup;", [8848]);
  ("sqsupe;", [8850]);
  ("sqsupset;", [8848]);
  ("sqsupseteq;", [8850]);
  ("squ;", [9633]);
  ("square;", [9633]);
  ("squarf;", [9642]);
  ("squf;", [9642]);
  ("srarr;", [8594]);
  ("sscr;", [55349; 56520]);
  ("ssetmn;", [8726]);
  ("ssmile;", [8995]);
  ("sstarf;", [8902]);
  ("star;", [9734]);
  ("starf;", [9733]);
  ("straightepsilon;", [1013]);
  ("straightphi;", [981]);
  ("strns;", [175]);
  ("sub;", [8834]);
  ("subE;", [10949]);
  ("subdot;", [10941]);
  ("sube;", [8838]);
  ("subedot;", [10947]);
  ("submult;", [10945]);
  ("subnE;", [10955]);
  ("subne;", [8842]);
  ("subplus;", [10943]);
  ("subrarr;", [10617]);
  ("subset;", [8834]);
  ("subseteq;", [8838]);
  ("subseteqq;", [10949]);
  ("subsetneq;", [8842]);
  ("subsetneqq;", [10955]);
  ("subsim;", [10951]);
  ("subsub;", [10965]);
  ("subsup;", [10963]);
  ("succ;", [8827]);
  ("succapprox;", [10936]);
  ("succcurlyeq;", [8829]);
  ("succeq;", [10928]);
  ("succnapprox;", [10938]);
  ("succneqq;", [10934]);
  ("succnsim;", [8937]);
  ("succsim;", [8831]);
  ("sum;", [8721]);
  ("sung;", [9834]);
  ("sup1", [185]);
  ("sup1;", [185]);
  ("sup2", [178]);
  ("sup2;", [178]);
  ("sup3", [179]);
  ("sup3;", [179]);
  ("sup;", [8835]);
  ("supE;", [10950]);
  ("supdot;", [10942]);
  ("supdsub;", [10968]);
  ("supe;", [8839]);
  ("supedot;", [10948]);
  ("suphsol;", [10185]);
  ("suphsub;", [10967]);
  ("suplarr;", [10619]);
  ("supmult;", [10946]);
  ("supnE;", [10956]);
  ("supne;", [8843]);
  ("supplus;", [10944]);
  ("supset;", [8835]);
  ("supseteq;", [8839]);
  ("supseteqq;", [10950]);
  ("supsetneq;", [8843]);
  ("supsetneqq;", [10956]);
  ("supsim;", [10952]);
  ("supsub;", [10964]);
  ("supsup;", [10966]);
  ("swArr;", [8665]);
  ("swarhk;", [10534]);
  ("swarr;", [8601]);
  ("swarrow;", [8601]);
  ("swnwar;", [10538]);
  ("szlig", [223]);
  ("szlig;", [223]);
  ("target;", [8982]);
  ("tau;", [964]);
  ("tbrk;", [9140]);
  ("tcaron;", [357]);
  ("tcedil;", [355]);
  ("tcy;", [1090]);
  ("tdot;", [8411]);
  ("telrec;", [8981]);
  ("tfr;", [55349; 56625]);
  ("there4;", [8756]);
  ("therefore;", [8756]);
  ("theta;", [952]);
  ("thetasym;", [977]);
  ("thetav;", [977]);
  ("thickapprox;", [8776]);
  ("thicksim;", [8764]);
  ("thinsp;", [8201]);
  ("thkap;", [8776]);
  ("thksim;", [8764]);
  ("thorn", [254]);
  ("thorn;", [254]);
  ("tilde;", [732]);
  ("times", [215]);
  ("times;", [215]);
  ("timesb;", [8864]);
  ("timesbar;", [10801]);
  ("timesd;", [10800]);
  ("tint;", [8749]);
  ("toea;", [10536]);
  ("top;", [8868]);
  ("topbot;", [9014]);
  ("topcir;", [10993]);
  ("topf;", [55349; 56677]);
  ("topfork;", [10970]);
  ("tosa;", [10537]);
  ("tprime;", [8244]);
  ("trade;", [8482]);
  ("triangle;", [9653]);
  ("triangledown;", [9663]);
  ("triangleleft;", [9667]);
  ("trianglelefteq;", [8884]);
  ("triangleq;", [8796]);
  ("triangleright;", [9657]);
  ("trianglerighteq;", [8885]);
  ("tridot;", [9708]);
  ("trie;", [8796]);
  ("triminus;", [10810]);
  ("triplus;", [10809]);
  ("trisb;", [10701]);
  ("tritime;", [10811]);
  ("trpezium;", [9186]);
  ("tscr;", [55349; 56521]);
  ("tscy;", [1094]);
  ("tshcy;", [1115]);
  ("tstrok;", [359]);
  ("twixt;", [8812]);
  ("twoheadleftarrow;", [8606]);
  ("twoheadrightarrow;", [8608]);
  ("uArr;", [8657]);
  ("uHar;", [10595]);
  ("uacute", [250]);
  ("uacute;", [250]);
  ("uarr;", [8593]);
  ("ubrcy;", [1118]);
  ("ubreve;", [365]);
  ("ucirc", [251]);
  ("ucirc;", [251]);
  ("ucy;", [1091]);
  ("udarr;", [8645]);
  ("udblac;", [369]);
  ("udhar;", [10606]);
  ("ufisht;", [10622]);
  ("ufr;", [55349; 56626]);
  ("ugrave", [249]);
  ("ugrave;", [249]);
  ("uharl;", [8639]);
  ("uharr;", [8638]);
  ("uhblk;", [9600]);
  ("ulcorn;", [8988]);
  ("ulcorner;", [8988]);
  ("ulcrop;", [8975]);
  ("ultri;", [9720]);
  ("umacr;", [363]);
  ("uml", [168]);
  ("uml;", [168]);
  ("uogon;", [371]);
  ("uopf;", [55349; 56678]);
  ("uparrow;", [8593]);
  ("updownarrow;", [8597]);
  ("upharpoonleft;", [8639]);
  ("upharpoonright;", [8638]);
  ("uplus;", [8846]);
  ("upsi;", [965]);
  ("upsih;", [978]);
  ("upsilon;", [965]);
  ("upuparrows;", [8648]);
  ("urcorn;", [8989]);
  ("urcorner;", [8989]);
  ("urcrop;", [8974]);
  ("uring;", [367]);
  ("urtri;", [9721]);
  ("uscr;", [55349; 56522]);
  ("utdot;", [8944]);
  ("utilde;", [361]);
  ("utri;", [9653]);
  ("utrif;", [9652]);
  ("uuarr;", [8648]);
  ("uuml", [252]);
  ("uuml;", [252]);
  ("uwangle;", [10663]);
  ("vArr;", [8661]);
  ("vBar;", [10984]);
  ("vBarv;", [10985]);
  ("vDash;", [8872]);
  ("vangrt;", [10652]);
  ("varepsilon;", [1013]);
  ("varkappa;", [1008]);
  ("varnothing;", [8709]);
  ("varphi;", [981]);
  ("varpi;", [982]);
  ("varpropto;", [8733]);
  ("varr;", [8597]);
  ("varrho;", [1009]);
  ("varsigma;", [962]);
  ("varsubsetneq;", [8842; 65024]);
  ("varsubsetneqq;", [10955; 65024]);
  ("varsupsetneq;", [8843; 65024]);
  ("varsupsetneqq;", [10956; 65024]);
  ("vartheta;", [977]);
  ("vartriangleleft;", [8882]);
  ("vartriangleright;", [8883]);
  ("vcy;", [1074]);
  ("vdash;", [8866]);
  ("vee;", [8744]);
  ("veebar;", [8891]);
  ("veeeq;", [8794]);
  ("vellip;", [8942]);
  ("verbar;", [124]);
  ("vert;", [124]);
  ("vfr;", [55349; 56627]);
  ("vltri;", [8882]);
  ("vnsub;", [8834; 8402]);
  ("vnsup;", [8835; 8402]);
  ("vopf;", [55349; 56679]);
  ("vprop;", [8733]);
  ("vrtri;", [8883]);
  ("vscr;", [55349; 56523]);
  ("vsubnE;", [10955; 65024]);
  ("vsubne;", [8842; 65024]);
  ("vsupnE;", [10956; 65024]);
  ("vsupne;", [8843; 65024]);
  ("vzigzag;", [10650]);
  ("wcirc;", [373]);
  ("wedbar;", [10847]);
  ("wedge;", [8743]);
  ("wedgeq;", [8793]);
  ("weierp;", [8472]);
  ("wfr;", [55349; 56628]);
  ("wopf;", [55349; 56680]);
  ("wp;", [8472]);
  ("wr;", [8768]);
  ("wreath;", [8768]);
  ("wscr;", [55349; 56524]);
  ("xcap;", [8898]);
  ("xcirc;", [9711]);
  ("xcup;", [8899]);
  ("xdtri;", [9661]);
  ("xfr;", [55349; 56629]);
  ("xhArr;", [10234]);
  ("xharr;", [10231]);
  ("xi;", [958]);
  ("xlArr;", [10232]);
  ("xlarr;", [10229]);
  ("xmap;", [10236]);
  ("xnis;", [8955]);
  ("xodot;", [10752]);
  ("xopf;", [55349; 56681]);
  ("xoplus;", [10753]);
  ("xotime;", [10754]);
  ("xrArr;", [10233]);
  ("xrarr;", [10230]);
  ("xscr;", [55349; 56525]);
  ("xsqcup;", [10758]);
  ("xuplus;", [10756]);
  ("xutri;", [9651]);
  ("xvee;", [8897]);
  ("xwedge;", [8896]);
  ("yacute", [253]);
  ("yacute;", [253]);
  ("yacy;", [1103]);
  ("ycirc;", [375]);
  ("ycy;", [1099]);
  ("yen", [165]);
  ("yen;", [165]);
  ("yfr;", [55349; 56630]);
  ("yicy;", [1111]);
  ("yopf;", [55349; 56682]);
  ("yscr;", [55349; 56526]);
  ("yucy;", [1102]);
  ("yuml", [255]);
  ("yuml;", [255]);
  ("zacute;", [378]);
  ("zcaron;", [382]);
  ("zcy;", [1079]);
  ("zdot;", [380]);
  ("zeetrf;", [8488]);
  ("zeta;", [950]);
  ("zfr;", [55349; 56631]);
  ("zhcy;", [1078]);
  ("zigrarr;", [8669]);
  ("zopf;", [55349; 56683]);
  ("zscr;", [55349; 56527]);
  ("zwj;", [8205]);
  ("zwnj;", [8204])
]%string.

(** A [textarea] element, as far as [decodeHTML] observes it: the text
    of its children, which is its raw value while the user has not
    edited it. *)
Record textarea := { child_text : jsstring }.

Definition createElement_textarea : textarea := {| child_text := [] |}.

Definition set_innerHTML (t : textarea) (html : jsstring) : textarea :=
  {| child_text := rcdata named_character_references 0 (normalize_newlines html) |}.

Definition value (t : textarea) : jsstring :=
  normalize_newlines (child_text t).

End HTML.

(** ** [decodeHTML] *)

Definition decodeHTML (html : jsstring) : jsstring :=
  let text := HTML.createElement_textarea in
  let text := HTML.set_innerHTML text html in
  HTML.value text.

(** ** Platform model: [Math.random]

    The successive results of [Math.random()] are given by an oracle: its
    [n]-th call returns [random n].  The language promises a Number in
    [0, 1).  The Number is modelled by a rational and the product in
    [shuffleArray] as exact; the rounded product of two doubles stays
    below [i + 1] as well, so every index the script can draw is drawn by
    some oracle of the model. *)
Definition random_source := nat -> Q.

Definition unit_interval (random : random_source) : Prop :=
  forall n, (0 <= random n)%Q /\ (random n < 1)%Q.

(** [Math.floor(Math.random() * (i + 1))] at the [n]-th call. *)
Definition random_index (random : random_source) (n : nat) (i : nat) : nat :=
  Z.to_nat (Qfloor (random n * inject_Z (Z.of_nat i + 1))).

(** ** [shuffleArray] *)

(** [array[i] = x] for an index inside the array. *)
Fixpoint array_set {T} (i : nat) (x : T) (array : list T) : list T :=
  match array, i with
  | [], _ => []
  | _ :: rest, O => x :: rest
  | y :: rest, S i' => y :: array_set i' x rest
  end.

(** [[array[i], array[j]] = [array[j], array[i]]]: both elements are read,
    then [array[i]] and [array[j]] are written in that order.  With an
    oracle in [0, 1) both indices lie inside the array; for other indices
    JavaScript would write [undefined] and grow the array, which the model
    does not follow: it leaves the array as it is. *)
Definition swap {T} (i j : nat) (array : list T) : list T :=
  match nth_error array i, nth_error array j with
  | Some ai, Some aj => array_set j ai (array_set i aj array)
  | _, _ => array
  end.

(** The loop [for (let i = array.length - 1; i > 0; i--)], from [i] down;
    [calls] counts the calls made to [Math.random] so far. *)
Fixpoint shuffle_loop {T} (random : random_source) (calls : nat) (i : nat)
         (array : list T) : list T * nat :=
  match i with
  | O => (array, calls)
  | S i' =>
      let j := random_index random calls i in
      shuffle_loop random (S calls) i' (swap i j array)
  end.

(** The array after the call, and the number of calls to [Math.random]. *)
Definition shuffleArray {T} (random : random_source) (calls : nat)
           (array : list T) : list T * nat :=
  shuffle_loop random calls (length array - 1) array.

(** [shuffleArray] works on the array object it is given and returns that
    same object.  A heap of array objects makes this visible: the call
    takes a reference, updates the object behind it and returns the
    reference. *)
Definition ref := nat.
Definition heap (T : Type) := ref -> list T.

Definition heap_update {T} (h : heap T) (r : ref) (array : list T) : heap T :=
  fun r' => if Nat.eqb r' r then array else h r'.

Definition shuffleArray_ref {T} (random : random_source) (calls : nat)
           (h : heap T) (array : ref) : ref * heap T * nat :=
  let '(contents, calls') := shuffleArray random calls (h array) in
  (array, heap_update h array contents, calls').

(** ** The quiz: data and page state *)

Record Answer := { text : jsstring; correct : bool }.

Record Question := { question : jsstring; answers : list Answer }.

(** A [button] element of the answer list.  [innerHTML] is the markup the
    script assigned to the property: the browser parses it into the
    content of the button, which is that text itself only when the text
    has no [<] and no [&]; the script never reads the property back, so
    the markup assigned determines the element.  Then the class list,
    [dataset.correct] (absent unless set) and the [disabled] attribute. *)
Record Button := {
  innerHTML : jsstring;
  classList : list string;
  dataset_correct : option string;
  disabled : bool
}.

(** What the script shows outside the page. *)
Inductive Output :=
| ConsoleError (error : JsError)
| Alert (message : string).

(** The module-level variables, the three elements the script holds, the
    number of [fetchQuestions] calls waiting for their response, and the
    output so far.  [questionElement] and [nextButton_innerHTML] are, as
    for a button, the markup last assigned to [innerHTML]. *)
Record State := {
  currentQuestionIndex : Z;
  score : Z;
  questions : list Question;
  questionElement : jsstring;
  answerButtons : list Button;
  nextButton_innerHTML : jsstring;
  nextButton_display : string;
  fetching : nat;
  output : list Output
}.

(** Numbers are modelled by [Z]: the counters hold integers far below
    2^53, where [++] is exact. *)

Definition set_currentQuestionIndex (v : Z) (s : State) : State :=
  {| currentQuestionIndex := v; score := score s; questions := questions s;
     questionElement := questionElement s; answerButtons := answerButtons s;
     nextButton_innerHTML := nextButton_innerHTML s;
     nextButton_display := nextButton_display s;
     fetching := fetching s; output := output s |}.

Definition set_score (v : Z) (s : State) : State :=
  {| currentQuestionIndex := currentQuestionIndex s; score := v;
     questions := questions s;
     questionElement := questionElement s; answerButtons := answerButtons s;
     nextButton_innerHTML := nextButton_innerHTML s;
     nextButton_display := nextButton_display s;
     fetching := fetching s; output := output s |}.

Definition set_questions (v : list Question) (s : State) : State :=
  {| currentQuestionIndex := currentQuestionIndex s; score := score s;
     questions := v;
     questionElement := questionElement s; answerButtons := answerButtons s;
     nextButton_innerHTML := nextButton_innerHTML s;
     nextButton_display := nextButton_display s;
     fetching := fetching s; output := output s |}.

Definition set_questionElement (v : jsstring) (s : State) : State :=
  {| currentQuestionIndex := currentQuestionIndex s; score := score s;
     questions := questions s;
     questionElement := v; answerButtons := answerButtons s;
     nextButton_innerHTML := nextButton_innerHTML s;
     nextButton_display := nextButton_display s;
     fetching := fetching s; output := output s |}.

Definition set_answerButtons (v : list Button) (s : State) : State :=
  {| currentQuestionIndex := currentQuestionIndex s; score := score s;
     questions := questions s;
     questionElement := questionElement s; answerButtons := v;
     nextButton_innerHTML := nextButton_innerHTML s;
     nextButton_display := nextButton_display s;
     fetching := fetching s; output := output s |}.

Definition set_nextButton_innerHTML (v : jsstring) (s : State) : State :=
  {| currentQuestionIndex := currentQuestionIndex s; score := score s;
     questions := questions s;
     questionElement := questionElement s; answerButtons := answerButtons s;
     nextButton_innerHTML := v;
     nextButton_display := nextButton_display s;
     fetching := fetching s; output := output s |}.

Definition set_nextButton_display (v : string) (s : State) : State :=
  {| currentQuestionIndex := currentQuestionIndex s; score := score s;
     questions := questions s;
     questionElement := questionElement s; answerButtons := answerButtons s;
     nextButton_innerHTML := nextButton_innerHTML s;
     nextButton_display := v;
     fetching := fetching s; output := output s |}.

Definition set_fetching (v : nat) (s : State) : State :=
  {| currentQuestionIndex := currentQuestionIndex s; score := score s;
     questions := questions s;
     questionElement := questionElement s; answerButtons := answerButtons s;
     nextButton_innerHTML := nextButton_innerHTML s;
     nextButton_display := nextButton_display s;
     fetching := v; output := output s |}.

Definition add_output (o : list Output) (s : State) : State :=
  {| currentQuestionIndex := currentQuestionIndex s; score := score s;
     questions := questions s;
     questionElement := questionElement s; answerButtons := answerButtons s;
     nextButton_innerHTML := nextButton_innerHTML s;
     nextButton_display := nextButton_display s;
     fetching := fetching s; output := output s ++ o |}.

(** ** Statements that may throw

    A function of the script runs on the page state and either completes
    or throws; what it wrote before throwing stays written. *)
Inductive Completion (A : Type) :=
| Normal (a : A)
| Throw (error : JsError).

Arguments Normal {A} a.
Arguments Throw {A} error.

Definition M (A : Type) := State -> Completion A * State.

Definition ret {A} (a : A) : M A := fun s => (Normal a, s).

Definition throw {A} (error : JsError) : M A := fun s => (Throw error, s).

Definition bind {A B} (c : M A) (k : A -> M B) : M B :=
  fun s =>
    match c s with
    | (Normal a, s') => k a s'
    | (Throw error, s') => (Throw error, s')
    end.

(** An assignment to the state, as a statement. *)
Definition modify (f : State -> State) : M unit := fun s => (Normal tt, f s).

Notation "c1 ;; c2" := (bind c1 (fun _ => c2))
  (at level 61, right associativity).

(** ** [resetState], [showQuestion], [startQuiz] *)

Definition resetState (s : State) : State :=
  set_answerButtons [] (set_nextButton_display "none" s).

(** The button [showQuestion] creates for an answer.  The text of the
    answer is assigned to [innerHTML] as markup.  [dataset.correct] is
    assigned only for the correct answer, and stores the string of
    [true]. *)
Definition createAnswerButton (answer : Answer) : Button :=
  {| innerHTML := text answer;
     classList := ["btn"%string];
     dataset_correct := if correct answer then Some "true"%string else None;
     disabled := false |}.

(** [questions[currentQuestionIndex]] is [undefined] outside the array,
    and reading [.question] of it throws a [TypeError]: by then
    [resetState] has run. *)
Definition showQuestion : M unit :=
  modify resetState ;;
  fun s =>
    match array_get (questions s) (currentQuestionIndex s) with
    | None => throw TypeError s
    | Some currentQuestion =>
        let questionNo := (currentQuestionIndex s + 1)%Z in
        modify (fun s =>
          set_answerButtons
            (answerButtons s ++ map createAnswerButton (answers currentQuestion))
            (set_questionElement
               (number_to_string questionNo ++ lit ". " ++ question currentQuestion)
               s)) s
    end.

Definition startQuiz : M unit :=
  modify (set_currentQuestionIndex 0) ;;
  modify (set_score 0) ;;
  modify (set_nextButton_innerHTML (lit "Next")) ;;
  showQuestion.

(** ** [selectAnswer] *)

(** The target of a click event: a button of the answer list, named by
    its position, or a button outside the page (the script's own test
    builds such buttons). *)
Inductive Target :=
| Child (k : nat)
| Detached (button : Button).

Record Event := { target : Target }.

Definition target_button (s : State) (t : Target) : option Button :=
  match t with
  | Child k => nth_error (answerButtons s) k
  | Detached button => Some button
  end.

(** [button.dataset.correct == "true"] *)
Definition dataset_correct_is_true (button : Button) : bool :=
  match dataset_correct button with
  | Some v => String.eqb v "true"
  | None => false
  end.

Definition classList_add (token : string) (button : Button) : Button :=
  {| innerHTML := innerHTML button;
     classList := if existsb (String.eqb token) (classList button)
                  then classList button
                  else classList button ++ [token];
     dataset_correct := dataset_correct button;
     disabled := disabled button |}.

Definition set_disabled (v : bool) (button : Button) : Button :=
  {| innerHTML := innerHTML button; classList := classList button;
     dataset_correct := dataset_correct button; disabled := v |}.

Fixpoint update_nth {T} (k : nat) (f : T -> T) (l : list T) : list T :=
  match l, k with
  | [], _ => []
  | x :: rest, O => f x :: rest
  | x :: rest, S k' => x :: update_nth k' f rest
  end.

(** A change made through [e.target] changes the button of the page the
    target is; a button outside the page is not part of the state. *)
Definition update_target (t : Target) (f : Button -> Button) (s : State) : State :=
  match t with
  | Child k => set_answerButtons (update_nth k f (answerButtons s)) s
  | Detached _ => s
  end.

(** The handler has no test of its own for a question already answered:
    it reads the target, counts a correct one, then marks and disables
    every button of the list and shows the next button. *)
Definition selectAnswer (e : Event) : M unit :=
  fun s =>
    match target_button s (target e) with
    | None => throw TypeError s
    | Some selectedBtn =>
        let isCorrect := dataset_correct_is_true selectedBtn in
        let s :=
          if isCorrect
          then set_score (score s + 1)
                 (update_target (target e) (classList_add "correct") s)
          else update_target (target e) (classList_add "incorrect") s in
        let s :=
          set_answerButtons
            (map (fun button =>
                    set_disabled true
                      (if dataset_correct_is_true button
                       then classList_add "correct" button
                       else button))
                 (answerButtons s)) s in
        (Normal tt, set_nextButton_display "block" s)
    end.

(** ** [showScore], [handleNextButton] *)

Definition showScore (s : State) : State :=
  let s := resetState s in
  let s :=
    set_questionElement
      (lit "You scored " ++ number_to_string (score s) ++ lit " out of "
         ++ number_to_string (Z.of_nat (length (questions s))) ++ lit "!") s in
  let s := set_nextButton_innerHTML (lit "Play Again") s in
  set_nextButton_display "block" s.

Definition handleNextButton : M unit :=
  modify (fun s => set_currentQuestionIndex (currentQuestionIndex s + 1) s) ;;
  fun s =>
    if (currentQuestionIndex s <? Z.of_nat (length (questions s)))%Z
    then showQuestion s
    else modify showScore s.

(** ** [fetchQuestions] *)

(** A record of the question bank, in the shape the API documents. *)
Record RawQuestion := {
  raw_question : jsstring;
  correct_answer : jsstring;
  incorrect_answers : list jsstring
}.

(** What [response.json()] gives: a rejection for a body that is not
    JSON, or data whose [results] is absent or a list of records. *)
Inductive Body :=
| NotJSON
| Data (results : option (list RawQuestion)).

(** How the request ends: [fetch] rejects (no connection), or there is a
    response with its [ok] flag and body. *)
Inductive Transport :=
| Rejected
| Response (ok : bool) (body : Body).

(** The callback of [data.results.map]. *)
Definition makeQuestion (random : random_source) (calls : nat) (q : RawQuestion)
  : Question * nat :=
  let '(shuffled, calls') :=
    shuffleArray random calls
      ({| text := decodeHTML (correct_answer q); correct := true |}
         :: map (fun ans => {| text := decodeHTML ans; correct := false |})
                (incorrect_answers q)) in
  ({| question := decodeHTML (raw_question q); answers := shuffled |}, calls').

Fixpoint makeQuestions (random : random_source) (calls : nat)
         (results : list RawQuestion) : list Question * nat :=
  match results with
  | [] => ([], calls)
  | q :: rest =>
      let '(q', calls') := makeQuestion random calls q in
      let '(rest', calls'') := makeQuestions random calls' rest in
      (q' :: rest', calls'')
  end.

(** The call itself runs up to the first [await]: a request is sent and
    nothing of the state is touched.  The parameter [retryCount] is never
    read. *)
Definition fetchQuestions_call (s : State) : State :=
  set_fetching (S (fetching s)) s.

(** The [try] block once the request has ended.  The two [await]s are
    taken together: the function reads and writes no state between
    them. *)
Definition fetchQuestions_try (t : Transport) (random : random_source) : M unit :=
  match t with
  | Rejected => throw TypeError
  | Response ok body =>
      if negb ok then throw (Error "Failed to fetch questions.")
      else
        match body with
        | NotJSON => throw SyntaxError
        | Data None => throw TypeError
        | Data (Some results) =>
            modify (set_questions (fst (makeQuestions random 0 results))) ;;
            startQuiz
        end
  end.

(** The rest of [fetchQuestions]: the [try] block and its [catch].  The
    function never throws to its caller. *)
Definition fetchQuestions_resume (t : Transport) (random : random_source)
  : M unit :=
  fun s =>
    let s := set_fetching (pred (fetching s)) s in
    match fetchQuestions_try t random s with
    | (Normal _, s') => (Normal tt, s')
    | (Throw error, s') =>
        (Normal tt,
         add_output
           [ConsoleError error;
            Alert "Could not load questions. Please try again later."] s')
    end.

(** ** The click listener of the next button *)

Definition nextButton_click (s : State) : State :=
  if (currentQuestionIndex s <? Z.of_nat (length (questions s)))%Z
  then snd (handleNextButton s)
  else fetchQuestions_call s.

(** ** Platform model: click dispatch

    The browser runs the listener of a button that is clicked; a disabled
    button receives no click event. *)
Definition click_answer (k : nat) (s : State) : State :=
  match nth_error (answerButtons s) k with
  | Some button =>
      if disabled button then s
      else snd (selectAnswer {| target := Child k |} s)
  | None => s
  end.

(** ** The session as the specification names it *)

Definition InProgress (s : State) : Prop :=
  (currentQuestionIndex s < Z.of_nat (length (questions s)))%Z.

Definition Finished (s : State) : Prop :=
  currentQuestionIndex s = Z.of_nat (length (questions s)).

(** The script has no variable for the lock on the current question: the
    lock is the state of the page after [selectAnswer], every answer
    button disabled and the next button shown. *)
Definition answeredCurrent (s : State) : bool :=
  String.eqb (nextButton_display s) "block" && forallb disabled (answerButtons s).

(** ** The events of a session *)

Inductive Action :=
| ClickAnswer (k : nat)
| ClickNext
| FetchEnds (t : Transport) (random : random_source).

Inductive step : State -> Action -> State -> Prop :=
| step_click_answer k button s :
    nth_error (answerButtons s) k = Some button ->
    disabled button = false ->
    step s (ClickAnswer k) (click_answer k s)
| step_click_next s :
    step s ClickNext (nextButton_click s)
| step_fetch_ends t random s :
    (0 < fetching s)%nat ->
    unit_interval random ->
    step s (FetchEnds t random) (snd (fetchQuestions_resume t random s)).

(** The states of a session: those a successful [startQuiz] leaves, and
    those events lead to from there. *)
Inductive reachable : State -> Prop :=
| reachable_start s0 s :
    startQuiz s0 = (Normal tt, s) -> reachable s
| reachable_step s a s' :
    reachable s -> step s a s' -> reachable s'.

(** ** The notions the properties are stated with *)

(** The number of answers of a question marked correct. *)
Definition correct_count (q : Question) : nat :=
  length (filter correct (answers q)).

(** Either the score is within the questions passed, and a finished
    session shows no answer button; or the current question is answered
    and the score may count it already. *)
Definition session_invariant (s : State) : Prop :=
  (0 <= score s)%Z /\
  (0 <= currentQuestionIndex s <= Z.of_nat (length (questions s)))%Z /\
  (((score s <= currentQuestionIndex s)%Z /\
    (currentQuestionIndex s = Z.of_nat (length (questions s)) ->
     answerButtons s = [])) \/
   ((currentQuestionIndex s < Z.of_nat (length (questions s)))%Z /\
    (score s <= currentQuestionIndex s + 1)%Z /\
    answeredCurrent s = true)).

(** The alerts shown so far. *)
Definition alerts (s : State) : list string :=
  flat_map (fun o => match o with Alert m => [m] | ConsoleError _ => [] end)
           (output s).

(** What the caller of [fetchQuestions] and the user get from a request
    that ended with [t]: the completion of the call and the alerts. *)
Definition caller_view (t : Transport) (random : random_source) (s : State)
  : Completion unit * list string :=
  let r := fetchQuestions_resume t random s in (fst r, alerts (snd r)).

(** The [catch] block ran on error [e] and nothing of the session moved. *)
Definition caught (t : Transport) (random : random_source) (s : State)
           (e : JsError) : Prop :=
  let r := fetchQuestions_resume t random s in
  fst r = Normal tt /\
  questions (snd r) = questions s /\
  currentQuestionIndex (snd r) = currentQuestionIndex s /\
  score (snd r) = score s /\
  answerButtons (snd r) = answerButtons s /\
  nextButton_display (snd r) = nextButton_display s /\
  output (snd r)
    = output s ++ [ConsoleError e;
                   Alert "Could not load questions. Please try again later."].

(** The text holds no character reference: at none of its ampersands
    does the tokenizer find one (a named reference of the table, or a
    number sign followed by digits).  This is the text "without
    entities". *)
Fixpoint no_character_reference (s : jsstring) : bool :=
  match s with
  | [] => true
  | c :: rest =>
      (if (c =? HTML.AMPERSAND)%N then
         match HTML.character_reference HTML.named_character_references rest with
         | None => true
         | Some _ => false
         end
       else true)
      && no_character_reference rest
  end.








(** ** Sessions and inputs to run the script on *)

(** A page to run examples on. *)
Definition blank : State :=
  {| currentQuestionIndex := 0; score := 0; questions := [];
     questionElement := []; answerButtons := [];
     nextButton_innerHTML := lit "Next"; nextButton_display := "none";
     fetching := 0; output := [] |}.

Definition q1 : Question :=
  {| question := lit "2+2?";
     answers := [ {| text := lit "4"; correct := true |};
                  {| text := lit "5"; correct := false |} ] |}.

Definition q2 : Question :=
  {| question := lit "Capital of France?";
     answers := [ {| text := lit "Rome"; correct := false |};
                  {| text := lit "Paris"; correct := true |} ] |}.

(** The session after the first question has been answered correctly. *)
Definition started : State := snd (startQuiz (set_questions [q1; q2] blank)).

Definition answered_q1 : State := click_answer 0 started.

(** A finished session of one question, its score shown, after the click
    on "Play Again". *)
Definition played_q1 : State :=
  nextButton_click
    (nextButton_click
       (click_answer 0 (snd (startQuiz (set_questions [q1] blank))))).

(** A source of draws for examples: always one half. *)
Definition half : random_source := fun _ => (1 # 2)%Q.

(** A record of the question bank, its texts escaped as the bank sends
    them. *)
Definition raw1 : RawQuestion :=
  {| raw_question := lit "Who wrote &quot;Hamlet&quot;?";
     correct_answer := lit "Shakespeare";
     incorrect_answers := [lit "Marlowe"; lit "Jonson &amp; Kyd"; lit "Kyd"] |}.

(** The script's own test of [selectAnswer]: two buttons outside the
    page, one marked correct, clicked one after the other. *)
Definition correctButton : Button :=
  {| innerHTML := []; classList := []; dataset_correct := Some "true"%string;
     disabled := false |}.

Definition incorrectButton : Button :=
  {| innerHTML := []; classList := []; dataset_correct := Some "false"%string;
     disabled := false |}.

(** ** Notions for the further properties *)

(** The draw that makes step [i] of the shuffle pick index [j]: the
    rational [j / (i + 1)]. *)
Definition draw_for (i j : nat) : Q := Z.of_nat j # Pos.of_succ_nat i.

(** The source that answers [r] at call [c] and as [random] at every
    other call. *)
Definition with_draw (c : nat) (r : Q) (random : random_source) : random_source :=
  fun n => if Nat.eqb n c then r else random n.

(** The buttons were made of the answers of [q]: the markup assigned and
    the marks are those of its answers, in their order. *)
Definition shows (q : Question) (buttons : list Button) : Prop :=
  map innerHTML buttons = map text (answers q) /\
  map dataset_correct_is_true buttons = map correct (answers q).

(** The text [showScore] writes for the score and the questions of [s]. *)
Definition score_message (s : State) : jsstring :=
  lit "You scored " ++ number_to_string (score s) ++ lit " out of "
    ++ number_to_string (Z.of_nat (length (questions s))) ++ lit "!".

(** The page was written from the variables: its buttons were made of
    the question at [currentQuestionIndex], whose number and text were
    assigned to the question element, under the label "Next"; past the
    last question there is no answer button and, when there were
    questions, the score message was assigned, under the label
    "Play Again". *)
Definition page_consistent (s : State) : Prop :=
  match array_get (questions s) (currentQuestionIndex s) with
  | Some q =>
      shows q (answerButtons s) /\
      questionElement s
        = number_to_string (currentQuestionIndex s + 1) ++ lit ". " ++ question q /\
      nextButton_innerHTML s = lit "Next"
  | None =>
      answerButtons s = [] /\
      (questions s <> [] ->
       questionElement s = score_message s /\
       nextButton_innerHTML s = lit "Play Again" /\
       nextButton_display s = "block"%string)
  end.

(** The next button is hidden while every answer button is enabled, and
    shown while every answer button is disabled. *)
Definition lock_consistent (s : State) : Prop :=
  (nextButton_display s = "none"%string /\
   Forall (fun button => disabled button = false) (answerButtons s)) \/
  (nextButton_display s = "block"%string /\
   Forall (fun button => disabled button = true) (answerButtons s)).

(** A player who clicks answer [k] of each question in turn and then the
    next button. *)
Fixpoint play (picks : list nat) (s : State) : State :=
  match picks with
  | [] => s
  | k :: rest => play rest (nextButton_click (click_answer k s))
  end.

(** Answer [k] of [q] exists and is the correct one. *)
Definition correct_pick (q : Question) (k : nat) : bool :=
  match nth_error (answers q) k with
  | Some answer => correct answer
  | None => false
  end.

(** The number of questions whose pick is correct. *)
Fixpoint tally (qs : list Question) (picks : list nat) : Z :=
  match qs, picks with
  | q :: qs', k :: picks' =>
      ((if correct_pick q k then 1 else 0) + tally qs' picks')%Z
  | _, _ => 0%Z
  end.

(** The escaping that [decodeHTML] is there to undo, as the question bank
    applies it to its texts: the ampersand, the angle brackets and the
    two quotes become character references.  It is not part of the
    script; the round trip below is stated with it. *)
Definition escape_unit (c : N) : jsstring :=
  if (c =? 38)%N then lit "&amp;"
  else if (c =? 60)%N then lit "&lt;"
  else if (c =? 62)%N then lit "&gt;"
  else if (c =? 34)%N then lit "&quot;"
  else if (c =? 39)%N then lit "&#039;"
  else [c].

Definition escapeHTML (s : jsstring) : jsstring := flat_map escape_unit s.

(** Every ampersand of the text ends it or stands before a code unit that
    is neither a letter, a digit nor a number sign: none can start a
    character reference. *)
Fixpoint literal_ampersands (s : jsstring) : bool :=
  match s with
  | [] => true
  | c :: rest =>
      (if (c =? HTML.AMPERSAND)%N then
         match rest with
         | [] => true
         | d :: _ => negb (HTML.ascii_alphanumeric d)
                     && negb (d =? HTML.NUMBER_SIGN)%N
         end
       else true)
      && literal_ampersands rest
  end.

(** * Properties *)

(** ** The text decoder *)

Section Decoder.

Import HTML.
Local Open Scope N_scope.

Lemma normalize_newlines_plain (s : jsstring) :
  Forall (fun c => c <> CR) s -> normalize_newlines s = s.
Proof.
  induction 1 as [|c rest Hc _ IH]; simpl; [reflexivity|].
  apply N.eqb_neq in Hc. rewrite Hc, IH. reflexivity.
Qed.

Lemma rcdata_plain table (s : jsstring) :
  Forall (fun c => c <> AMPERSAND /\ c <> NUL) s -> rcdata table 0 s = s.
Proof.
  induction 1 as [|c rest [Ha Hn] _ IH]; simpl; [reflexivity|].
  apply N.eqb_neq in Ha, Hn. rewrite Ha, Hn, IH. reflexivity.
Qed.



(** *** The tokenizer on pieces of text *)




(** *** Named references *)




Section LongestMatch.

Variable table : list (string * jsstring).
Variable s : jsstring.
Variables name text : jsstring.

Hypothesis name_matches : starts_with name s = true.
Hypothesis others :
  forall e', In e' table ->
             starts_with (lit (fst e')) s = true ->
             (length (lit (fst e')) < length name)%nat \/
             (lit (fst e') = name /\ snd e' = text).

Let step (best : option (jsstring * jsstring)) (entry : string * jsstring) :=
  let n := lit (fst entry) in
  if starts_with n s then
    match best with
    | Some (n', _) =>
        if (length n' <? length n)%nat then Some (n, snd entry) else best
    | None => Some (n, snd entry)
    end
  else best.




End LongestMatch.





(** *** Numeric references *)








(** *** Numbers written in digits *)















Lemma literal_ampersands_no_reference (s : jsstring) :
  literal_ampersands s = true -> no_character_reference s = true.
Proof.
  induction s as [|c rest IH]; simpl; [reflexivity|]. intros H.
  apply andb_true_iff in H as [Hhere Hrest]. rewrite (IH Hrest).
  destruct (c =? AMPERSAND); [|reflexivity].
  destruct rest as [|d rest']; [reflexivity|].
  apply andb_true_iff in Hhere as [Halnum Hsharp].
  apply negb_true_iff in Halnum, Hsharp.
  unfold character_reference. rewrite Hsharp, Halnum. reflexivity.
Qed.


End Decoder.




(** Texts as the question bank sends them: a numeric reference, an
    ampersand that starts no reference, and one pass of decoding only. *)
Lemma decodeHTML_examples :
  decodeHTML (lit "Don&#039;t") = lit "Don't" /\
  decodeHTML (lit "R&B &eacute;") = lit "R&B " ++ [233%N] /\
  decodeHTML (lit "&amp;lt;") = lit "&lt;" /\
  decodeHTML (lit "&#x41;&#66") = lit "AB" /\
  decodeHTML (raw_question raw1) = lit "Who wrote " ++ [34%N] ++ lit "Hamlet" ++ [34%N] ++ lit "?".
Proof. repeat split. Qed.

(** ** The shuffle *)

Section Shuffle.

Variable T : Type.

Lemma array_set_front (x a : T) (rest : list T) (j : nat) :
  nth_error rest j = Some a ->
  Permutation (x :: rest) (a :: array_set j x rest).
Proof.
  revert j; induction rest as [|y rest IH]; intros [|j] Hj;
    simpl in *; try discriminate.
  - injection Hj as ->. apply perm_swap.
  - apply perm_trans with (y :: x :: rest); [apply perm_swap|].
    apply perm_trans with (y :: a :: array_set j x rest);
      [apply perm_skip, IH, Hj | apply perm_swap].
Qed.

Lemma swap_cons (x : T) (rest : list T) (i j : nat) :
  swap (S i) (S j) (x :: rest) = x :: swap i j rest.
Proof.
  unfold swap; simpl.
  destruct (nth_error rest i), (nth_error rest j); reflexivity.
Qed.

Lemma swap_Permutation (array : list T) (i j : nat) :
  Permutation array (swap i j array).
Proof.
  revert i j; induction array as [|x rest IH]; intros i j.
  - unfold swap; destruct i, j; reflexivity.
  - destruct i as [|i], j as [|j].
    + reflexivity.
    + unfold swap; simpl.
      destruct (nth_error rest j) eqn:Hj; [|reflexivity].
      simpl. apply array_set_front, Hj.
    + unfold swap; simpl.
      destruct (nth_error rest i) eqn:Hi; [|reflexivity].
      simpl. apply array_set_front, Hi.
    + rewrite swap_cons. apply perm_skip, IH.
Qed.

(** Inside the array the swap is the two assignments of the script: with
    [j <= i < length array], as the loop and the draws ensure, the other
    branch of [swap] is never taken. *)
Lemma swap_in_range (array : list T) (i j : nat) :
  (i < length array)%nat -> (j <= i)%nat ->
  exists ai aj,
    nth_error array i = Some ai /\ nth_error array j = Some aj /\
    swap i j array = array_set j ai (array_set i aj array).
Proof.
  intros Hi Hj. unfold swap.
  destruct (nth_error array i) as [ai|] eqn:Ei;
    [|apply nth_error_None in Ei; lia].
  destruct (nth_error array j) as [aj|] eqn:Ej;
    [|apply nth_error_None in Ej; lia].
  exists ai, aj. auto.
Qed.

Lemma shuffle_loop_Permutation random (i : nat) :
  forall calls (array : list T),
    Permutation array (fst (shuffle_loop random calls i array)).
Proof.
  induction i as [|i IH]; intros calls array; simpl.
  - reflexivity.
  - eapply perm_trans; [apply swap_Permutation | apply IH].
Qed.

Lemma shuffleArray_Permutation random calls (array : list T) :
  Permutation array (fst (shuffleArray random calls array)).
Proof. apply shuffle_loop_Permutation. Qed.

End Shuffle.

(** With [Math.random()] in [0, 1) the index drawn lies in [0, i]. *)
Lemma random_index_le random (n i : nat) :
  unit_interval random -> (random_index random n i <= i)%nat.
Proof.
  intros Hr. destruct (Hr n) as [_ Hlt]. unfold random_index.
  set (k := (Z.of_nat i + 1)%Z).
  assert (Hk : (inject_Z 0 < inject_Z k)%Q) by (rewrite <- Zlt_Qlt; lia).
  assert (H1 : (random n * inject_Z k < inject_Z k)%Q).
  { setoid_replace (inject_Z k) with (1 * inject_Z k)%Q at 2 by ring.
    apply Qmult_lt_compat_r; assumption. }
  assert (H2 : (Qfloor (random n * inject_Z k) < k)%Z).
  { rewrite Zlt_Qlt. eapply Qle_lt_trans; [apply Qfloor_le | exact H1]. }
  lia.
Qed.

(** C7: for every array and every sequence of draws in [0, 1),
    [shuffleArray] draws each index [j] in [0, i], returns the elements it
    was given, as many and each as often; it leaves an array of length 0
    or 1 as it is; and it works in place: the reference returned is the
    one passed, the object behind it holds the shuffled elements, and no
    other object changes. *)
Theorem shuffleArray_spec (T : Type) random (calls : nat) (array : list T) :
  unit_interval random ->
  (forall n i, (random_index random n i <= i)%nat) /\
  Permutation array (fst (shuffleArray random calls array)) /\
  length (fst (shuffleArray random calls array)) = length array /\
  ((length array <= 1)%nat -> fst (shuffleArray random calls array) = array) /\
  forall (h : heap T) (r : ref),
    h r = array ->
    let '(r', h', _) := shuffleArray_ref random calls h r in
    r' = r /\
    h' r = fst (shuffleArray random calls array) /\
    forall other, other <> r -> h' other = h other.
Proof.
  intros Hr. repeat split.
  - intros n i. apply random_index_le, Hr.
  - apply shuffleArray_Permutation.
  - symmetry. apply Permutation_length, shuffleArray_Permutation.
  - intros Hlen. unfold shuffleArray.
    replace (length array - 1)%nat with 0%nat by lia. reflexivity.
  - intros h r Hh. unfold shuffleArray_ref. rewrite Hh.
    destruct (shuffleArray random calls array) as [contents calls'] eqn:E.
    simpl. repeat split.
    + unfold heap_update. rewrite Nat.eqb_refl. reflexivity.
    + intros other Hne. unfold heap_update.
      apply Nat.eqb_neq in Hne. rewrite Hne. reflexivity.
Qed.

Lemma half_unit_interval : unit_interval half.
Proof. intros n; unfold half, Qle, Qlt; simpl; lia. Qed.

Lemma shuffleArray_spec_witness :
  unit_interval half /\
  fst (shuffleArray half 0 [1; 2; 3; 4]%nat) = [1; 4; 2; 3]%nat /\
  Permutation [1; 2; 3; 4]%nat (fst (shuffleArray half 0 [1; 2; 3; 4]%nat)).
Proof.
  split; [exact half_unit_interval|]. split; [reflexivity|].
  exact (proj1 (proj2 (shuffleArray_spec 0 [1; 2; 3; 4]%nat half_unit_interval))).
Defined.

(** ** The question bank client *)

Lemma Permutation_filter_length (T : Type) (f : T -> bool) (l l' : list T) :
  Permutation l l' -> length (filter f l) = length (filter f l').
Proof.
  induction 1 as [|x l l' _ IH|x y l|l l' l'' _ IH1 _ IH2]; simpl.
  - reflexivity.
  - destruct (f x); simpl; congruence.
  - destruct (f x), (f y); reflexivity.
  - congruence.
Qed.

Lemma filter_correct_incorrect (texts : list jsstring) :
  filter correct
    (map (fun ans => {| text := decodeHTML ans; correct := false |}) texts) = [].
Proof. induction texts as [|t texts IH]; simpl; [reflexivity | exact IH]. Qed.

Lemma makeQuestion_correct_count random calls (q : RawQuestion) :
  correct_count (fst (makeQuestion random calls q)) = 1%nat.
Proof.
  unfold makeQuestion, correct_count.
  match goal with
  | |- context [shuffleArray random calls ?a] =>
      pose proof (shuffleArray_Permutation random calls a) as Hperm;
      destruct (shuffleArray random calls a) as [shuffled calls']
  end.
  simpl in *.
  rewrite <- (Permutation_filter_length correct Hperm). simpl.
  rewrite filter_correct_incorrect. reflexivity.
Qed.

Lemma makeQuestions_correct_count random (results : list RawQuestion) :
  forall calls,
    Forall (fun q => correct_count q = 1%nat)
           (fst (makeQuestions random calls results)).
Proof.
  induction results as [|q rest IH]; intros calls; simpl.
  - constructor.
  - pose proof (makeQuestion_correct_count random calls q) as Hq.
    destruct (makeQuestion random calls q) as [q' calls'].
    specialize (IH calls').
    destruct (makeQuestions random calls' rest) as [rest' calls''].
    simpl in *. constructor; assumption.
Qed.

Lemma makeQuestions_length random (results : list RawQuestion) :
  forall calls,
    length (fst (makeQuestions random calls results)) = length results.
Proof.
  induction results as [|q rest IH]; intros calls; simpl.
  - reflexivity.
  - destruct (makeQuestion random calls q) as [q' calls'].
    specialize (IH calls').
    destruct (makeQuestions random calls' rest) as [rest' calls''].
    simpl in *. congruence.
Qed.

(** None of the functions behind [startQuiz] assigns [questions]. *)
Lemma showQuestion_questions (s : State) :
  questions (snd (showQuestion s)) = questions s.
Proof.
  unfold showQuestion, bind, modify, throw; simpl.
  destruct (array_get (questions s) (currentQuestionIndex s)); reflexivity.
Qed.

Lemma startQuiz_questions (s : State) :
  questions (snd (startQuiz s)) = questions s.
Proof.
  unfold startQuiz, bind, modify; simpl.
  match goal with |- context [showQuestion ?s0] =>
    pose proof (showQuestion_questions s0) as H;
    destruct (showQuestion s0) as [[|] ?] end; exact H.
Qed.

Lemma fetchQuestions_resume_questions random (results : list RawQuestion) (s : State) :
  questions (snd (fetchQuestions_resume (Response true (Data (Some results))) random s))
  = fst (makeQuestions random 0 results).
Proof.
  unfold fetchQuestions_resume, fetchQuestions_try; simpl.
  unfold bind at 1, modify at 1.
  match goal with |- context [startQuiz ?s0] =>
    pose proof (startQuiz_questions s0) as H;
    destruct (startQuiz s0) as [[|] s1] end; exact H.
Qed.

(** C8: every question [fetchQuestions] stores, out of any list of records
    and for any draws of the shuffle, has exactly one answer marked
    correct; and a question is built for each record. *)
Theorem fetchQuestions_one_correct_answer
        random (results : list RawQuestion) (s : State) :
  unit_interval random ->
  let s' := snd (fetchQuestions_resume (Response true (Data (Some results))) random s) in
  Forall (fun q => correct_count q = 1%nat) (questions s') /\
  length (questions s') = length results.
Proof.
  intros _ s'. subst s'. rewrite fetchQuestions_resume_questions.
  split; [apply makeQuestions_correct_count | apply makeQuestions_length].
Qed.

Lemma fetchQuestions_one_correct_answer_witness :
  unit_interval half /\
  Forall (fun q => correct_count q = 1%nat)
         (questions
            (snd (fetchQuestions_resume (Response true (Data (Some [raw1; raw1])))
                                        half blank))).
Proof.
  split; [exact half_unit_interval|].
  exact (proj1 (fetchQuestions_one_correct_answer [raw1; raw1] blank
                  half_unit_interval)).
Defined.

(** ** The session: what each handler does to the state *)

Ltac run :=
  unfold startQuiz, showQuestion, handleNextButton, showScore, resetState,
    bind, modify, throw, ret; simpl.

Lemma forallb_disabled_lock (f : Button -> Button) (buttons : list Button) :
  forallb disabled (map (fun button => set_disabled true (f button)) buttons) = true.
Proof. induction buttons as [|b rest IH]; simpl; [reflexivity | exact IH]. Qed.

Lemma forallb_disabled_nth (buttons : list Button) (k : nat) (button : Button) :
  forallb disabled buttons = true ->
  nth_error buttons k = Some button ->
  disabled button = true.
Proof.
  revert k; induction buttons as [|b rest IH]; intros [|k] Hall Hk;
    simpl in *; try discriminate;
    apply andb_true_iff in Hall as [Hb Hrest].
  - injection Hk as <-. exact Hb.
  - eapply IH; eassumption.
Qed.

Lemma forallb_enabled_created (l : list Answer) :
  Forall (fun button => disabled button = false) (map createAnswerButton l).
Proof. induction l; simpl; constructor; auto. Qed.

(** What [selectAnswer] does when its event has a target. *)
Lemma selectAnswer_run (e : Event) (s : State) (button : Button) :
  target_button s (target e) = Some button ->
  fst (selectAnswer e s) = Normal tt /\
  currentQuestionIndex (snd (selectAnswer e s)) = currentQuestionIndex s /\
  questions (snd (selectAnswer e s)) = questions s /\
  score (snd (selectAnswer e s))
    = (if dataset_correct_is_true button then score s + 1 else score s)%Z /\
  answeredCurrent (snd (selectAnswer e s)) = true.
Proof.
  intros Ht. unfold selectAnswer. rewrite Ht.
  unfold answeredCurrent.
  destruct (dataset_correct_is_true button), (target e); simpl;
    rewrite forallb_disabled_lock; repeat split; reflexivity.
Qed.

(** The script's own test of [selectAnswer]: the correct button raises
    the score by one, the incorrect button called right after leaves it. *)
Lemma testSelectAnswer (s : State) :
  let s1 := snd (selectAnswer {| target := Detached correctButton |} s) in
  let s2 := snd (selectAnswer {| target := Detached incorrectButton |} s1) in
  score s1 = (score s + 1)%Z /\ score s2 = score s1.
Proof. split; reflexivity. Qed.

(** A click on an answer button of an answered question reaches no
    handler: the button is disabled. *)
Lemma click_answer_locked (k : nat) (s : State) :
  answeredCurrent s = true -> click_answer k s = s.
Proof.
  unfold answeredCurrent, click_answer. intros H.
  apply andb_true_iff in H as [_ Hall].
  destruct (nth_error (answerButtons s) k) as [button|] eqn:Hk; [|reflexivity].
  rewrite (forallb_disabled_nth _ _ Hall Hk). reflexivity.
Qed.

(** C1, as stated, fails: the first question has been answered, and a
    second call of [selectAnswer] on the correct button counts again. *)
Lemma selectAnswer_twice_counts_twice :
  InProgress answered_q1 /\
  answeredCurrent answered_q1 = true /\
  score answered_q1 = 1%Z /\
  selectAnswer {| target := Child 0 |} answered_q1
    = (Normal tt, snd (selectAnswer {| target := Child 0 |} answered_q1)) /\
  score (snd (selectAnswer {| target := Child 0 |} answered_q1)) = 2%Z.
Proof. unfold InProgress. repeat split; vm_compute; reflexivity. Qed.

(** C1 (amended): on a question already answered, a click on any answer
    button changes nothing, because the button is disabled; [selectAnswer]
    itself, called again with any target, raises no error and keeps
    [currentQuestionIndex], [questions] and the lock, and keeps [score]
    exactly when the target is not marked correct: for a target marked
    correct it adds one again. *)
Theorem selectAnswer_repeated (s : State) :
  InProgress s ->
  answeredCurrent s = true ->
  (forall k, click_answer k s = s) /\
  forall e button,
    target_button s (target e) = Some button ->
    fst (selectAnswer e s) = Normal tt /\
    currentQuestionIndex (snd (selectAnswer e s)) = currentQuestionIndex s /\
    questions (snd (selectAnswer e s)) = questions s /\
    answeredCurrent (snd (selectAnswer e s)) = true /\
    (dataset_correct_is_true button = false ->
     score (snd (selectAnswer e s)) = score s) /\
    (dataset_correct_is_true button = true ->
     score (snd (selectAnswer e s)) = (score s + 1)%Z).
Proof.
  intros _ Hlock. split.
  - intros k. apply click_answer_locked, Hlock.
  - intros e button Ht.
    destruct (selectAnswer_run e s Ht) as (Hc & Hi & Hq & Hs & Ha).
    repeat split; try assumption; intros Hb; rewrite Hs, Hb; reflexivity.
Qed.

Lemma selectAnswer_repeated_witness :
  InProgress answered_q1 /\
  answeredCurrent answered_q1 = true /\
  click_answer 0 answered_q1 = answered_q1 /\
  score (snd (selectAnswer {| target := Child 1 |} answered_q1)) = 1%Z.
Proof.
  assert (Hp : InProgress answered_q1) by (vm_compute; reflexivity).
  assert (Hl : answeredCurrent answered_q1 = true) by reflexivity.
  destruct (selectAnswer_repeated Hp Hl) as [Hclick Hcall].
  refine (conj Hp (conj Hl (conj (Hclick 0%nat) _))).
  destruct (Hcall {| target := Child 1 |} _ eq_refl) as (_ & _ & _ & _ & Hs & _).
  exact (Hs eq_refl).
Defined.

(** C3: [startQuiz] on an empty [questions] fails (the [TypeError] of
    reading the first question) and the session is not in progress, no
    answer button is on the page; on [questions] that are not empty it
    completes, in progress, with [score] and [currentQuestionIndex] at 0
    and the current question not answered, every button enabled. *)
Theorem startQuiz_spec (s : State) :
  (questions s = [] ->
   exists s',
     startQuiz s = (Throw TypeError, s') /\
     ~ InProgress s' /\ answerButtons s' = []) /\
  (questions s <> [] ->
   exists s',
     startQuiz s = (Normal tt, s') /\
     InProgress s' /\
     questions s' = questions s /\
     score s' = 0%Z /\
     currentQuestionIndex s' = 0%Z /\
     answeredCurrent s' = false /\
     Forall (fun button => disabled button = false) (answerButtons s')).
Proof.
  split; intros Hq.
  - run. rewrite Hq. simpl. eexists; split; [reflexivity|].
    unfold InProgress; simpl. rewrite Hq. simpl. split; [lia | reflexivity].
  - run. destruct (questions s) as [|q rest] eqn:E; [congruence|]. simpl.
    eexists; split; [reflexivity|].
    unfold InProgress, answeredCurrent; simpl. rewrite E.
    repeat split; try reflexivity.
    apply forallb_enabled_created.
Qed.

Lemma startQuiz_spec_witness :
  (exists s', startQuiz blank = (Throw TypeError, s') /\
              ~ InProgress s' /\ answerButtons s' = []) /\
  (exists s', startQuiz (set_questions [q1; q2] blank) = (Normal tt, s') /\
              InProgress s' /\ score s' = 0%Z).
Proof.
  split.
  - exact (proj1 (startQuiz_spec blank) eq_refl).
  - assert (Hne : questions (set_questions [q1; q2] blank) <> [])
      by discriminate.
    destruct (proj2 (startQuiz_spec _) Hne) as (s' & Hrun & Hp & _ & Hs & _).
    exists s'. auto.
Defined.

(** ** The next button *)

Lemma showQuestion_frame (s : State) :
  currentQuestionIndex (snd (showQuestion s)) = currentQuestionIndex s /\
  score (snd (showQuestion s)) = score s /\
  questions (snd (showQuestion s)) = questions s /\
  fetching (snd (showQuestion s)) = fetching s /\
  nextButton_display (snd (showQuestion s)) = "none"%string /\
  Forall (fun button => disabled button = false)
         (answerButtons (snd (showQuestion s))).
Proof.
  run. destruct (array_get (questions s) (currentQuestionIndex s)); simpl;
    repeat split; auto using forallb_enabled_created.
Qed.

Lemma handleNextButton_frame (s : State) :
  currentQuestionIndex (snd (handleNextButton s)) = (currentQuestionIndex s + 1)%Z /\
  score (snd (handleNextButton s)) = score s /\
  questions (snd (handleNextButton s)) = questions s /\
  fetching (snd (handleNextButton s)) = fetching s.
Proof.
  unfold handleNextButton, bind, modify; simpl.
  match goal with |- context [if ?c then _ else _] => destruct c end.
  - match goal with |- context [showQuestion ?s0] =>
      destruct (showQuestion_frame s0) as (Hi & Hs & Hq & Hf & _) end.
    simpl in *. auto.
  - simpl. auto.
Qed.

(** C4: in a session in progress whose current question is answered, the
    click on the next button runs [handleNextButton], which adds exactly
    one to [currentQuestionIndex]; when the new index is the number of
    questions the session is finished and the score is shown; otherwise
    the session stays in progress and the new current question is not
    answered, its buttons enabled.  Out of a session in progress the click
    advances nothing: it calls [fetchQuestions]. *)
Theorem nextButton_advance (s : State) :
  (InProgress s ->
   answeredCurrent s = true ->
   let s' := nextButton_click s in
   s' = snd (handleNextButton s) /\
   currentQuestionIndex s' = (currentQuestionIndex s + 1)%Z /\
   (currentQuestionIndex s' = Z.of_nat (length (questions s)) ->
    Finished s' /\ ~ InProgress s' /\
    nextButton_innerHTML s' = lit "Play Again" /\ answerButtons s' = []) /\
   (currentQuestionIndex s' <> Z.of_nat (length (questions s)) ->
    InProgress s' /\ answeredCurrent s' = false /\
    Forall (fun button => disabled button = false) (answerButtons s'))) /\
  (~ InProgress s -> nextButton_click s = fetchQuestions_call s).
Proof.
  unfold InProgress, Finished. split.
  - intros Hp _. unfold nextButton_click.
    apply Z.ltb_lt in Hp as Hp'. rewrite Hp'. cbv zeta.
    destruct (handleNextButton_frame s) as (Hi & _ & Hq & _).
    split; [reflexivity|]. split; [exact Hi|].
    rewrite Hq, Hi. split.
    + intros Hend. unfold handleNextButton, bind, modify; simpl.
      rewrite Hend, Z.ltb_irrefl. simpl. repeat split; lia.
    + intros Hmore. unfold handleNextButton, bind, modify; simpl.
      assert (Hlt : (currentQuestionIndex s + 1 <? Z.of_nat (length (questions s)))%Z = true)
        by (apply Z.ltb_lt; lia).
      rewrite Hlt.
      match goal with |- context [showQuestion ?s0] =>
        destruct (showQuestion_frame s0) as (Hi' & _ & Hq' & _ & Hd & He) end.
      simpl in *. split; [lia|]. split; [|exact He].
      unfold answeredCurrent. rewrite Hd. reflexivity.
  - intros Hn. unfold nextButton_click.
    destruct (currentQuestionIndex s <? Z.of_nat (length (questions s)))%Z eqn:E;
      [apply Z.ltb_lt in E; contradiction | reflexivity].
Qed.

Lemma nextButton_advance_witness :
  InProgress answered_q1 /\
  answeredCurrent answered_q1 = true /\
  currentQuestionIndex (nextButton_click answered_q1) = 1%Z /\
  answeredCurrent (nextButton_click answered_q1) = false.
Proof.
  assert (Hp : InProgress answered_q1) by (vm_compute; reflexivity).
  assert (Hl : answeredCurrent answered_q1 = true) by reflexivity.
  destruct (proj1 (nextButton_advance answered_q1) Hp Hl) as (_ & Hi & _ & Hmore).
  refine (conj Hp (conj Hl (conj Hi _))).
  apply Hmore. rewrite Hi. vm_compute. discriminate.
Defined.

(** C10: [handleNextButton], and the click listener that calls it, leave
    [score] and [questions] as they are, in every state; and over the
    events of a session, [score] grows only by an answer click, by one,
    and otherwise changes only when a fetch ends, to 0. *)
Theorem advance_frame :
  (forall s,
     score (snd (handleNextButton s)) = score s /\
     questions (snd (handleNextButton s)) = questions s /\
     score (nextButton_click s) = score s /\
     questions (nextButton_click s) = questions s) /\
  (forall s a s',
     step s a s' ->
     score s' <> score s ->
     (exists k, a = ClickAnswer k /\ score s' = (score s + 1)%Z) \/
     (exists t random, a = FetchEnds t random /\ score s' = 0%Z)).
Proof.
  split.
  - intros s. destruct (handleNextButton_frame s) as (_ & Hs & Hq & _).
    unfold nextButton_click.
    destruct (currentQuestionIndex s <? Z.of_nat (length (questions s)))%Z;
      simpl; auto.
  - intros s a s' Hstep Hne. destruct Hstep as [k button s Hk Hen|s|t random s Hf Hr].
    + left. exists k. split; [reflexivity|].
      unfold click_answer in *. rewrite Hk, Hen in *.
      assert (Ht : target_button s (target {| target := Child k |}) = Some button)
        by exact Hk.
      destruct (selectAnswer_run _ s Ht) as (_ & _ & _ & Hs & _).
      rewrite Hs in *. destruct (dataset_correct_is_true button);
        [reflexivity | contradiction].
    + exfalso. apply Hne. unfold nextButton_click.
      destruct (handleNextButton_frame s) as (_ & Hs & _).
      destruct (currentQuestionIndex s <? Z.of_nat (length (questions s)))%Z;
        simpl; auto.
    + right. exists t, random. split; [reflexivity|].
      revert Hne. unfold fetchQuestions_resume, fetchQuestions_try.
      destruct t as [|[|] [|[results|]]]; simpl; try congruence.
      run.
      match goal with |- context [array_get ?a ?i] => destruct (array_get a i) end;
        simpl; reflexivity.
Qed.

Lemma advance_frame_witness :
  step started (ClickAnswer 0) answered_q1 /\
  score answered_q1 <> score started /\
  ((exists k, ClickAnswer 0 = ClickAnswer k /\ score answered_q1 = (score started + 1)%Z) \/
   (exists t random, ClickAnswer 0 = FetchEnds t random /\ score answered_q1 = 0%Z)).
Proof.
  assert (Hstep : step started (ClickAnswer 0) answered_q1).
  { eapply (@step_click_answer 0); [reflexivity | reflexivity]. }
  assert (Hne : score answered_q1 <> score started) by (vm_compute; discriminate).
  exact (conj Hstep (conj Hne (proj2 advance_frame _ _ _ Hstep Hne))).
Defined.

(** The scenario of two questions: a correct answer, a second click on
    the same button, the advance, an incorrect answer, the advance to the
    end. *)
Lemma scenario_two_questions :
  let s1 := click_answer 0 started in
  let s2 := nextButton_click (click_answer 0 s1) in
  let s3 := click_answer 0 s2 in
  let s4 := nextButton_click s3 in
  (score s1 = 1%Z /\ answeredCurrent s1 = true) /\
  click_answer 0 s1 = s1 /\
  (currentQuestionIndex s2 = 1%Z /\ answeredCurrent s2 = false) /\
  score s3 = 1%Z /\
  (Finished s4 /\ score s4 = 1%Z /\
   questionElement s4 = lit "You scored 1 out of 2!").
Proof. unfold Finished. repeat split. Qed.

(** ** The invariant of a session *)

Lemma startQuiz_invariant (s0 : State) :
  session_invariant (snd (startQuiz s0)).
Proof.
  run. unfold session_invariant.
  destruct (questions s0) as [|q rest] eqn:E; simpl; rewrite E; simpl length.
  - repeat split; try lia. left. split; [lia | reflexivity].
  - repeat split; lia.
Qed.

Lemma handleNextButton_end (s : State) :
  ~ (currentQuestionIndex s + 1 < Z.of_nat (length (questions s)))%Z ->
  answerButtons (snd (handleNextButton s)) = [].
Proof.
  intros H. unfold handleNextButton, bind, modify; simpl.
  destruct (currentQuestionIndex s + 1 <? Z.of_nat (length (questions s)))%Z eqn:E.
  - apply Z.ltb_lt in E. contradiction.
  - reflexivity.
Qed.

Lemma step_invariant (s : State) (a : Action) (s' : State) :
  step s a s' -> session_invariant s -> session_invariant s'.
Proof.
  intros Hstep (Hs0 & Hi & Hcases).
  destruct Hstep as [k button s Hk Hen|s|t random s Hf Hr].
  - (* a click on an enabled answer button *)
    unfold click_answer. rewrite Hk, Hen.
    destruct (selectAnswer_run {| target := Child k |} s Hk)
      as (_ & Hi' & Hq' & Hs' & Ha').
    destruct Hcases as [[Hle Hend]|(_ & _ & Hlock)].
    + assert (Hlt : (currentQuestionIndex s < Z.of_nat (length (questions s)))%Z).
      { destruct (Z.eq_dec (currentQuestionIndex s) (Z.of_nat (length (questions s))))
          as [Heq|Hne]; [|lia].
        rewrite (Hend Heq) in Hk. destruct k; discriminate. }
      unfold session_invariant. rewrite Hi', Hq', Hs'.
      destruct (dataset_correct_is_true button);
        (split; [lia|]; split; [lia|]; right; repeat split; try lia; exact Ha').
    + unfold answeredCurrent in Hlock.
      apply andb_true_iff in Hlock as [_ Hall].
      rewrite (forallb_disabled_nth _ _ Hall Hk) in Hen. discriminate.
  - (* a click on the next button *)
    unfold nextButton_click.
    destruct (currentQuestionIndex s <? Z.of_nat (length (questions s)))%Z eqn:E.
    + apply Z.ltb_lt in E.
      destruct (handleNextButton_frame s) as (Hi' & Hs' & Hq' & _).
      pose proof (handleNextButton_end s) as Hend.
      unfold session_invariant. rewrite Hi', Hs', Hq'.
      split; [lia|]. split; [lia|]. left. split.
      * destruct Hcases as [[? _]|(_ & ? & _)]; lia.
      * intros Heq. apply Hend. lia.
    + unfold session_invariant, fetchQuestions_call; simpl. auto.
  - (* the end of a fetch *)
    unfold fetchQuestions_resume, fetchQuestions_try.
    destruct t as [|[|] [|[results|]]]; simpl;
      try (unfold session_invariant; simpl; auto; fail).
    unfold bind at 1, modify at 1.
    match goal with |- context [startQuiz ?s0] =>
      pose proof (startQuiz_invariant s0) as H;
      destruct (startQuiz s0) as [[|] s1] end; exact H.
Qed.

Lemma reachable_invariant (s : State) :
  reachable s -> session_invariant s.
Proof.
  induction 1 as [s0 s Hstart|s a s' _ IH Hstep].
  - pose proof (startQuiz_invariant s0) as H. rewrite Hstart in H. exact H.
  - eapply step_invariant; eassumption.
Qed.

Lemma answered_q1_reachable : reachable answered_q1.
Proof.
  apply reachable_step with (s := started) (a := ClickAnswer 0).
  - apply reachable_start with (s0 := set_questions [q1; q2] blank). reflexivity.
  - eapply (@step_click_answer 0); reflexivity.
Defined.

(** C2, as stated, fails: after the first question is answered correctly
    the session is in progress with [score] 1 and [currentQuestionIndex]
    0. *)
Lemma score_exceeds_index :
  reachable answered_q1 /\
  InProgress answered_q1 /\
  score answered_q1 = 1%Z /\ currentQuestionIndex answered_q1 = 0%Z /\
  ~ ((0 <= score answered_q1)%Z /\
     (score answered_q1 <= currentQuestionIndex answered_q1)%Z /\
     (currentQuestionIndex answered_q1 <= Z.of_nat (length (questions answered_q1)))%Z).
Proof.
  split; [|split; [|split; [|split]]].
  - exact answered_q1_reachable.
  - vm_compute; reflexivity.
  - reflexivity.
  - reflexivity.
  - vm_compute. intros (_ & H & _). apply H. reflexivity.
Qed.

(** C2 (amended): in every state a session reaches from a successful
    [startQuiz] by clicks on enabled answer buttons, clicks on the next
    button and ends of fetches, [0 <= score <= length questions],
    [0 <= currentQuestionIndex <= length questions] and
    [score <= currentQuestionIndex + 1]; and [score <= currentQuestionIndex]
    while the current question is not answered and when the session is
    finished. *)
Theorem session_bounds (s : State) :
  reachable s ->
  (0 <= score s <= Z.of_nat (length (questions s)))%Z /\
  (0 <= currentQuestionIndex s <= Z.of_nat (length (questions s)))%Z /\
  (score s <= currentQuestionIndex s + 1)%Z /\
  (answeredCurrent s = false -> (score s <= currentQuestionIndex s)%Z) /\
  (Finished s -> (score s <= currentQuestionIndex s)%Z).
Proof.
  intros Hr. destruct (reachable_invariant Hr) as (Hs0 & Hi & Hcases).
  unfold Finished.
  destruct Hcases as [[Hle _]|(Hlt & Hle & Hlock)].
  - repeat split; try lia.
  - repeat split; try lia. rewrite Hlock. discriminate.
Qed.

Lemma session_bounds_witness :
  reachable answered_q1 /\
  (0 <= score answered_q1 <= Z.of_nat (length (questions answered_q1)))%Z /\
  (score answered_q1 <= currentQuestionIndex answered_q1 + 1)%Z.
Proof.
  pose proof answered_q1_reachable as Hr.
  destruct (session_bounds Hr) as (Hs & _ & Hle & _).
  exact (conj Hr (conj Hs Hle)).
Defined.

(** ** Failures of a fetch *)

Lemma fetchQuestions_caught (t : Transport) random (s : State) :
  (forall results, t <> Response true (Data (Some results))) ->
  exists e, caught t random s e.
Proof.
  intros Ht. unfold caught, fetchQuestions_resume, fetchQuestions_try.
  destruct t as [|[|] [|[results|]]]; simpl;
    try (eexists; repeat split; reflexivity).
  exfalso. exact (Ht results eq_refl).
Qed.

(** C5, as stated, fails: a response that is not a success and a body
    that is not JSON end alike for the caller, the call completing
    normally with the same alert. *)
Lemma fetch_failures_look_alike :
  caller_view (Response false NotJSON) half blank
    = (Normal tt, ["Could not load questions. Please try again later."%string]) /\
  caller_view (Response true NotJSON) half blank
    = caller_view (Response false NotJSON) half blank /\
  caller_view (Response true (Data None)) half blank
    = caller_view (Response false NotJSON) half blank.
Proof. repeat split. Qed.

(** C5 (amended): [fetchQuestions] meets [Error("Failed to fetch
    questions.")] for a response that is not a success, a [SyntaxError]
    for a body that is not JSON and a [TypeError] for data without
    [results]; each time it stores no questions and leaves the session as
    it was, and the error is caught inside: the call completes normally,
    logs the error to the console and shows one and the same alert, so
    that the kinds differ in the console alone. *)
Theorem fetchQuestions_failures random (s : State) :
  (forall body,
     caught (Response false body) random s (Error "Failed to fetch questions.")) /\
  caught (Response true NotJSON) random s SyntaxError /\
  caught (Response true (Data None)) random s TypeError /\
  (forall body,
     caller_view (Response false body) random s
       = caller_view (Response true NotJSON) random s /\
     caller_view (Response false body) random s
       = caller_view (Response true (Data None)) random s).
Proof.
  unfold caught, caller_view, alerts, fetchQuestions_resume, fetchQuestions_try.
  repeat split; simpl; try reflexivity;
    rewrite !flat_map_app; reflexivity.
Qed.

(** C6: a response with an empty list of results ends in the [catch]
    block as the other failures do, yet by then [questions] has been
    replaced, [score] and [currentQuestionIndex] are 0 and the next button
    is hidden. *)
Theorem fetchQuestions_empty_results :
  let s := played_q1 in
  let r := fetchQuestions_resume (Response true (Data (Some []))) half s in
  (Finished s /\ questions s = [q1] /\ score s = 1%Z /\
   currentQuestionIndex s = 1%Z /\ fetching s = 1%nat /\
   nextButton_display s = "block"%string) /\
  fst r = Normal tt /\
  output (snd r)
    = output s ++ [ConsoleError TypeError;
                   Alert "Could not load questions. Please try again later."] /\
  questions (snd r) = [] /\
  score (snd r) = 0%Z /\
  currentQuestionIndex (snd r) = 0%Z /\
  nextButton_display (snd r) = "none"%string.
Proof. unfold Finished. repeat split. Qed.

(** * Further properties *)

(** ** The shuffle: draws and orders *)

Section ShuffleOrders.

Variable T : Type.

Lemma shuffle_loop_calls random (i : nat) :
  forall calls (array : list T),
    snd (shuffle_loop random calls i array) = (calls + i)%nat.
Proof.
  induction i as [|i IH]; intros calls array; simpl.
  - lia.
  - rewrite IH. lia.
Qed.

Lemma swap_length (array : list T) (i j : nat) :
  length (swap i j array) = length array.
Proof. symmetry. apply Permutation_length, swap_Permutation. Qed.

Lemma array_set_length (array : list T) (i : nat) (x : T) :
  length (array_set i x array) = length array.
Proof.
  revert i; induction array as [|y rest IH]; intros [|i]; simpl; auto.
Qed.

Lemma array_set_app (l suffix : list T) (i : nat) (x : T) :
  (i < length l)%nat ->
  array_set i x (l ++ suffix) = array_set i x l ++ suffix.
Proof.
  revert i; induction l as [|y rest IH]; intros [|i] Hi; simpl in *;
    try lia; [reflexivity|].
  rewrite IH by lia. reflexivity.
Qed.

Lemma swap_app (l suffix : list T) (i j : nat) :
  (i < length l)%nat -> (j < length l)%nat ->
  swap i j (l ++ suffix) = swap i j l ++ suffix.
Proof.
  intros Hi Hj. unfold swap.
  rewrite !nth_error_app1 by assumption.
  destruct (nth_error l i) as [ai|] eqn:Ei; [|reflexivity].
  destruct (nth_error l j) as [aj|] eqn:Ej; [|reflexivity].
  rewrite array_set_app by assumption.
  rewrite array_set_app by (rewrite array_set_length; assumption).
  reflexivity.
Qed.

(** The loop from [i] down leaves what lies behind index [i] alone. *)
Lemma shuffle_loop_app random (i : nat) :
  unit_interval random ->
  forall calls (l suffix : list T),
    (i < length l)%nat ->
    fst (shuffle_loop random calls i (l ++ suffix))
    = fst (shuffle_loop random calls i l) ++ suffix.
Proof.
  intros Hr. induction i as [|i IH]; intros calls l suffix Hi; simpl.
  - reflexivity.
  - pose proof (random_index_le calls (S i) Hr) as Hj.
    rewrite swap_app by lia.
    apply IH. rewrite swap_length. lia.
Qed.

Lemma shuffle_loop_ext random random' (i : nat) :
  forall calls (array : list T),
    (forall n, (calls <= n)%nat -> random n = random' n) ->
    shuffle_loop random calls i array = shuffle_loop random' calls i array.
Proof.
  induction i as [|i IH]; intros calls array Hext; simpl.
  - reflexivity.
  - unfold random_index. rewrite (Hext calls) by lia.
    apply IH. intros n Hn. apply Hext. lia.
Qed.

Lemma nth_error_at_length (l rest : list T) (y : T) :
  nth_error (l ++ y :: rest) (length l) = Some y.
Proof. induction l as [|z l IH]; simpl; [reflexivity | exact IH]. Qed.

Lemma array_set_at_length (l rest : list T) (x y : T) :
  array_set (length l) x (l ++ y :: rest) = l ++ x :: rest.
Proof.
  induction l as [|z l IH]; simpl; [reflexivity | rewrite IH; reflexivity].
Qed.

(** Any element of the first [i + 1] can be brought to index [i] by one
    swap with an index [j <= i]. *)
Lemma swap_brings_last (l : list T) (i : nat) (y : T) :
  length l = S i -> In y l ->
  exists j l', (j <= i)%nat /\ swap i j l = l' ++ [y].
Proof.
  intros Hlen Hin.
  destruct (exists_last (l := l)) as (front & x & ->).
  { intros ->; discriminate. }
  rewrite length_app in Hlen; simpl in Hlen.
  assert (Hi : i = length front) by lia. subst i.
  apply in_app_or in Hin as [Hin|[<-|[]]].
  - apply in_split in Hin as (p1 & p2 & ->).
    exists (length p1), (p1 ++ x :: p2). split.
    { rewrite length_app; simpl; lia. }
    unfold swap.
    rewrite nth_error_at_length.
    rewrite <- app_assoc; simpl. rewrite nth_error_at_length.
    rewrite app_comm_cons, app_assoc, array_set_at_length.
    rewrite <- app_assoc; simpl. rewrite array_set_at_length.
    rewrite <- app_assoc. reflexivity.
  - exists (length front), front. split; [lia|].
    unfold swap. rewrite nth_error_at_length.
    rewrite !array_set_at_length. reflexivity.
Qed.

End ShuffleOrders.

Lemma draw_for_unit (i j : nat) :
  (j <= i)%nat -> (0 <= draw_for i j)%Q /\ (draw_for i j < 1)%Q.
Proof.
  intros Hj. unfold draw_for, Qle, Qlt; simpl.
  rewrite Zpos_P_of_succ_nat. lia.
Qed.

Lemma random_index_draw_for random (c i j : nat) :
  random_index (with_draw c (draw_for i j) random) c i = j.
Proof.
  unfold random_index, with_draw, draw_for. rewrite Nat.eqb_refl.
  unfold Qfloor, Qmult, inject_Z; simpl Qnum; simpl Qden.
  rewrite Pos.mul_1_r, Zpos_P_of_succ_nat.
  replace (Z.succ (Z.of_nat i)) with (Z.of_nat i + 1)%Z by lia.
  rewrite Z.div_mul by lia. apply Nat2Z.id.
Qed.

Lemma with_draw_unit (c : nat) (r : Q) random :
  (0 <= r)%Q /\ (r < 1)%Q -> unit_interval random ->
  unit_interval (with_draw c r random).
Proof.
  intros Hr Hrandom n. unfold with_draw.
  destruct (Nat.eqb n c); [exact Hr | apply Hrandom].
Qed.

Lemma shuffle_loop_reaches (T : Type) (i : nat) :
  forall (l target : list T) (calls : nat),
    length l = S i -> Permutation l target ->
    exists random,
      unit_interval random /\
      fst (shuffle_loop random calls i l) = target.
Proof.
  induction i as [|i IH]; intros l target calls Hlen Hperm.
  - exists half. split; [exact half_unit_interval|]. simpl.
    destruct l as [|x [|? ?]]; try discriminate.
    symmetry. apply Permutation_length_1_inv, Hperm.
  - assert (Htlen : length target = S (S i))
      by (rewrite <- Hlen; symmetry; apply Permutation_length, Hperm).
    destruct (exists_last (l := target)) as (target' & y & ->).
    { intros ->; discriminate. }
    assert (Hin : In y l).
    { eapply Permutation_in; [symmetry; exact Hperm|].
      apply in_or_app; right; left; reflexivity. }
    destruct (@swap_brings_last T l (S i) y Hlen Hin) as (j & l' & Hj & Hswap).
    assert (Hlen' : length l' = S i).
    { pose proof (swap_length l (S i) j) as H. rewrite Hswap, length_app in H.
      simpl in H. lia. }
    assert (Hperm' : Permutation l' target').
    { apply Permutation_app_inv_r with (l := [y]). rewrite <- Hswap.
      eapply perm_trans; [symmetry; apply swap_Permutation | exact Hperm]. }
    destruct (IH l' target' (S calls) Hlen' Hperm') as (random' & Hunit & Hrun).
    exists (with_draw calls (draw_for (S i) j) random'). split.
    + apply with_draw_unit; [apply draw_for_unit, Hj | exact Hunit].
    + simpl. rewrite random_index_draw_for, Hswap.
      rewrite shuffle_loop_app.
      * rewrite (@shuffle_loop_ext T _ random').
        { rewrite Hrun. reflexivity. }
        intros n Hn. unfold with_draw.
        destruct (Nat.eqb n calls) eqn:E; [apply Nat.eqb_eq in E; lia | reflexivity].
      * apply with_draw_unit; [apply draw_for_unit, Hj | exact Hunit].
      * lia.
Qed.

(** X1: [shuffleArray] calls [Math.random] once for each element but the
    first: [length array - 1] times, none for an array of length 0 or
    1. *)
Theorem shuffleArray_draws (T : Type) random (calls : nat) (array : list T) :
  snd (shuffleArray random calls array) = (calls + (length array - 1))%nat.
Proof. apply shuffle_loop_calls. Qed.

(** X2: every order of the elements is an outcome of [shuffleArray]:
    for each permutation of the array there are draws in [0, 1) on which
    the call returns it. *)
Theorem shuffleArray_any_order (T : Type) (calls : nat) (array target : list T) :
  Permutation array target ->
  exists random,
    unit_interval random /\
    fst (shuffleArray random calls array) = target.
Proof.
  intros Hperm. unfold shuffleArray.
  destruct array as [|x rest].
  - apply Permutation_nil in Hperm. subst target.
    exists half. split; [exact half_unit_interval | reflexivity].
  - apply shuffle_loop_reaches; [simpl; lia | exact Hperm].
Qed.

Lemma shuffleArray_any_order_witness :
  Permutation [1; 2; 3]%nat [3; 1; 2]%nat /\
  exists random,
    unit_interval random /\
    fst (shuffleArray random 0 [1; 2; 3]%nat) = [3; 1; 2]%nat.
Proof.
  assert (H : Permutation [1; 2; 3]%nat [3; 1; 2]%nat).
  { apply perm_trans with [1; 3; 2]%nat;
      [apply perm_skip, perm_swap | apply perm_swap]. }
  exact (conj H (shuffleArray_any_order 0 H)).
Defined.

(** ** The question bank client: what it builds *)

Lemma makeQuestion_answers random calls (q : RawQuestion) :
  answers (fst (makeQuestion random calls q))
  = fst (shuffleArray random calls
           ({| text := decodeHTML (correct_answer q); correct := true |}
              :: map (fun ans => {| text := decodeHTML ans; correct := false |})
                     (incorrect_answers q))) /\
  question (fst (makeQuestion random calls q)) = decodeHTML (raw_question q).
Proof.
  unfold makeQuestion.
  match goal with |- context [shuffleArray random calls ?a] =>
    destruct (shuffleArray random calls a) end.
  split; reflexivity.
Qed.

Lemma nth_error_array_set (T : Type) (l : list T) (i : nat) (x : T) :
  (i < length l)%nat -> nth_error (array_set i x l) i = Some x.
Proof.
  revert i; induction l as [|y rest IH]; intros [|i] Hi; simpl in *;
    try lia; [reflexivity | apply IH; lia].
Qed.

Lemma swap_first_to (T : Type) (x : T) (rest : list T) (k : nat) :
  (k <= length rest)%nat ->
  nth_error (swap 0 k (x :: rest)) k = Some x.
Proof.
  intros Hk. destruct k as [|k]; [reflexivity|].
  unfold swap; simpl.
  destruct (nth_error rest k) as [a|] eqn:E;
    [|apply nth_error_None in E; lia].
  simpl. apply nth_error_array_set. lia.
Qed.

(** X3: the correct answer can come out at every position of the answer
    list: for each index up to the number of incorrect answers there are
    draws in [0, 1) on which [fetchQuestions] puts it there. *)
Theorem makeQuestion_correct_anywhere (calls : nat) (q : RawQuestion) (k : nat) :
  (k <= length (incorrect_answers q))%nat ->
  exists random,
    unit_interval random /\
    nth_error (answers (fst (makeQuestion random calls q))) k
    = Some {| text := decodeHTML (correct_answer q); correct := true |}.
Proof.
  intros Hk.
  set (first := {| text := decodeHTML (correct_answer q); correct := true |}).
  set (others := map (fun ans => {| text := decodeHTML ans; correct := false |})
                     (incorrect_answers q)).
  destruct (@shuffleArray_any_order Answer calls (first :: others)
              (swap 0 k (first :: others)) (swap_Permutation _ _ _))
    as (random & Hunit & Hrun).
  exists random. split; [exact Hunit|].
  rewrite (proj1 (makeQuestion_answers random calls q)).
  fold first others. rewrite Hrun.
  apply swap_first_to. unfold others. rewrite length_map. exact Hk.
Qed.

Lemma makeQuestion_correct_anywhere_witness :
  (2 <= length (incorrect_answers raw1))%nat /\
  exists random,
    unit_interval random /\
    nth_error (answers (fst (makeQuestion random 0 raw1))) 2
    = Some {| text := decodeHTML (correct_answer raw1); correct := true |}.
Proof.
  assert (H : (2 <= length (incorrect_answers raw1))%nat) by (simpl; lia).
  exact (conj H (makeQuestion_correct_anywhere 0 raw1 H)).
Defined.

(** X4: the questions [fetchQuestions] stores follow the records of the
    response one for one and in their order: each has the decoded text of
    its record and, in some order, the decoded correct answer marked
    correct and the decoded incorrect answers marked incorrect. *)
Theorem fetchQuestions_questions_of_records
        random (results : list RawQuestion) (s : State) :
  unit_interval random ->
  Forall2
    (fun q record =>
       question q = decodeHTML (raw_question record) /\
       Permutation
         ({| text := decodeHTML (correct_answer record); correct := true |}
            :: map (fun ans => {| text := decodeHTML ans; correct := false |})
                   (incorrect_answers record))
         (answers q))
    (questions
       (snd (fetchQuestions_resume (Response true (Data (Some results))) random s)))
    results.
Proof.
  intros _. rewrite fetchQuestions_resume_questions.
  generalize 0%nat as calls.
  induction results as [|record rest IH]; intros calls; simpl.
  - constructor.
  - pose proof (makeQuestion_answers random calls record) as [Ha Hq].
    destruct (makeQuestion random calls record) as [q calls'].
    specialize (IH calls').
    destruct (makeQuestions random calls' rest) as [rest' calls''].
    simpl in *. constructor; [|exact IH].
    split; [exact Hq|]. rewrite Ha. apply shuffleArray_Permutation.
Qed.

Lemma fetchQuestions_questions_of_records_witness :
  unit_interval half /\
  Forall2
    (fun q record =>
       question q = decodeHTML (raw_question record) /\
       Permutation
         ({| text := decodeHTML (correct_answer record); correct := true |}
            :: map (fun ans => {| text := decodeHTML ans; correct := false |})
                   (incorrect_answers record))
         (answers q))
    (questions
       (snd (fetchQuestions_resume (Response true (Data (Some [raw1]))) half blank)))
    [raw1].
Proof.
  exact (conj half_unit_interval
              (fetchQuestions_questions_of_records [raw1] blank half_unit_interval)).
Defined.

(** ** The page during a session *)

Lemma array_get_some (T : Type) (l : list T) (i : Z) :
  (0 <= i < Z.of_nat (length l))%Z -> exists x, array_get l i = Some x.
Proof.
  intros Hi. unfold array_get.
  destruct (i <? 0)%Z eqn:E; [apply Z.ltb_lt in E; lia|].
  destruct (nth_error l (Z.to_nat i)) as [x|] eqn:En; [eauto|].
  apply nth_error_None in En. lia.
Qed.

Lemma array_get_none (T : Type) (l : list T) (i : Z) :
  (Z.of_nat (length l) <= i)%Z -> array_get l i = None.
Proof.
  intros Hi. unfold array_get.
  destruct (i <? 0)%Z; [reflexivity|].
  apply nth_error_None. lia.
Qed.

Lemma array_get_in_range (T : Type) (l : list T) (i : Z) (x : T) :
  array_get l i = Some x -> (0 <= i < Z.of_nat (length l))%Z.
Proof.
  unfold array_get. destruct (i <? 0)%Z eqn:E; [discriminate|].
  apply Z.ltb_ge in E. intros H.
  assert (Hn : nth_error l (Z.to_nat i) <> None) by congruence.
  apply nth_error_Some in Hn. lia.
Qed.

Lemma showQuestion_some (s : State) (q : Question) :
  array_get (questions s) (currentQuestionIndex s) = Some q ->
  showQuestion s
  = (Normal tt,
     set_answerButtons (map createAnswerButton (answers q))
       (set_questionElement
          (number_to_string (currentQuestionIndex s + 1) ++ lit ". " ++ question q)
          (resetState s))).
Proof. intros H. run. rewrite H. reflexivity. Qed.

Lemma showQuestion_none (s : State) :
  array_get (questions s) (currentQuestionIndex s) = None ->
  showQuestion s = (Throw TypeError, resetState s).
Proof. intros H. run. rewrite H. reflexivity. Qed.

Lemma shows_created (q : Question) :
  shows q (map createAnswerButton (answers q)).
Proof.
  unfold shows. rewrite !map_map. split; apply map_ext; intros a;
    [reflexivity|].
  unfold dataset_correct_is_true; simpl. destruct (correct a); reflexivity.
Qed.

Lemma selectAnswer_child (k : nat) (s : State) (b : Button) :
  nth_error (answerButtons s) k = Some b ->
  let s' := snd (selectAnswer {| target := Child k |} s) in
  answerButtons s'
  = map (fun button =>
           set_disabled true
             (if dataset_correct_is_true button
              then classList_add "correct" button else button))
        (update_nth k
           (classList_add (if dataset_correct_is_true b
                           then "correct" else "incorrect")%string)
           (answerButtons s)) /\
  questionElement s' = questionElement s /\
  nextButton_innerHTML s' = nextButton_innerHTML s /\
  nextButton_display s' = "block"%string /\
  output s' = output s /\
  fetching s' = fetching s.
Proof.
  intros H. unfold selectAnswer; simpl. rewrite H.
  destruct (dataset_correct_is_true b); simpl; repeat split; reflexivity.
Qed.

Lemma map_update_nth (A B : Type) (g : A -> B) (f : A -> A) (l : list A) (k : nat) :
  (forall x, g (f x) = g x) -> map g (update_nth k f l) = map g l.
Proof.
  intros Hg. revert k; induction l as [|x rest IH]; intros [|k]; simpl;
    try reflexivity; [rewrite Hg | rewrite IH]; reflexivity.
Qed.

Lemma selectAnswer_shows (k : nat) (s : State) (b : Button) (q : Question) :
  nth_error (answerButtons s) k = Some b ->
  shows q (answerButtons s) ->
  shows q (answerButtons (snd (selectAnswer {| target := Child k |} s))).
Proof.
  intros Hk [Htext Hmark].
  destruct (selectAnswer_child k s Hk) as (Hb & _). rewrite Hb.
  unfold shows. rewrite !map_map. split.
  - rewrite <- Htext.
    rewrite <- (@map_update_nth _ _ innerHTML
                  (classList_add (if dataset_correct_is_true b
                                  then "correct" else "incorrect")%string)
                  (answerButtons s) k) by reflexivity.
    apply map_ext. intros button.
    destruct (dataset_correct_is_true button); reflexivity.
  - rewrite <- Hmark.
    rewrite <- (@map_update_nth _ _ dataset_correct_is_true
                  (classList_add (if dataset_correct_is_true b
                                  then "correct" else "incorrect")%string)
                  (answerButtons s) k) by reflexivity.
    apply map_ext. intros button.
    destruct (dataset_correct_is_true button) eqn:E;
      unfold dataset_correct_is_true in *; simpl; rewrite ?E; reflexivity.
Qed.

Lemma startQuiz_page (s0 : State) : page_consistent (snd (startQuiz s0)).
Proof.
  run. unfold page_consistent.
  destruct (questions s0) as [|q rest] eqn:E; simpl; rewrite E; simpl.
  - split; [reflexivity | intros H; congruence].
  - split; [apply shows_created | split; reflexivity].
Qed.

Lemma step_page (s : State) (a : Action) (s' : State) :
  step s a s' -> session_invariant s -> page_consistent s -> page_consistent s'.
Proof.
  intros Hstep (_ & Hi & _) Hpage.
  destruct Hstep as [k button s Hk Hen|s|t random s Hf Hr].
  - unfold click_answer. rewrite Hk, Hen.
    destruct (selectAnswer_run {| target := Child k |} s Hk)
      as (_ & Hi' & Hq' & _ & _).
    destruct (selectAnswer_child k s Hk) as (_ & Hqe & Hlabel & _).
    unfold page_consistent in *. rewrite Hi', Hq'.
    destruct (array_get (questions s) (currentQuestionIndex s)) as [q|].
    + destruct Hpage as (Hshows & Htext & Hnext).
      split; [apply (selectAnswer_shows k s Hk Hshows)|].
      split; congruence.
    + destruct Hpage as [Hnil _]. rewrite Hnil in Hk.
      destruct k; discriminate.
  - unfold nextButton_click.
    destruct (currentQuestionIndex s <? Z.of_nat (length (questions s)))%Z eqn:E.
    + apply Z.ltb_lt in E.
      destruct (array_get_some (questions s) (i := currentQuestionIndex s))
        as [q0 Hq0]; [lia|].
      unfold page_consistent in Hpage. rewrite Hq0 in Hpage.
      destruct Hpage as (_ & _ & Hnext).
      unfold handleNextButton, bind, modify; simpl.
      destruct (currentQuestionIndex s + 1 <? Z.of_nat (length (questions s)))%Z eqn:E'.
      * apply Z.ltb_lt in E'.
        destruct (array_get_some (questions s) (i := (currentQuestionIndex s + 1)%Z))
          as [q Hq]; [lia|].
        rewrite (@showQuestion_some
                   (set_currentQuestionIndex (currentQuestionIndex s + 1) s) q Hq).
        unfold page_consistent; simpl. rewrite Hq.
        split; [apply shows_created | split; [reflexivity | exact Hnext]].
      * apply Z.ltb_ge in E'. simpl.
        unfold page_consistent; simpl.
        rewrite array_get_none by lia.
        split; [reflexivity|]. intros _. repeat split.
    + unfold page_consistent, fetchQuestions_call in *; simpl. exact Hpage.
  - unfold fetchQuestions_resume, fetchQuestions_try.
    destruct t as [|[|] [|[results|]]]; simpl; try exact Hpage.
    unfold bind at 1, modify at 1.
    match goal with |- context [startQuiz ?s0] =>
      pose proof (startQuiz_page s0) as H;
      destruct (startQuiz s0) as [[|] s1] end; exact H.
Qed.

Lemma reachable_page (s : State) : reachable s -> page_consistent s.
Proof.
  induction 1 as [s0 s Hstart|s a s' Hr IH Hstep].
  - pose proof (startQuiz_page s0) as H. rewrite Hstart in H. exact H.
  - eapply step_page; eauto using reachable_invariant.
Qed.

(** X5: all through a session the buttons agree with the variables.  In
    progress, there is one answer button for each answer of the question
    at [currentQuestionIndex], marked correct in [dataset] exactly where
    the answer is, in the order of the answers, and the next button reads
    "Next"; once finished no answer button is left and, if there were
    questions, the question element shows the score of the session out of
    their number, and the next button, visible, reads "Play Again".  (The
    texts of the question and of the answers are left out: the page
    parses them as markup.) *)
Theorem session_page (s : State) :
  reachable s ->
  (InProgress s ->
   exists q,
     array_get (questions s) (currentQuestionIndex s) = Some q /\
     length (answerButtons s) = length (answers q) /\
     map dataset_correct_is_true (answerButtons s) = map correct (answers q) /\
     nextButton_innerHTML s = lit "Next") /\
  (Finished s ->
   answerButtons s = [] /\
   (questions s <> [] ->
    questionElement s = score_message s /\
    nextButton_innerHTML s = lit "Play Again" /\
    nextButton_display s = "block"%string)).
Proof.
  intros Hr. pose proof (reachable_page Hr) as Hpage.
  destruct (reachable_invariant Hr) as (_ & Hi & _).
  unfold InProgress, Finished, page_consistent in *. split.
  - intros Hp.
    destruct (array_get_some (questions s) (i := currentQuestionIndex s))
      as [q Hq]; [lia|].
    rewrite Hq in Hpage. destruct Hpage as ([_ Hmark] & _ & Hnext).
    exists q. split; [exact Hq|]. split; [|split; assumption].
    rewrite <- (length_map dataset_correct_is_true), Hmark. apply length_map.
  - intros Hf. rewrite array_get_none in Hpage by lia. exact Hpage.
Qed.

Lemma session_page_witness :
  reachable answered_q1 /\
  exists q,
    array_get (questions answered_q1) (currentQuestionIndex answered_q1) = Some q /\
    map dataset_correct_is_true (answerButtons answered_q1) = map correct (answers q).
Proof.
  assert (Hp : InProgress answered_q1) by (vm_compute; reflexivity).
  destruct (proj1 (session_page answered_q1_reachable) Hp) as (q & Hq & _ & Hs & _).
  exact (conj answered_q1_reachable (ex_intro _ q (conj Hq Hs))).
Defined.

Lemma startQuiz_lock (s0 : State) : lock_consistent (snd (startQuiz s0)).
Proof.
  unfold startQuiz, bind, modify; simpl.
  match goal with |- context [showQuestion ?s1] =>
    destruct (showQuestion_frame s1) as (_ & _ & _ & _ & Hd & He) end.
  left. split; assumption.
Qed.

Lemma handleNextButton_lock (s : State) :
  lock_consistent (snd (handleNextButton s)) /\
  (InProgress (snd (handleNextButton s)) ->
   nextButton_display (snd (handleNextButton s)) = "none"%string).
Proof.
  destruct (handleNextButton_frame s) as (Hi & _ & Hq & _).
  unfold InProgress. rewrite Hi, Hq.
  unfold handleNextButton, bind, modify; simpl.
  destruct (currentQuestionIndex s + 1 <? Z.of_nat (length (questions s)))%Z eqn:E.
  - match goal with |- context [showQuestion ?s1] =>
      destruct (showQuestion_frame s1) as (_ & _ & _ & _ & Hd & He) end.
    split; [left; split; assumption | intros _; exact Hd].
  - apply Z.ltb_ge in E. simpl. split; [|lia].
    right. split; [reflexivity | constructor].
Qed.

Lemma step_lock (s : State) (a : Action) (s' : State) :
  step s a s' -> lock_consistent s -> lock_consistent s'.
Proof.
  intros Hstep Hlock.
  destruct Hstep as [k button s Hk Hen|s|t random s Hf Hr].
  - unfold click_answer. rewrite Hk, Hen.
    destruct (selectAnswer_child k s Hk) as (Hb & _ & _ & Hd & _).
    right. split; [exact Hd|]. rewrite Hb.
    apply Forall_forall. intros b' Hin.
    apply in_map_iff in Hin as (b0 & <- & _). reflexivity.
  - unfold nextButton_click.
    destruct (currentQuestionIndex s <? Z.of_nat (length (questions s)))%Z.
    + apply handleNextButton_lock.
    + exact Hlock.
  - unfold fetchQuestions_resume, fetchQuestions_try.
    destruct t as [|[|] [|[results|]]]; simpl; try exact Hlock.
    unfold bind at 1, modify at 1.
    match goal with |- context [startQuiz ?s0] =>
      pose proof (startQuiz_lock s0) as H;
      destruct (startQuiz s0) as [[|] s1] end; exact H.
Qed.

Lemma reachable_lock (s : State) : reachable s -> lock_consistent s.
Proof.
  induction 1 as [s0 s Hstart|s a s' Hr IH Hstep].
  - pose proof (startQuiz_lock s0) as H. rewrite Hstart in H. exact H.
  - eapply step_lock; eassumption.
Qed.

Lemma Forall_forallb_disabled (buttons : list Button) :
  Forall (fun button => disabled button = true) buttons ->
  forallb disabled buttons = true.
Proof. intros H. apply forallb_forall. apply Forall_forall. exact H. Qed.

(** X6: all through a session the next button and the answer buttons go
    together: either the next button is hidden, every answer button is
    enabled and the current question counts as not answered, or the next
    button is shown, every answer button is disabled and the question
    counts as answered. *)
Theorem session_lock (s : State) :
  reachable s ->
  (nextButton_display s = "none"%string /\
   Forall (fun button => disabled button = false) (answerButtons s) /\
   answeredCurrent s = false) \/
  (nextButton_display s = "block"%string /\
   Forall (fun button => disabled button = true) (answerButtons s) /\
   answeredCurrent s = true).
Proof.
  intros Hr. destruct (reachable_lock Hr) as [[Hd He]|[Hd Hl]].
  - left. repeat split; try assumption.
    unfold answeredCurrent. rewrite Hd. reflexivity.
  - right. repeat split; try assumption.
    unfold answeredCurrent. rewrite Hd, (Forall_forallb_disabled Hl). reflexivity.
Qed.

Lemma session_lock_witness :
  reachable answered_q1 /\
  ((nextButton_display answered_q1 = "none"%string /\
    Forall (fun button => disabled button = false) (answerButtons answered_q1) /\
    answeredCurrent answered_q1 = false) \/
   (nextButton_display answered_q1 = "block"%string /\
    Forall (fun button => disabled button = true) (answerButtons answered_q1) /\
    answeredCurrent answered_q1 = true)).
Proof.
  exact (conj answered_q1_reachable (session_lock answered_q1_reachable)).
Defined.

(** ** A whole game *)

Lemma startQuiz_normal (s : State) :
  questions s <> [] ->
  startQuiz s = (Normal tt, snd (startQuiz s)) /\
  currentQuestionIndex (snd (startQuiz s)) = 0%Z /\
  score (snd (startQuiz s)) = 0%Z /\
  questions (snd (startQuiz s)) = questions s /\
  nextButton_display (snd (startQuiz s)) = "none"%string.
Proof.
  intros Hne. run.
  destruct (questions s) as [|q rest] eqn:E; [congruence|]. simpl.
  rewrite E. repeat split.
Qed.

Lemma skipn_nth_error (T : Type) (l : list T) (n : nat) (x : T) :
  nth_error l n = Some x -> skipn n l = x :: skipn (S n) l.
Proof.
  revert n; induction l as [|y rest IH]; intros [|n] H; simpl in *;
    try discriminate.
  - congruence.
  - apply IH, H.
Qed.

(** One round: a click on answer [k] of the current question, not yet
    answered, then the click on the next button. *)
Lemma play_round (k : nat) (s : State) (q : Question) :
  reachable s ->
  array_get (questions s) (currentQuestionIndex s) = Some q ->
  nextButton_display s = "none"%string ->
  let s' := nextButton_click (click_answer k s) in
  reachable s' /\
  currentQuestionIndex s' = (currentQuestionIndex s + 1)%Z /\
  questions s' = questions s /\
  score s' = (score s + (if correct_pick q k then 1 else 0))%Z /\
  (InProgress s' -> nextButton_display s' = "none"%string).
Proof.
  intros Hr Hq Hd.
  pose proof (array_get_in_range _ _ Hq) as Hrange.
  pose proof (reachable_page Hr) as Hpage.
  unfold page_consistent in Hpage. rewrite Hq in Hpage.
  destruct Hpage as ([_ Hmark] & _).
  assert (Hclick :
            reachable (click_answer k s) /\
            currentQuestionIndex (click_answer k s) = currentQuestionIndex s /\
            questions (click_answer k s) = questions s /\
            score (click_answer k s)
            = (score s + (if correct_pick q k then 1 else 0))%Z).
  { pose proof (f_equal (fun l => nth_error l k) Hmark) as Hk.
    simpl in Hk. rewrite !nth_error_map in Hk. unfold correct_pick.
    destruct (nth_error (answerButtons s) k) as [b|] eqn:Eb.
    - destruct (nth_error (answers q) k) as [a|]; [|discriminate].
      injection Hk as Hk.
      assert (Hen : disabled b = false).
      { destruct (reachable_lock Hr) as [[_ He]|[Hd' _]]; [|congruence].
        rewrite Forall_forall in He. apply He.
        eapply nth_error_In; exact Eb. }
      split.
      { eapply reachable_step; [exact Hr|]. eapply step_click_answer; eassumption. }
      unfold click_answer. rewrite Eb, Hen.
      destruct (selectAnswer_run {| target := Child k |} s Eb)
        as (_ & Hi & Hqs & Hs & _).
      rewrite Hi, Hqs, Hs, Hk. destruct (correct a); repeat split; lia.
    - destruct (nth_error (answers q) k); [discriminate|].
      unfold click_answer. rewrite Eb. repeat split; [exact Hr | lia]. }
  destruct Hclick as (Hr1 & Hi1 & Hq1 & Hs1).
  set (s1 := click_answer k s) in *.
  assert (Hnext : nextButton_click s1 = snd (handleNextButton s1)).
  { unfold nextButton_click. rewrite Hi1, Hq1.
    replace (currentQuestionIndex s <? Z.of_nat (length (questions s)))%Z
      with true by (symmetry; apply Z.ltb_lt; lia).
    reflexivity. }
  destruct (handleNextButton_frame s1) as (Hi2 & Hs2 & Hq2 & _).
  split.
  { eapply reachable_step; [exact Hr1 | apply step_click_next]. }
  rewrite Hnext, Hi2, Hs2, Hq2, Hi1, Hq1, Hs1.
  repeat split. apply handleNextButton_lock.
Qed.

Lemma play_score (picks : list nat) :
  forall s,
    reachable s ->
    (InProgress s -> nextButton_display s = "none"%string) ->
    (Z.of_nat (length picks)
     = Z.of_nat (length (questions s)) - currentQuestionIndex s)%Z ->
    reachable (play picks s) /\
    Finished (play picks s) /\
    questions (play picks s) = questions s /\
    score (play picks s)
    = (score s
       + tally (skipn (Z.to_nat (currentQuestionIndex s)) (questions s)) picks)%Z.
Proof.
  induction picks as [|k rest IH]; intros s Hr Hd Hlen; simpl in *.
  - unfold Finished. repeat split; try assumption; try lia.
    destruct (skipn (Z.to_nat (currentQuestionIndex s)) (questions s));
      simpl; lia.
  - destruct (reachable_invariant Hr) as (_ & Hi & _).
    assert (Hp : InProgress s) by (unfold InProgress; lia).
    destruct (array_get_some (questions s) (i := currentQuestionIndex s))
      as [q Hq]; [unfold InProgress in Hp; lia|].
    destruct (play_round k Hr Hq (Hd Hp)) as (Hr' & Hi' & Hq' & Hs' & Hd').
    destruct (IH _ Hr' Hd') as (Hr'' & Hf & Hq'' & Hs'').
    { rewrite Hi', Hq'. lia. }
    split; [exact Hr''|]. split; [exact Hf|]. split; [congruence|].
    rewrite Hs'', Hs', Hi', Hq'.
    assert (Hnth : nth_error (questions s) (Z.to_nat (currentQuestionIndex s)) = Some q).
    { unfold array_get in Hq.
      destruct (currentQuestionIndex s <? 0)%Z; [discriminate | exact Hq]. }
    rewrite (skipn_nth_error _ _ Hnth).
    replace (Z.to_nat (currentQuestionIndex s + 1))
      with (S (Z.to_nat (currentQuestionIndex s))) by lia.
    simpl. lia.
Qed.

(** X7: a game played to the end counts the correct picks.  After
    [startQuiz] on questions that are not empty, a player who clicks one
    answer button for each question and then the next button (an index
    past the buttons clicks no answer, and the next button is clicked all
    the same) ends with the session finished,
    [score] the number of questions whose picked answer is the correct
    one, that score shown out of the number of questions, and the next
    button reading "Play Again". *)
Theorem game_score (s0 : State) (qs : list Question) (picks : list nat) :
  qs <> [] ->
  length picks = length qs ->
  let s := play picks (snd (startQuiz (set_questions qs s0))) in
  Finished s /\
  questions s = qs /\
  score s = tally qs picks /\
  questionElement s = score_message s /\
  nextButton_innerHTML s = lit "Play Again".
Proof.
  intros Hne Hlen s.
  destruct (@startQuiz_normal (set_questions qs s0) Hne)
    as (Hrun & Hi & Hs & Hq & Hd).
  set (st := snd (startQuiz (set_questions qs s0))) in *.
  assert (Hr : reachable st) by (eapply reachable_start; exact Hrun).
  destruct (@play_score picks st Hr (fun _ => Hd)) as (Hr' & Hf & Hq' & Hs').
  { rewrite Hq, Hi. simpl. lia. }
  fold s in Hr', Hf, Hq', Hs'.
  rewrite Hq, Hi, Hs in *. simpl in Hq', Hs'.
  split; [exact Hf|]. split; [exact Hq'|]. split; [exact Hs'|].
  pose proof (reachable_page Hr') as Hpage.
  unfold page_consistent, Finished in *.
  rewrite array_get_none in Hpage by lia.
  destruct Hpage as [_ Hend].
  destruct Hend as (Hm & Hl & _); [rewrite Hq'; exact Hne|].
  split; assumption.
Qed.

Lemma game_score_witness :
  [q1; q2] <> [] /\
  length [0; 0]%nat = length [q1; q2] /\
  score (play [0; 0]%nat (snd (startQuiz (set_questions [q1; q2] blank)))) = 1%Z /\
  questionElement (play [0; 0]%nat (snd (startQuiz (set_questions [q1; q2] blank))))
  = lit "You scored 1 out of 2!".
Proof.
  assert (Hne : [q1; q2] <> []) by discriminate.
  assert (Hlen : length [0; 0]%nat = length [q1; q2]) by reflexivity.
  destruct (@game_score blank [q1; q2] [0; 0]%nat Hne Hlen) as (_ & _ & Hs & Hm & _).
  refine (conj Hne (conj Hlen (conj Hs _))).
  rewrite Hm. reflexivity.
Defined.

(** ** A response that arrives *)

Lemma filter_created (l : list Answer) :
  length (filter dataset_correct_is_true (map createAnswerButton l))
  = length (filter correct l).
Proof.
  induction l as [|a l IH]; simpl; [reflexivity|].
  unfold dataset_correct_is_true at 1; simpl.
  destruct (correct a); simpl; rewrite IH; reflexivity.
Qed.

(** X8: a response with at least one record starts a new quiz in
    whatever state it finds the page, a session in progress included:
    the call completes without console error or alert, [score] and
    [currentQuestionIndex] are 0, the session is in progress and not
    answered under the label "Next", and the page carries one enabled
    button for each answer of the first record, exactly one of them marked
    correct. *)
Theorem fetchQuestions_restarts
        random (record : RawQuestion) (rest : list RawQuestion) (s : State) :
  unit_interval random ->
  let r := fetchQuestions_resume
             (Response true (Data (Some (record :: rest)))) random s in
  fst r = Normal tt /\
  output (snd r) = output s /\
  fetching (snd r) = pred (fetching s) /\
  score (snd r) = 0%Z /\
  currentQuestionIndex (snd r) = 0%Z /\
  InProgress (snd r) /\
  answeredCurrent (snd r) = false /\
  nextButton_innerHTML (snd r) = lit "Next" /\
  length (answerButtons (snd r)) = S (length (incorrect_answers record)) /\
  Forall (fun button => disabled button = false) (answerButtons (snd r)) /\
  length (filter dataset_correct_is_true (answerButtons (snd r))) = 1%nat.
Proof.
  intros _ r. subst r.
  unfold fetchQuestions_resume, fetchQuestions_try; simpl.
  pose proof (makeQuestion_correct_count random 0 record) as Hone.
  pose proof (makeQuestion_answers random 0 record) as [Hans _].
  destruct (makeQuestion random 0 record) as [q calls'].
  destruct (makeQuestions random calls' rest) as [rest' calls''].
  simpl in Hone, Hans. run.
  unfold InProgress, answeredCurrent; simpl.
  repeat split; try reflexivity; try lia.
  - rewrite length_map, Hans.
    rewrite <- (Permutation_length (shuffleArray_Permutation random 0 _)).
    simpl. rewrite length_map. reflexivity.
  - apply forallb_enabled_created.
  - rewrite filter_created. exact Hone.
Qed.

Lemma fetchQuestions_restarts_witness :
  unit_interval half /\
  score (snd (fetchQuestions_resume
                (Response true (Data (Some [raw1]))) half answered_q1)) = 0%Z /\
  length (answerButtons
            (snd (fetchQuestions_resume
                    (Response true (Data (Some [raw1]))) half answered_q1)))
  = 4%nat.
Proof.
  destruct (@fetchQuestions_restarts half raw1 [] answered_q1 half_unit_interval)
    as (_ & _ & _ & Hs & _ & _ & _ & _ & Hl & _).
  exact (conj half_unit_interval (conj Hs Hl)).
Defined.

(** ** What a click on an answer shows *)

Lemma classList_add_In (token t : string) (button : Button) :
  In t (classList (classList_add token button))
  <-> t = token \/ In t (classList button).
Proof.
  unfold classList_add; simpl.
  destruct (existsb (String.eqb token) (classList button)) eqn:E.
  - split; [auto|]. intros [->|H]; [|exact H].
    apply existsb_exists in E as (t' & Hin & Heq).
    apply String.eqb_eq in Heq. subst t'. exact Hin.
  - rewrite in_app_iff. simpl. split.
    + intros [H|[H|[]]]; auto.
    + intros [H|H]; auto.
Qed.

Lemma nth_error_update_nth (T : Type) (f : T -> T) (l : list T) (k m : nat) :
  nth_error (update_nth k f l) m
  = if Nat.eqb m k then option_map f (nth_error l m) else nth_error l m.
Proof.
  revert k m; induction l as [|x rest IH]; intros [|k] [|m]; simpl;
    try reflexivity.
  - destruct (Nat.eqb m k); reflexivity.
  - apply IH.
Qed.

(** X9: a click on answer button [k] reveals the answer and locks the
    question.  Afterwards there are as many buttons as before, with their
    texts and marks, and all disabled; every button marked correct has the
    class "correct"; the clicked button has "correct" when it is marked
    correct and "incorrect" when it is not; and no other button gains the
    class "incorrect". *)
Theorem selectAnswer_reveals (k : nat) (s : State) (b : Button) :
  nth_error (answerButtons s) k = Some b ->
  let buttons' := answerButtons (snd (selectAnswer {| target := Child k |} s)) in
  length buttons' = length (answerButtons s) /\
  map innerHTML buttons' = map innerHTML (answerButtons s) /\
  map dataset_correct buttons' = map dataset_correct (answerButtons s) /\
  Forall (fun b' => disabled b' = true /\
                    (dataset_correct_is_true b' = true ->
                     In "correct"%string (classList b'))) buttons' /\
  (exists b',
     nth_error buttons' k = Some b' /\
     In (if dataset_correct_is_true b then "correct" else "incorrect")%string
        (classList b')) /\
  (forall m bm bm',
     m <> k ->
     nth_error (answerButtons s) m = Some bm ->
     nth_error buttons' m = Some bm' ->
     In "incorrect"%string (classList bm') ->
     In "incorrect"%string (classList bm)).
Proof.
  intros Hk buttons'. subst buttons'.
  destruct (selectAnswer_child k s Hk) as (Hb & _). rewrite Hb. clear Hb.
  set (token := (if dataset_correct_is_true b then "correct" else "incorrect")%string).
  set (lock := fun button =>
                 set_disabled true
                   (if dataset_correct_is_true button
                    then classList_add "correct" button else button)).
  assert (Hlen : forall l, length (update_nth k (classList_add token) l) = length l).
  { intros l. rewrite <- (length_map innerHTML), map_update_nth by reflexivity.
    apply length_map. }
  split; [rewrite length_map; apply Hlen|].
  split.
  { rewrite map_map.
    rewrite <- (@map_update_nth _ _ innerHTML (classList_add token)
                  (answerButtons s) k) by reflexivity.
    apply map_ext. intros button. unfold lock.
    destruct (dataset_correct_is_true button); reflexivity. }
  split.
  { rewrite map_map.
    rewrite <- (@map_update_nth _ _ dataset_correct (classList_add token)
                  (answerButtons s) k) by reflexivity.
    apply map_ext. intros button. unfold lock.
    destruct (dataset_correct_is_true button); reflexivity. }
  split.
  { apply Forall_forall. intros b' Hin.
    apply in_map_iff in Hin as (b0 & <- & _). split; [reflexivity|].
    unfold lock.
    destruct (dataset_correct_is_true b0) eqn:E.
    - intros _. cbn [classList set_disabled].
      apply classList_add_In. left; reflexivity.
    - unfold dataset_correct_is_true in *; simpl. rewrite E. discriminate. }
  split.
  { exists (lock (classList_add token b)). split.
    - rewrite nth_error_map, nth_error_update_nth, Nat.eqb_refl, Hk. reflexivity.
    - unfold lock.
      destruct (dataset_correct_is_true (classList_add token b));
        cbn [classList set_disabled];
        repeat (apply classList_add_In; try (left; reflexivity); right). }
  intros m bm bm' Hm Hbm Hbm'.
  rewrite nth_error_map, nth_error_update_nth in Hbm'.
  apply Nat.eqb_neq in Hm. rewrite Hm, Hbm in Hbm'. simpl in Hbm'.
  injection Hbm' as <-. unfold lock.
  destruct (dataset_correct_is_true bm); cbn [classList set_disabled]; [|auto].
  intros H. apply classList_add_In in H as [H|H]; [discriminate | exact H].
Qed.

Lemma selectAnswer_reveals_witness :
  nth_error (answerButtons started) 1 = Some (createAnswerButton {| text := lit "5"; correct := false |}) /\
  exists b',
    nth_error (answerButtons (snd (selectAnswer {| target := Child 1 |} started))) 1
    = Some b' /\
    In "incorrect"%string (classList b').
Proof.
  assert (H : nth_error (answerButtons started) 1
              = Some (createAnswerButton {| text := lit "5"; correct := false |}))
    by reflexivity.
  destruct (selectAnswer_reveals 1 started H) as (_ & _ & _ & _ & Hb & _).
  exact (conj H Hb).
Defined.

(** ** Where the handlers can throw *)

(** X10: [showQuestion] completes exactly when [currentQuestionIndex]
    lies inside [questions]; otherwise it throws a [TypeError] after
    [resetState] and before any other change.  [handleNextButton], which
    compares the index first, completes from every index not below -1,
    and so does every click on the next button in a session. *)
Theorem showQuestion_completes (s : State) :
  (fst (showQuestion s) = Normal tt
   <-> (0 <= currentQuestionIndex s < Z.of_nat (length (questions s)))%Z) /\
  (fst (showQuestion s) <> Normal tt ->
   showQuestion s = (Throw TypeError, resetState s)) /\
  ((-1 <= currentQuestionIndex s)%Z -> fst (handleNextButton s) = Normal tt) /\
  (reachable s -> fst (handleNextButton s) = Normal tt).
Proof.
  assert (Hnext : (-1 <= currentQuestionIndex s)%Z ->
                  fst (handleNextButton s) = Normal tt).
  { intros Hi. unfold handleNextButton, bind, modify; simpl.
    destruct (currentQuestionIndex s + 1 <? Z.of_nat (length (questions s)))%Z eqn:E;
      [|reflexivity].
    apply Z.ltb_lt in E.
    destruct (array_get_some (questions s) (i := (currentQuestionIndex s + 1)%Z))
      as [q Hq]; [lia|].
    rewrite (@showQuestion_some
               (set_currentQuestionIndex (currentQuestionIndex s + 1) s) q Hq).
    reflexivity. }
  assert (Hsession : reachable s -> fst (handleNextButton s) = Normal tt).
  { intros Hr. destruct (reachable_invariant Hr) as (_ & Hi & _).
    apply Hnext. lia. }
  destruct (array_get (questions s) (currentQuestionIndex s)) as [q|] eqn:E.
  - pose proof (array_get_in_range _ _ E) as Hrange.
    rewrite (showQuestion_some s E). simpl.
    split; [split; [intros _; exact Hrange | reflexivity]|].
    split; [congruence|]. split; assumption.
  - rewrite (showQuestion_none s E). simpl.
    split; [split; [discriminate|]|].
    + intros Hrange. destruct (array_get_some (questions s) Hrange) as [q Hq].
      congruence.
    + split; [reflexivity|]. split; assumption.
Qed.

Lemma showQuestion_completes_witness :
  reachable answered_q1 /\
  fst (handleNextButton answered_q1) = Normal tt /\
  showQuestion blank = (Throw TypeError, resetState blank).
Proof.
  destruct (showQuestion_completes answered_q1) as (_ & _ & _ & Hr).
  destruct (showQuestion_completes blank) as (_ & Hthrow & _).
  refine (conj answered_q1_reachable (conj (Hr answered_q1_reachable) _)).
  apply Hthrow. discriminate.
Defined.

(** ** The text decoder: more texts *)

Lemma rcdata_literal_ampersands table (s : jsstring) :
  literal_ampersands s = true ->
  Forall (fun c => c <> HTML.NUL) s ->
  HTML.rcdata table 0 s = s.
Proof.
  intros Hlit Hnul. induction Hnul as [|c rest Hc _ IH]; [reflexivity|].
  simpl in Hlit. apply andb_true_iff in Hlit as [Hhere Hrest].
  simpl. apply N.eqb_neq in Hc.
  destruct (c =? HTML.AMPERSAND)%N eqn:E.
  - assert (Hnone : HTML.character_reference table rest = None).
    { destruct rest as [|d rest']; [reflexivity|]. simpl.
      apply andb_true_iff in Hhere as [Halnum Hsharp].
      apply negb_true_iff in Halnum, Hsharp.
      rewrite Hsharp, Halnum. reflexivity. }
    rewrite Hnone, (IH Hrest). apply N.eqb_eq in E. rewrite E. reflexivity.
  - rewrite Hc, (IH Hrest). reflexivity.
Qed.

(** X11: [decodeHTML] returns unchanged every text whose ampersands
    cannot start a character reference (each ends the text or stands
    before something other than a letter, a digit or a number sign) and
    which holds no carriage return and no U+0000: "Tom & Jerry" stays as
    it is. *)
Theorem decodeHTML_literal_ampersands (s : jsstring) :
  literal_ampersands s = true ->
  Forall (fun c => c <> HTML.CR /\ c <> HTML.NUL) s ->
  decodeHTML s = s.
Proof.
  intros Hlit Hs. unfold decodeHTML, HTML.value, HTML.set_innerHTML; simpl.
  assert (Hcr : Forall (fun c => c <> HTML.CR) s)
    by (eapply Forall_impl; [|exact Hs]; simpl; tauto).
  assert (Hnul : Forall (fun c => c <> HTML.NUL) s)
    by (eapply Forall_impl; [|exact Hs]; simpl; tauto).
  rewrite (normalize_newlines_plain Hcr).
  rewrite (@rcdata_literal_ampersands _ s Hlit Hnul).
  apply normalize_newlines_plain, Hcr.
Qed.

Lemma decodeHTML_literal_ampersands_witness :
  literal_ampersands (lit "Tom & Jerry") = true /\
  Forall (fun c => c <> HTML.CR /\ c <> HTML.NUL) (lit "Tom & Jerry") /\
  decodeHTML (lit "Tom & Jerry") = lit "Tom & Jerry".
Proof.
  assert (H1 : literal_ampersands (lit "Tom & Jerry") = true) by reflexivity.
  assert (H2 : Forall (fun c => c <> HTML.CR /\ c <> HTML.NUL) (lit "Tom & Jerry")).
  { repeat constructor; discriminate. }
  exact (conj H1 (conj H2 (@decodeHTML_literal_ampersands _ H1 H2))).
Defined.

Lemma escape_unit_decoded (c : N) (rest : jsstring) :
  c <> HTML.NUL ->
  HTML.rcdata HTML.named_character_references 0 (escape_unit c ++ rest)
  = c :: HTML.rcdata HTML.named_character_references 0 rest.
Proof.
  intros Hc. unfold escape_unit.
  destruct (N.eqb_spec c 38); [subst; reflexivity|].
  destruct (N.eqb_spec c 60); [subst; reflexivity|].
  destruct (N.eqb_spec c 62); [subst; reflexivity|].
  destruct (N.eqb_spec c 34); [subst; reflexivity|].
  destruct (N.eqb_spec c 39); [subst; reflexivity|].
  simpl. apply N.eqb_neq in Hc.
  replace (c =? HTML.AMPERSAND)%N with false
    by (symmetry; apply N.eqb_neq; assumption).
  rewrite Hc. reflexivity.
Qed.

Lemma escape_unit_no_return (c : N) :
  c <> HTML.CR -> Forall (fun d => d <> HTML.CR) (escape_unit c).
Proof.
  intros Hc. unfold escape_unit.
  repeat match goal with
         | |- context [if ?b then _ else _] => destruct b
         end;
    repeat constructor; try discriminate; assumption.
Qed.

(** X12: [decodeHTML] undoes the escaping of the question bank: for
    every text without carriage return and U+0000, escaping the
    ampersand, the angle brackets and the quotes and then decoding gives
    the text back. *)
Theorem decodeHTML_escapeHTML (s : jsstring) :
  Forall (fun c => c <> HTML.CR /\ c <> HTML.NUL) s ->
  decodeHTML (escapeHTML s) = s.
Proof.
  intros Hs. unfold decodeHTML, HTML.value, HTML.set_innerHTML; simpl.
  assert (Hcr : Forall (fun c => c <> HTML.CR) s)
    by (eapply Forall_impl; [|exact Hs]; simpl; tauto).
  assert (Hesc : Forall (fun c => c <> HTML.CR) (escapeHTML s)).
  { clear Hs. induction Hcr as [|c rest Hc _ IH]; simpl; [constructor|].
    apply Forall_app. split; [apply escape_unit_no_return, Hc | exact IH]. }
  rewrite (normalize_newlines_plain Hesc).
  assert (Hrun : HTML.rcdata HTML.named_character_references 0 (escapeHTML s) = s).
  { clear Hcr Hesc. induction Hs as [|c rest [_ Hc] _ IH]; [reflexivity|].
    simpl. rewrite (@escape_unit_decoded c _ Hc), IH. reflexivity. }
  rewrite Hrun. apply normalize_newlines_plain, Hcr.
Qed.

Lemma decodeHTML_escapeHTML_witness :
  Forall (fun c => c <> HTML.CR /\ c <> HTML.NUL) (lit "<b>R&B</b>") /\
  escapeHTML (lit "<b>R&B</b>") = lit "&lt;b&gt;R&amp;B&lt;/b&gt;" /\
  decodeHTML (escapeHTML (lit "<b>R&B</b>")) = lit "<b>R&B</b>".
Proof.
  assert (H : Forall (fun c => c <> HTML.CR /\ c <> HTML.NUL) (lit "<b>R&B</b>")).
  { repeat constructor; discriminate. }
  exact (conj H (conj eq_refl (decodeHTML_escapeHTML H))).
Defined.

Lemma normalize_newlines_no_return (n : nat) :
  forall s, (length s <= n)%nat ->
            Forall (fun c => c <> HTML.CR) (HTML.normalize_newlines s).
Proof.
  induction n as [|n IH]; intros [|c rest] Hlen; simpl in *;
    try constructor; try lia.
  destruct (N.eqb_spec c HTML.CR) as [->|Hc].
  - destruct rest as [|c' rest'].
    + repeat constructor. discriminate.
    + destruct (c' =? HTML.LF)%N; constructor; try discriminate;
        apply IH; simpl in *; lia.
  - constructor; [exact Hc | apply IH; lia].
Qed.

(** X13: the text [decodeHTML] returns never holds a carriage return,
    whatever it is given, a reference to character 13 included. *)
Theorem decodeHTML_no_carriage_return (s : jsstring) :
  Forall (fun c => c <> HTML.CR) (decodeHTML s).
Proof.
  unfold decodeHTML, HTML.value.
  eapply normalize_newlines_no_return. apply Nat.le_refl.
Qed.

(** ** Replay and what the events leave alone *)

Lemma handleNextButton_output (s : State) :
  output (snd (handleNextButton s)) = output s.
Proof.
  unfold handleNextButton, bind, modify; simpl.
  destruct (currentQuestionIndex s + 1 <? Z.of_nat (length (questions s)))%Z;
    [|reflexivity].
  run.
  match goal with |- context [array_get ?a ?i] => destruct (array_get a i) end;
    reflexivity.
Qed.

(** X14: a replay that fails can be tried again.  From a finished
    session with questions, a click on the next button sends a request,
    and when that request ends in any way but an ok response with a list
    of results, the page is as it was: the session finished with the same
    questions and score, the score shown, the next button visible under
    "Play Again" and no request pending more than before; one alert has
    been added. *)
Theorem replay_failure_keeps_page (t : Transport) random (s : State) :
  reachable s ->
  Finished s ->
  questions s <> [] ->
  (forall results, t <> Response true (Data (Some results))) ->
  let s' := snd (fetchQuestions_resume t random (nextButton_click s)) in
  Finished s' /\
  questions s' = questions s /\
  score s' = score s /\
  questionElement s' = score_message s' /\
  nextButton_innerHTML s' = lit "Play Again" /\
  nextButton_display s' = "block"%string /\
  answerButtons s' = [] /\
  fetching s' = fetching s /\
  alerts s' = alerts s ++ ["Could not load questions. Please try again later."%string].
Proof.
  intros Hr Hf Hne Ht s'. subst s'.
  pose proof (reachable_page Hr) as Hpage.
  unfold page_consistent, Finished in *.
  rewrite array_get_none in Hpage by lia.
  destruct Hpage as [Hnil Hend]. destruct (Hend Hne) as (Hm & Hl & Hd).
  assert (Hclick : nextButton_click s = fetchQuestions_call s).
  { unfold nextButton_click. rewrite Hf, Z.ltb_irrefl. reflexivity. }
  rewrite Hclick.
  unfold fetchQuestions_resume, fetchQuestions_try, fetchQuestions_call,
    score_message, alerts in *.
  destruct t as [|[|] [|[results|]]]; simpl;
    try (repeat split; try assumption; rewrite flat_map_app; reflexivity).
  exfalso. exact (Ht results eq_refl).
Qed.

Lemma replay_failure_keeps_page_witness :
  let s := nextButton_click (click_answer 0 (snd (startQuiz (set_questions [q1] blank)))) in
  reachable s /\ Finished s /\
  nextButton_display (snd (fetchQuestions_resume (Response false NotJSON) half
                             (nextButton_click s))) = "block"%string.
Proof.
  intros s.
  assert (Hr : reachable s).
  { apply reachable_step
      with (s := click_answer 0 (snd (startQuiz (set_questions [q1] blank))))
           (a := ClickNext); [|apply step_click_next].
    apply reachable_step
      with (s := snd (startQuiz (set_questions [q1] blank))) (a := ClickAnswer 0);
      [|eapply (@step_click_answer 0); reflexivity].
    apply reachable_start with (s0 := set_questions [q1] blank). reflexivity. }
  assert (Hf : Finished s) by reflexivity.
  assert (Hne : questions s <> []) by discriminate.
  assert (Ht : forall results,
             Response false NotJSON <> Response true (Data (Some results)))
    by discriminate.
  destruct (@replay_failure_keeps_page _ half s Hr Hf Hne Ht)
    as (_ & _ & _ & _ & _ & Hd & _).
  exact (conj Hr (conj Hf Hd)).
Defined.

(** X15: what the events of a session leave alone.  A click, on an
    enabled answer button or on the next button, never changes
    [questions] and never writes to the console or shows an alert, and it
    moves neither [score] nor [currentQuestionIndex] down nor up by more
    than one; the end of a fetch adds to the output either nothing or one
    console error followed by the one alert. *)
Theorem events_frame (s : State) (a : Action) (s' : State) :
  step s a s' ->
  match a with
  | ClickAnswer _ | ClickNext =>
      questions s' = questions s /\
      output s' = output s /\
      (score s <= score s' <= score s + 1)%Z /\
      (currentQuestionIndex s <= currentQuestionIndex s'
       <= currentQuestionIndex s + 1)%Z
  | FetchEnds _ _ =>
      output s' = output s \/
      exists error,
        output s'
        = output s ++ [ConsoleError error;
                       Alert "Could not load questions. Please try again later."]
  end.
Proof.
  intros Hstep. destruct Hstep as [k button s Hk Hen|s|t random s Hf Hr].
  - unfold click_answer. rewrite Hk, Hen.
    destruct (selectAnswer_run {| target := Child k |} s Hk)
      as (_ & Hi & Hq & Hs & _).
    destruct (selectAnswer_child k s Hk) as (_ & _ & _ & _ & Ho & _).
    rewrite Hi, Hq, Hs, Ho.
    destruct (dataset_correct_is_true button); repeat split; lia.
  - unfold nextButton_click.
    destruct (currentQuestionIndex s <? Z.of_nat (length (questions s)))%Z.
    + destruct (handleNextButton_frame s) as (Hi & Hs & Hq & _).
      rewrite Hi, Hs, Hq, handleNextButton_output. repeat split; lia.
    + unfold fetchQuestions_call; simpl. repeat split; lia.
  - unfold fetchQuestions_resume, fetchQuestions_try.
    destruct t as [|[|] [|[results|]]]; simpl; eauto.
    run.
    match goal with |- context [array_get ?l ?i] => destruct (array_get l i) end;
      simpl; eauto.
Qed.

Lemma events_frame_witness :
  step started (ClickAnswer 0) answered_q1 /\
  questions answered_q1 = questions started /\
  output answered_q1 = output started.
Proof.
  assert (Hstep : step started (ClickAnswer 0) answered_q1).
  { eapply (@step_click_answer 0); reflexivity. }
  destruct (events_frame Hstep) as (Hq & Ho & _).
  exact (conj Hstep (conj Hq Ho)).
Defined.
